(** * bio-poll: the vote-casting and tallying protocol

    A shallow embedding of the parts of the voting application that decide
    how ballots are cast and tallied:

    - the relational schema and its row-level-security policies
      (the SQL migration: tables [profiles], [user_roles], [face_data],
      [elections], [candidates], [votes]);
    - the voter dashboard ([Dashboard.initDashboard]);
    - the voting page ([Vote.loadElection], [handleCastVote], [startCamera],
      [verifyAndSubmit]);
    - the results page ([Results.loadResults]);
    - the administrators' requests (elections and candidates management).

    The datastore is modelled as a record of tables (lists of rows, in
    insertion order); every request of a page is one atomic function on the
    store, evaluated under the identity [auth.uid()] of the caller.  Sessions
    interleave at the granularity of requests. *)

From Stdlib Require Import ZArith QArith Qabs Qpower List String Bool Lia Lqa Permutation Sorted.
From Stdlib Require Import Floats.SpecFloat.
From stdpp Require Import gmap strings.

Import ListNotations.
Local Open Scope string_scope.
Local Open Scope list_scope.
Local Open Scope nat_scope.

(** ** Schema *)

(** Row identifiers are UUIDs generated by the datastore; the pages handle
    them as strings. *)
Abbreviation uuid := string.

(** [status TEXT CHECK (status IN ('scheduled','active','paused','ended'))] *)
Inductive election_status := scheduled | active | paused | ended.

(** [CREATE TYPE app_role AS ENUM ('user', 'admin')] *)
Inductive app_role := role_user | role_admin.

Definition status_eqb (a b : election_status) : bool :=
  match a, b with
  | scheduled, scheduled | active, active | paused, paused | ended, ended => true
  | _, _ => false
  end.

Definition role_eqb (a b : app_role) : bool :=
  match a, b with
  | role_user, role_user | role_admin, role_admin => true
  | _, _ => false
  end.

(** Rows carry the columns that the modelled pages read or write; each field
    is the column of the same name behind a one-letter table prefix.
    [BOOLEAN DEFAULT FALSE] columns are nullable, hence [option bool]. *)
Record profile_row := {
  p_id : uuid;
  p_face_registered : option bool;
  p_avatar_url : option string
}.

Record face_datum := {
  fd_user_id : uuid;
  fd_face_encoding : string
}.

Record election_row := {
  e_id : uuid;
  e_status : election_status;
  e_results_published : option bool;
  e_created_by : uuid
}.

Record candidate_row := {
  c_id : uuid;
  c_election_id : uuid;
  c_name : string;
  c_party : option string
}.

Record vote_row := {
  v_election_id : uuid;
  v_candidate_id : uuid;
  v_voter_id : uuid;
  v_vote_receipt : string;
  v_face_verified : option bool
}.

Record db := {
  profiles : list profile_row;
  user_roles : list (uuid * app_role);
  face_data : list face_datum;
  elections : list election_row;
  candidates : list candidate_row;
  votes : list vote_row
}.

Definition empty_db : db :=
  {| profiles := []; user_roles := []; face_data := [];
     elections := []; candidates := []; votes := [] |}.

(** JavaScript truthiness of a nullable boolean column. *)
Definition truthy (b : option bool) : bool :=
  match b with Some true => true | _ => false end.

(** ** Row-level security *)

(** [auth.uid() = id]; the comparison is NULL, hence not satisfied, for an
    anonymous caller. *)
Definition uid_is (uid : option uuid) (id : uuid) : bool :=
  match uid with Some u => String.eqb u id | None => false end.

(** [public.has_role(_user_id, _role)] *)
Definition has_role (d : db) (uid : option uuid) (r : app_role) : bool :=
  match uid with
  | Some u => existsb (fun ur => String.eqb (fst ur) u && role_eqb (snd ur) r) (user_roles d)
  | None => false
  end.

(** "Users can view their own profile", "Admins can view all profiles" *)
Definition profiles_select_policy (d : db) (uid : option uuid) (p : profile_row) : bool :=
  uid_is uid (p_id p) || has_role d uid role_admin.

(** "Anyone can view active elections", "Admins can manage elections" *)
Definition elections_select_policy (d : db) (uid : option uuid) (e : election_row) : bool :=
  status_eqb (e_status e) active || status_eqb (e_status e) ended
  || has_role d uid role_admin.

(** "Users can view their own vote receipt", "Admins can view all votes" *)
Definition votes_select_policy (d : db) (uid : option uuid) (v : vote_row) : bool :=
  uid_is uid (v_voter_id v) || has_role d uid role_admin.

(** "Users can insert their own vote": [WITH CHECK (auth.uid() = voter_id)] *)
Definition votes_insert_check (uid : option uuid) (voter : uuid) : bool :=
  uid_is uid voter.

(** "Admins can manage elections", "Admins can manage candidates" (FOR ALL) *)
Definition admin_policy (d : db) (uid : option uuid) : bool :=
  has_role d uid role_admin.

(** ** Requests *)

(** SQLSTATE classes a rejected statement reports. *)
Inductive pg_error :=
| insufficient_privilege   (* 42501: row-level security *)
| not_null_violation       (* 23502 *)
| unique_violation         (* 23505 *)
| foreign_key_violation.   (* 23503 *)

Inductive pg_result :=
| pg_ok (d : db)
| pg_fail (e : pg_error).

(** [.single()]: the row when exactly one row matches, otherwise no data. *)
Definition single {A : Type} (rows : list A) : option A :=
  match rows with
  | [r] => Some r
  | _ => None
  end.

(** [from("elections").select("*").eq("id", electionId).single()] *)
Definition select_election (d : db) (uid : option uuid) (electionId : uuid) : option election_row :=
  single (List.filter (fun e => elections_select_policy d uid e && String.eqb (e_id e) electionId)
            (elections d)).

(** [from("candidates").select("*").eq("election_id", electionId)];
    "Anyone can view candidates". *)
Definition select_candidates (d : db) (electionId : uuid) : list candidate_row :=
  List.filter (fun c => String.eqb (c_election_id c) electionId) (candidates d).

(** [from("votes").select("id").eq("election_id", electionId)
      .eq("voter_id", session.user.id).single()] *)
Definition select_own_vote (d : db) (uid : option uuid) (electionId voter : uuid) : option vote_row :=
  single (List.filter (fun v => votes_select_policy d uid v
                                && String.eqb (v_election_id v) electionId
                                && String.eqb (v_voter_id v) voter)
            (votes d)).

(** The ballot rows of an election that the caller may read. *)
Definition readable_votes (d : db) (uid : option uuid) (electionId : uuid) : list vote_row :=
  List.filter (fun v => votes_select_policy d uid v && String.eqb (v_election_id v) electionId)
    (votes d).

(** [from("votes").select("candidate_id").eq("election_id", electionId)] *)
Definition select_votes (d : db) (uid : option uuid) (electionId : uuid) : list uuid :=
  map v_candidate_id (readable_votes d uid electionId).

(** [from("profiles").select("*").eq("id", id).single()] *)
Definition select_profile (d : db) (uid : option uuid) (id : uuid) : option profile_row :=
  single (List.filter (fun p => profiles_select_policy d uid p && String.eqb (p_id p) id)
            (profiles d)).

(** [from("elections").select("*").in("status", ["active", "ended"])]
    (the ORDER BY on [start_time] is not modelled). *)
Definition select_open_elections (d : db) (uid : option uuid) : list election_row :=
  List.filter (fun e => elections_select_policy d uid e
                        && (status_eqb (e_status e) active || status_eqb (e_status e) ended))
    (elections d).

(** The object passed to [from("votes").insert(...)]; [candidate_id] is the
    page's [selectedCandidate], which may be [null]. *)
Record vote_payload := {
  election_id : uuid;
  candidate_id : option uuid;
  voter_id : uuid;
  vote_receipt : string;
  face_verified : bool
}.

Definition with_votes (d : db) (vs : list vote_row) : db :=
  {| profiles := profiles d; user_roles := user_roles d; face_data := face_data d;
     elections := elections d; candidates := candidates d; votes := vs |}.

Definition with_candidates (d : db) (cs : list candidate_row) : db :=
  {| profiles := profiles d; user_roles := user_roles d; face_data := face_data d;
     elections := elections d; candidates := cs; votes := votes d |}.

Definition with_elections (d : db) (es : list election_row) : db :=
  {| profiles := profiles d; user_roles := user_roles d; face_data := face_data d;
     elections := es; candidates := candidates d; votes := votes d |}.

Definition with_profiles (d : db) (ps : list profile_row) : db :=
  {| profiles := ps; user_roles := user_roles d; face_data := face_data d;
     elections := elections d; candidates := candidates d; votes := votes d |}.

(** [INSERT INTO votes]: the row-level check, then the constraints of the
    [votes] table: NOT NULL, UNIQUE(vote_receipt),
    UNIQUE(election_id, voter_id), and the three foreign keys. *)
Definition insert_vote (d : db) (uid : option uuid) (p : vote_payload) : pg_result :=
  if negb (votes_insert_check uid (voter_id p)) then pg_fail insufficient_privilege
  else match candidate_id p with
  | None => pg_fail not_null_violation
  | Some cid =>
    if existsb (fun v => String.eqb (v_vote_receipt v) (vote_receipt p)) (votes d)
    then pg_fail unique_violation
    else if existsb (fun v => String.eqb (v_election_id v) (election_id p)
                              && String.eqb (v_voter_id v) (voter_id p)) (votes d)
    then pg_fail unique_violation
    else if negb (existsb (fun e => String.eqb (e_id e) (election_id p)) (elections d))
    then pg_fail foreign_key_violation
    else if negb (existsb (fun c => String.eqb (c_id c) cid) (candidates d))
    then pg_fail foreign_key_violation
    else if negb (existsb (fun q => String.eqb (p_id q) (voter_id p)) (profiles d))
    then pg_fail foreign_key_violation
    else pg_ok (with_votes d (votes d ++
           [{| v_election_id := election_id p; v_candidate_id := cid;
               v_voter_id := voter_id p; v_vote_receipt := vote_receipt p;
               v_face_verified := Some (face_verified p) |}]))
  end.

(** [from("elections").insert({..., status: "scheduled", created_by})];
    [results_published] takes its default. [new_id] is the identifier the
    datastore generates. *)
Definition insert_election (d : db) (uid : option uuid) (new_id created_by : uuid) : pg_result :=
  if negb (admin_policy d uid) then pg_fail insufficient_privilege
  else if existsb (fun e => String.eqb (e_id e) new_id) (elections d)
  then pg_fail unique_violation
  else if negb (existsb (fun q => String.eqb (p_id q) created_by) (profiles d))
  then pg_fail foreign_key_violation
  else pg_ok (with_elections d (elections d ++
         [{| e_id := new_id; e_status := scheduled;
             e_results_published := Some false; e_created_by := created_by |}])).

(** [from("elections").update({ status }).eq("id", id)]: rows the caller may
    not manage are not matched, and matching no row is not an error. *)
Definition update_election_status (d : db) (uid : option uuid) (id : uuid)
    (s : election_status) : pg_result :=
  pg_ok (with_elections d
    (map (fun e => if admin_policy d uid && String.eqb (e_id e) id
                   then {| e_id := e_id e; e_status := s;
                           e_results_published := e_results_published e;
                           e_created_by := e_created_by e |}
                   else e) (elections d))).

(** [from("elections").update({ results_published: true }).eq("id", id)] *)
Definition publish_results (d : db) (uid : option uuid) (id : uuid) : pg_result :=
  pg_ok (with_elections d
    (map (fun e => if admin_policy d uid && String.eqb (e_id e) id
                   then {| e_id := e_id e; e_status := e_status e;
                           e_results_published := Some true;
                           e_created_by := e_created_by e |}
                   else e) (elections d))).

(** Deleting candidates cascades to the ballots that reference them
    ([candidate_id ... ON DELETE CASCADE]). *)
Definition delete_candidates_where (d : db) (doomed : candidate_row -> bool) : db :=
  let gone := map c_id (List.filter doomed (candidates d)) in
  {| profiles := profiles d; user_roles := user_roles d; face_data := face_data d;
     elections := elections d;
     candidates := List.filter (fun c => negb (doomed c)) (candidates d);
     votes := List.filter
                (fun v => negb (existsb (String.eqb (v_candidate_id v)) gone))
                (votes d) |}.

(** [from("candidates").delete().eq("id", id)] *)
Definition delete_candidate (d : db) (uid : option uuid) (id : uuid) : pg_result :=
  pg_ok (delete_candidates_where d
           (fun c => admin_policy d uid && String.eqb (c_id c) id)).

(** [from("elections").delete().eq("id", id)]: cascades to the election's
    candidates (and their ballots) and to the election's ballots. *)
Definition delete_election (d : db) (uid : option uuid) (id : uuid) : pg_result :=
  if admin_policy d uid && existsb (fun e => String.eqb (e_id e) id) (elections d) then
    let d1 := delete_candidates_where d (fun c => String.eqb (c_election_id c) id) in
    pg_ok {| profiles := profiles d1; user_roles := user_roles d1;
             face_data := face_data d1;
             elections := List.filter (fun e => negb (String.eqb (e_id e) id)) (elections d1);
             candidates := candidates d1;
             votes := List.filter (fun v => negb (String.eqb (v_election_id v) id)) (votes d1) |}
  else pg_ok d.

(** [from("candidates").insert({ name, party, ..., election_id })] *)
Definition insert_candidate (d : db) (uid : option uuid) (new_id : uuid)
    (name : string) (party : option string) (electionId : uuid) : pg_result :=
  if negb (admin_policy d uid) then pg_fail insufficient_privilege
  else if existsb (fun c => String.eqb (c_id c) new_id) (candidates d)
  then pg_fail unique_violation
  else if negb (existsb (fun e => String.eqb (e_id e) electionId) (elections d))
  then pg_fail foreign_key_violation
  else pg_ok (with_candidates d (candidates d ++
         [{| c_id := new_id; c_election_id := electionId;
             c_name := name; c_party := party |}])).

(** [from("face_data").insert({ user_id, face_encoding })]:
    "Users can insert their own face data", [user_id ... UNIQUE]. *)
Definition insert_face_data (d : db) (uid : option uuid) (user : uuid) (enc : string)
    : pg_result :=
  if negb (uid_is uid user) then pg_fail insufficient_privilege
  else if existsb (fun f => String.eqb (fd_user_id f) user) (face_data d)
  then pg_fail unique_violation
  else if negb (existsb (fun q => String.eqb (p_id q) user) (profiles d))
  then pg_fail foreign_key_violation
  else pg_ok {| profiles := profiles d; user_roles := user_roles d;
                face_data := face_data d ++ [{| fd_user_id := user; fd_face_encoding := enc |}];
                elections := elections d; candidates := candidates d; votes := votes d |}.

(** [from("profiles").update({ face_registered: true, avatar_url }).eq("id", id)]:
    "Users can update their own profile". *)
Definition update_profile_face (d : db) (uid : option uuid) (id : uuid) (avatar : string)
    : pg_result :=
  pg_ok (with_profiles d
    (map (fun q => if uid_is uid (p_id q) && String.eqb (p_id q) id
                   then {| p_id := p_id q; p_face_registered := Some true;
                           p_avatar_url := Some avatar |}
                   else q) (profiles d))).

(** [handle_new_user()], the trigger run when an account is created: a
    profile with [face_registered] at its default, and the role 'user'. *)
Definition handle_new_user (d : db) (new_user : uuid) : pg_result :=
  if existsb (fun q => String.eqb (p_id q) new_user) (profiles d)
  then pg_fail unique_violation
  else pg_ok {| profiles := profiles d ++
                  [{| p_id := new_user; p_face_registered := Some false;
                      p_avatar_url := None |}];
                user_roles := user_roles d ++ [(new_user, role_user)];
                face_data := face_data d;
                elections := elections d; candidates := candidates d; votes := votes d |}.

(** Every statement a client of the datastore can issue in this
    application, with the identity it is issued under. *)
Inductive request :=
| rq_sign_up (new_user : uuid)
| rq_insert_face_data (uid : option uuid) (user : uuid) (enc : string)
| rq_update_profile_face (uid : option uuid) (id : uuid) (avatar : string)
| rq_insert_election (uid : option uuid) (new_id created_by : uuid)
| rq_update_election_status (uid : option uuid) (id : uuid) (s : election_status)
| rq_publish_results (uid : option uuid) (id : uuid)
| rq_delete_election (uid : option uuid) (id : uuid)
| rq_insert_candidate (uid : option uuid) (new_id : uuid) (name : string)
    (party : option string) (electionId : uuid)
| rq_delete_candidate (uid : option uuid) (id : uuid)
| rq_insert_vote (uid : option uuid) (p : vote_payload).

Definition exec (d : db) (r : request) : pg_result :=
  match r with
  | rq_sign_up u => handle_new_user d u
  | rq_insert_face_data uid u enc => insert_face_data d uid u enc
  | rq_update_profile_face uid id a => update_profile_face d uid id a
  | rq_insert_election uid i c => insert_election d uid i c
  | rq_update_election_status uid id s => update_election_status d uid id s
  | rq_publish_results uid id => publish_results d uid id
  | rq_delete_election uid id => delete_election d uid id
  | rq_insert_candidate uid i n p e => insert_candidate d uid i n p e
  | rq_delete_candidate uid id => delete_candidate d uid id
  | rq_insert_vote uid p => insert_vote d uid p
  end.

(** A rejected statement leaves the store as it was. *)
Definition commit (d : db) (r : pg_result) : db :=
  match r with pg_ok d' => d' | pg_fail _ => d end.

(** Requests of any number of sessions, in the order the datastore
    serialises them. *)
Definition run (d : db) (rs : list request) : db :=
  fold_left (fun d r => commit d (exec d r)) rs d.

(** ** What a page does besides updating its state *)

Inductive effect :=
| toast_error (message : string)
| toast_success (message : string)
| toast_info (message : string)
| navigate (path : string)
| navigate_after (ms : nat) (path : string)
| stop_tracks.

(** What a [try] block can throw.  [new Error(message)] is an instance of
    [Error]; the [error] member of a response of the datastore client is the
    object parsed from the body of the HTTP response, an object literal with
    the members [code], [message], [details] and [hint], which is not. *)
Inductive thrown :=
| Error_instance (message : string)
| response_error (e : pg_error).

(** [error instanceof Error] *)
Definition instanceof_Error (t : thrown) : bool :=
  match t with
  | Error_instance _ => true
  | response_error _ => false
  end.

Definition error_message (t : thrown) : string :=
  match t with
  | Error_instance m => m
  | response_error insufficient_privilege => "new row violates row-level security policy"
  | response_error not_null_violation => "null value violates not-null constraint"
  | response_error unique_violation => "duplicate key value violates unique constraint"
  | response_error foreign_key_violation => "insert violates foreign key constraint"
  end.

(** ** Dashboard page *)

Module Dashboard.

Record state := {
  user : option uuid;
  profile : option profile_row;
  elections : list election_row;
  loading : bool
}.

Definition initial : state :=
  {| user := None; profile := None; elections := []; loading := true |}.

(** [!profileData?.face_registered] *)
Definition face_registered_missing (profileData : option profile_row) : bool :=
  match profileData with
  | Some q => negb (truthy (p_face_registered q))
  | None => true
  end.

Definition initDashboard (session : option uuid) (d : db) (st : state)
    : state * list effect :=
  match session with
  | None => (st, [navigate "/auth"])
  | Some uid =>
    let profileData := select_profile d (Some uid) uid in
    if face_registered_missing profileData then
      ({| user := Some uid; profile := profileData;
          elections := elections st; loading := loading st |},
       [toast_info "Please register your face for voting";
        navigate "/face-registration"])
    else
      ({| user := Some uid; profile := profileData;
          elections := select_open_elections d (Some uid); loading := false |},
       [])
  end.

End Dashboard.

(** ** Voting page *)

Module Vote.

Inductive MediaStream := user_camera.

Record state := {
  election : option election_row;
  candidates : list candidate_row;
  selectedCandidate : option uuid;
  showVerification : bool;
  verifying : bool;
  loading : bool;
  hasVoted : bool;
  stream : option MediaStream
}.

Definition initial : state :=
  {| election := None; candidates := []; selectedCandidate := None;
     showVerification := false; verifying := false; loading := true;
     hasVoted := false; stream := None |}.

(** [electionData && electionData.status === "active"] *)
Definition available_for_voting (electionData : option election_row) : bool :=
  match electionData with
  | Some e => status_eqb (e_status e) active
  | None => false
  end.

(** The effect run when the page is mounted for [electionId]. *)
Definition loadElection (electionId : uuid) (session : option uuid) (d : db)
    (st : state) : state * list effect :=
  match session with
  | None => (st, [navigate "/auth"])
  | Some uid =>
    let electionData := select_election d (Some uid) electionId in
    if negb (available_for_voting electionData) then
      (st, [toast_error "This election is not available for voting";
            navigate "/dashboard"])
    else
      let candidatesData := select_candidates d electionId in
      let voteData := select_own_vote d (Some uid) electionId uid in
      ({| election := electionData;
          candidates := candidatesData;
          selectedCandidate := selectedCandidate st;
          showVerification := showVerification st;
          verifying := verifying st;
          loading := false;
          hasVoted := match voteData with Some _ => true | None => hasVoted st end;
          stream := stream st |},
       [])
  end.

Definition setSelectedCandidate (c : option uuid) (st : state) : state :=
  {| election := election st; candidates := candidates st;
     selectedCandidate := c;
     showVerification := showVerification st; verifying := verifying st;
     loading := loading st; hasVoted := hasVoted st; stream := stream st |}.

Definition setShowVerification (b : bool) (st : state) : state :=
  {| election := election st; candidates := candidates st;
     selectedCandidate := selectedCandidate st;
     showVerification := b; verifying := verifying st;
     loading := loading st; hasVoted := hasVoted st; stream := stream st |}.

Definition setVerifying (b : bool) (st : state) : state :=
  {| election := election st; candidates := candidates st;
     selectedCandidate := selectedCandidate st;
     showVerification := showVerification st; verifying := b;
     loading := loading st; hasVoted := hasVoted st; stream := stream st |}.

Definition setHasVoted (b : bool) (st : state) : state :=
  {| election := election st; candidates := candidates st;
     selectedCandidate := selectedCandidate st;
     showVerification := showVerification st; verifying := verifying st;
     loading := loading st; hasVoted := b; stream := stream st |}.

Definition setStream (m : option MediaStream) (st : state) : state :=
  {| election := election st; candidates := candidates st;
     selectedCandidate := selectedCandidate st;
     showVerification := showVerification st; verifying := verifying st;
     loading := loading st; hasVoted := hasVoted st; stream := m |}.

Definition handleCastVote (st : state) : state * list effect :=
  match selectedCandidate st with
  | None => (st, [toast_error "Please select a candidate"])
  | Some _ => (setShowVerification true st, [])
  end.

(** [granted] is the user's answer to the camera permission prompt. *)
Definition startCamera (granted : bool) (st : state) : state * list effect :=
  if granted then (setStream (Some user_camera) st, [])
  else (st, [toast_error "Failed to access camera"]).

(** [`VR-${Date.now()}-${Math.random().toString(36).substr(2, 9)}`]:
    [now] and [suffix] are the printed clock value and random digits. *)
Definition voteReceipt (now suffix : string) : string :=
  "VR-" ++ now ++ "-" ++ suffix.

(** The body of the [try] block of [verifyAndSubmit], after
    [setVerifying(true)]: the new page state, store and effects, or the
    value thrown.  The simulated verification is a delay and has no
    outcome. *)
Definition try_submit (electionId : uuid) (session : option uuid) (now suffix : string)
    (d : db) (st : state) : (state * db * list effect) + thrown :=
  match session with
  | None => inr (Error_instance "Not authenticated")
  | Some uid =>
    match insert_vote d (Some uid)
            {| election_id := electionId;
               candidate_id := selectedCandidate st;
               voter_id := uid;
               vote_receipt := voteReceipt now suffix;
               face_verified := true |} with
    | pg_fail error => inr (response_error error)
    | pg_ok d' =>
      inl (setHasVoted true (setShowVerification false st), d',
           (match stream st with Some _ => [stop_tracks] | None => [] end)
           ++ [toast_success ("Vote cast successfully! Receipt: " ++ voteReceipt now suffix);
               navigate_after 2000 "/dashboard"])
    end
  end.

Definition verifyAndSubmit (electionId : uuid) (session : option uuid)
    (now suffix : string) (d : db) (st : state) : state * db * list effect :=
  let st1 := setVerifying true st in
  let '(st2, d2, effects) :=
    match try_submit electionId session now suffix d st1 with
    | inl done => done
    | inr error =>
      (st1, d, if instanceof_Error error then [toast_error (error_message error)] else [])
    end in
  (setVerifying false st2, d2, effects).

(** What the rendered page lets the user do. *)
Inductive event :=
| click_candidate (id : uuid)
| click_cast_vote
| click_start_verification (granted : bool)
| click_verify_and_submit (now suffix : string)
| close_dialog.

(** The controls are rendered only when voting is possible: not while
    loading, not once [hasVoted]; a card per loaded candidate; "Cast Vote"
    once a candidate is selected; inside the open dialog "Start
    Verification" without a stream and "Verify & Submit Vote" with one
    (disabled while verifying). *)
Definition enabled (st : state) (ev : event) : bool :=
  negb (loading st) && negb (hasVoted st) &&
  match ev with
  | click_candidate id => existsb (fun c => String.eqb (c_id c) id) (candidates st)
  | click_cast_vote => match selectedCandidate st with Some _ => true | None => false end
  | click_start_verification _ =>
      showVerification st && match stream st with None => true | Some _ => false end
  | click_verify_and_submit _ _ =>
      showVerification st && match stream st with Some _ => true | None => false end
      && negb (verifying st)
  | close_dialog => showVerification st
  end.

Definition handle (electionId : uuid) (session : option uuid) (ev : event)
    (d : db) (st : state) : state * db * list effect :=
  if negb (enabled st ev) then (st, d, [])
  else match ev with
  | click_candidate id => (setSelectedCandidate (Some id) st, d, [])
  | click_cast_vote => let '(st', eff) := handleCastVote st in (st', d, eff)
  | click_start_verification granted =>
      let '(st', eff) := startCamera granted st in (st', d, eff)
  | click_verify_and_submit now suffix => verifyAndSubmit electionId session now suffix d st
  | close_dialog => (setShowVerification false st, d, [])
  end.

(** A visit of the page: mounted on [d], then the user's events in order. *)
Fixpoint interact (electionId : uuid) (session : option uuid) (evs : list event)
    (d : db) (st : state) : state * db * list effect :=
  match evs with
  | [] => (st, d, [])
  | ev :: evs' =>
    let '(st1, d1, eff1) := handle electionId session ev d st in
    let '(st2, d2, eff2) := interact electionId session evs' d1 st1 in
    (st2, d2, eff1 ++ eff2)
  end.

End Vote.

(** ** Numbers *)

(** The arithmetic the results computation needs from JavaScript numbers.
    Ballot counts are small non-negative integers, which numbers represent
    exactly; division and multiplication round. *)
Class Number (num : Type) := {
  num_of_nat : nat -> num;
  num_div : num -> num -> num;
  num_mul : num -> num -> num
}.

(** IEEE 754 binary64, the arithmetic of the running program. *)
Definition binary64 := spec_float.

Definition b64_of_Z (z : Z) : binary64 := binary_normalize 53 1024 z 0 false.

#[export] Instance binary64_Number : Number binary64 := {|
  num_of_nat n := b64_of_Z (Z.of_nat n);
  num_div := SFdiv 53 1024;
  num_mul := SFmul 53 1024
|}.

(** Finite numbers: neither an infinity nor NaN. *)
Definition b64_finite (x : binary64) : bool :=
  match x with
  | S754_zero _ | S754_finite _ _ _ => true
  | _ => false
  end.

(** The rational a finite binary64 value denotes. *)
Definition b64_to_Q (x : binary64) : Q :=
  match x with
  | S754_finite s m e =>
      let v := (inject_Z (Z.pos m) * Qpower 2 e)%Q in
      if s then Qopp v else v
  | _ => 0%Q
  end.

(** ** Arrays *)

(** [Array.prototype.sort(compareFn)]: the sort is stable, and [a] stays
    before [b] unless [compareFn(a, b) > 0]. *)
Fixpoint sort_insert {A : Type} (compareFn : A -> A -> Z) (a : A) (sorted : list A) : list A :=
  match sorted with
  | [] => [a]
  | b :: rest =>
      if (compareFn a b <=? 0)%Z then a :: b :: rest
      else b :: sort_insert compareFn a rest
  end.

Definition array_sort {A : Type} (compareFn : A -> A -> Z) (l : list A) : list A :=
  fold_right (sort_insert compareFn) [] l.

(** The comparison [(a, b) => key(b) - key(a)], and the order it sorts into. *)
Definition descending {A : Type} (key : A -> nat) (a b : A) : Z :=
  (Z.of_nat (key b) - Z.of_nat (key a))%Z.

Definition ge_key {A : Type} (key : A -> nat) (a b : A) : Prop := key b <= key a.

(** ** Results page *)

Module Results.

Section WithNumber.
Context {num : Type} `{Number num}.

Record CandidateResult := {
  candidate : candidate_row;
  votes : nat;
  percentage : num
}.

Record state := {
  election : option election_row;
  results : list CandidateResult;
  totalVotes : nat;
  loading : bool
}.

Definition initial : state :=
  {| election := None; results := []; totalVotes := 0; loading := true |}.

(** [votesData.reduce((acc, vote) =>
      { acc[vote.candidate_id] = (acc[vote.candidate_id] || 0) + 1; return acc; }, {})] *)
Definition voteCounts (votesData : list uuid) : gmap uuid nat :=
  fold_left (fun acc vote => <[vote := default 0 (acc !! vote) + 1]> acc) votesData ∅.

(** [voteCount > 0 ? ((voteCounts[candidate.id] || 0) / voteCount) * 100 : 0] *)
Definition percentage_of (count voteCount : nat) : num :=
  if 0 <? voteCount
  then num_mul (num_div (num_of_nat count) (num_of_nat voteCount)) (num_of_nat 100)
  else num_of_nat 0.

(** [candidatesData.map(candidate => ({ ...candidate, votes, percentage }))
      .sort((a, b) => b.votes - a.votes)] *)
Definition resultsWithVotes (candidatesData : list candidate_row) (votesData : list uuid)
    : list CandidateResult :=
  let voteCount := length votesData in
  array_sort (fun a b => (Z.of_nat (votes b) - Z.of_nat (votes a))%Z)
    (map (fun c =>
            {| candidate := c;
               votes := default 0 (voteCounts votesData !! c_id c);
               percentage :=
                 percentage_of (default 0 (voteCounts votesData !! c_id c)) voteCount |})
         candidatesData).

(** [!electionData || !electionData.results_published] *)
Definition unpublished (electionData : option election_row) : bool :=
  match electionData with
  | Some e => negb (truthy (e_results_published e))
  | None => true
  end.

(** The effect run when the page is mounted for [electionId]; the page
    asks for no session, so the viewer may be anonymous. *)
Definition loadResults (electionId : uuid) (uid : option uuid) (d : db) (st : state)
    : state * list effect :=
  let electionData := select_election d uid electionId in
  if unpublished electionData then (st, [navigate "/dashboard"])
  else
    let candidatesData := select_candidates d electionId in
    let votesData := select_votes d uid electionId in
    ({| election := electionData;
        results := resultsWithVotes candidatesData votesData;
        totalVotes := length votesData;
        loading := false |},
     [])
  .

(** [const winner = results[0]] *)
Definition winner (st : state) : option CandidateResult := head (results st).

End WithNumber.

Arguments CandidateResult num : clear implicits.
Arguments state num : clear implicits.

End Results.

(** ** Administration pages *)

(** "Users can view their own roles", "Admins can manage all roles" *)
Definition user_roles_select_policy (d : db) (uid : option uuid) (ur : uuid * app_role) : bool :=
  uid_is uid (fst ur) || has_role d uid role_admin.

(** [from("user_roles").select("role").eq("user_id", id).eq("role", "admin").single()] *)
Definition select_admin_role (d : db) (uid : option uuid) (id : uuid)
    : option (uuid * app_role) :=
  single (List.filter (fun ur => user_roles_select_policy d uid ur
                                 && String.eqb (fst ur) id
                                 && role_eqb (snd ur) role_admin)
            (user_roles d)).

(** [from("elections").select("*")] (the ORDER BY on [created_at] is not
    modelled). *)
Definition select_all_elections (d : db) (uid : option uuid) : list election_row :=
  List.filter (elections_select_policy d uid) (elections d).

(** The check every administration page runs when mounted
    ([checkAdmin], [checkAdminAndLoadElections], [checkAdminAndLoadData],
    [checkAdminAndLoadVoters]): whether the page goes on, and what it shows
    otherwise. *)
Definition checkAdmin (session : option uuid) (d : db) : bool * list effect :=
  match session with
  | None => (false, [navigate "/auth"])
  | Some uid =>
    match select_admin_role d (Some uid) uid with
    | None => (false, [toast_error "Access denied. Admin privileges required.";
                       navigate "/dashboard"])
    | Some _ => (true, [])
    end
  end.

Definition status_name (s : election_status) : string :=
  match s with
  | scheduled => "scheduled"
  | active => "active"
  | paused => "paused"
  | ended => "ended"
  end.

Module ElectionsManagement.

Record state := {
  elections : list election_row;
  loading : bool;
  isDialogOpen : bool
}.

Definition initial : state :=
  {| elections := []; loading := true; isDialogOpen := false |}.

Definition loadElections (session : option uuid) (d : db) (st : state) : state :=
  {| elections := select_all_elections d session; loading := false;
     isDialogOpen := isDialogOpen st |}.

Definition checkAdminAndLoadElections (session : option uuid) (d : db) (st : state)
    : state * list effect :=
  let '(ok, effects) := checkAdmin session d in
  if ok then (loadElections session d st, effects) else (st, effects).

Definition setIsDialogOpen (b : bool) (st : state) : state :=
  {| elections := elections st; loading := loading st; isDialogOpen := b |}.

(** [onSubmit]: [new_id] is the identifier the datastore generates. *)
Definition onSubmit (session : option uuid) (new_id : uuid) (d : db) (st : state)
    : state * db * list effect :=
  match session with
  | None => (st, d, [])
  | Some uid =>
    match insert_election d (Some uid) new_id uid with
    | pg_fail _ => (st, d, [toast_error "Failed to create election"])
    | pg_ok d' =>
      (loadElections session d' (setIsDialogOpen false st), d',
       [toast_success "Election created successfully"])
    end
  end.

Definition updateElectionStatus (session : option uuid) (id : uuid) (status : election_status)
    (d : db) (st : state) : state * db * list effect :=
  match update_election_status d session id status with
  | pg_fail _ => (st, d, [toast_error "Failed to update election status"])
  | pg_ok d' =>
    (loadElections session d' st, d', [toast_success ("Election " ++ status_name status)])
  end.

(** [confirmed] is the answer to the [confirm(...)] prompt. *)
Definition deleteElection (confirmed : bool) (session : option uuid) (id : uuid)
    (d : db) (st : state) : state * db * list effect :=
  if negb confirmed then (st, d, [])
  else match delete_election d session id with
  | pg_fail _ => (st, d, [toast_error "Failed to delete election"])
  | pg_ok d' => (loadElections session d' st, d', [toast_success "Election deleted"])
  end.

Definition publishResults (session : option uuid) (id : uuid) (d : db) (st : state)
    : state * db * list effect :=
  match publish_results d session id with
  | pg_fail _ => (st, d, [toast_error "Failed to publish results"])
  | pg_ok d' =>
    (loadElections session d' st, d', [toast_success "Results published successfully"])
  end.

(** The buttons of the page. *)
Inductive event :=
| click_create_election
| submit_form (new_id : uuid)
| click_start (id : uuid)
| click_pause (id : uuid)
| click_end (id : uuid)
| click_resume (id : uuid)
| click_publish (id : uuid)
| click_delete (id : uuid) (confirmed : bool).

(** Whether the page lists an election [id] for which [shows] holds. *)
Definition lists (st : state) (id : uuid) (shows : election_row -> bool) : bool :=
  existsb (fun e => String.eqb (e_id e) id && shows e) (elections st).

(** Which button the card of an election carries depends on the status the
    page has loaded: "Start" when scheduled, "Pause" and "End" when active,
    "Resume" when paused, "Publish Results" when ended and not published,
    "Delete" always. *)
Definition enabled (st : state) (ev : event) : bool :=
  negb (loading st) &&
  match ev with
  | click_create_election => true
  | submit_form _ => isDialogOpen st
  | click_start id => lists st id (fun e => status_eqb (e_status e) scheduled)
  | click_pause id => lists st id (fun e => status_eqb (e_status e) active)
  | click_end id => lists st id (fun e => status_eqb (e_status e) active)
  | click_resume id => lists st id (fun e => status_eqb (e_status e) paused)
  | click_publish id =>
      lists st id (fun e => status_eqb (e_status e) ended
                            && negb (truthy (e_results_published e)))
  | click_delete id _ => lists st id (fun _ => true)
  end.

Definition handle (session : option uuid) (ev : event) (d : db) (st : state)
    : state * db * list effect :=
  if negb (enabled st ev) then (st, d, [])
  else match ev with
  | click_create_election => (setIsDialogOpen true st, d, [])
  | submit_form new_id => onSubmit session new_id d st
  | click_start id => updateElectionStatus session id active d st
  | click_pause id => updateElectionStatus session id paused d st
  | click_end id => updateElectionStatus session id ended d st
  | click_resume id => updateElectionStatus session id active d st
  | click_publish id => publishResults session id d st
  | click_delete id confirmed => deleteElection confirmed session id d st
  end.

Fixpoint interact (session : option uuid) (evs : list event) (d : db) (st : state)
    : state * db * list effect :=
  match evs with
  | [] => (st, d, [])
  | ev :: evs' =>
    let '(st1, d1, eff1) := handle session ev d st in
    let '(st2, d2, eff2) := interact session evs' d1 st1 in
    (st2, d2, eff1 ++ eff2)
  end.

End ElectionsManagement.

(** ** Face registration page *)

Module FaceRegistration.

Record state := {
  stream : option Vote.MediaStream;
  captured : bool;
  loading : bool;
  imageData : string
}.

(** The effect run when the page is mounted. *)
Definition checkAuth (session : option uuid) (d : db) : list effect :=
  match session with
  | None => [navigate "/auth"]
  | Some uid =>
    match select_profile d (Some uid) uid with
    | Some q => if truthy (p_face_registered q) then [navigate "/dashboard"] else []
    | None => []
    end
  end.

Definition setLoading (b : bool) (st : state) : state :=
  {| stream := stream st; captured := captured st; loading := b;
     imageData := imageData st |}.

(** The body of the [try] block of [registerFace]. *)
Definition try_register (session : option uuid) (d : db) (st : state)
    : (db * list effect) + thrown :=
  match session with
  | None => inr (Error_instance "Not authenticated")
  | Some uid =>
    match insert_face_data d (Some uid) uid (String.substring 0 500 (imageData st)) with
    | pg_fail faceError => inr (response_error faceError)
    | pg_ok d1 =>
      match update_profile_face d1 (Some uid) uid (String.substring 0 500 (imageData st)) with
      | pg_fail profileError => inr (response_error profileError)
      | pg_ok d2 =>
        inl (d2,
             [toast_success "Face registered successfully!"]
             ++ (match stream st with Some _ => [stop_tracks] | None => [] end)
             ++ [navigate_after 1500 "/dashboard"])
      end
    end
  end.

Definition registerFace (session : option uuid) (d : db) (st : state)
    : state * db * list effect :=
  let st1 := setLoading true st in
  let '(d2, effects) :=
    match try_register session d st1 with
    | inl done => done
    | inr error =>
      (d, if instanceof_Error error then [toast_error (error_message error)] else [])
    end in
  (setLoading false st1, d2, effects).

End FaceRegistration.

(** ** Histories *)

(** What the sessions of the application do to the store: a request sent to
    the datastore, or a press of "Verify & Submit Vote" on a voting page in
    some state. *)
Inductive action :=
| act_request (r : request)
| act_submit (electionId : uuid) (session : option uuid) (now suffix : string)
    (st : Vote.state).

Definition perform (d : db) (a : action) : db :=
  match a with
  | act_request r => commit d (exec d r)
  | act_submit electionId session now suffix st =>
      snd (fst (Vote.verifyAndSubmit electionId session now suffix d st))
  end.

(** The actions of any number of sessions, interleaved in any order. *)
Definition history (d : db) (acts : list action) : db := fold_left perform acts d.

(** ** The tally, stated on the ballots read *)

(** The number of ballots read that name candidate [k]. *)
Definition ballot_count (votesData : list uuid) (k : uuid) : nat :=
  count_occ string_dec votesData k.

(** The row a candidate is due: its ballot count, and that count over the
    number of ballots read, times 100. *)
Definition row_of {num : Type} `{Number num} (votesData : list uuid) (c : candidate_row)
    : Results.CandidateResult num :=
  {| Results.candidate := c;
     Results.votes := ballot_count votesData (c_id c);
     Results.percentage :=
       Results.percentage_of (ballot_count votesData (c_id c)) (length votesData) |}.

(** ** Constraints of the schema, as properties of a store *)

(** [UNIQUE(election_id, voter_id)] on [votes] *)
Definition votes_unique (d : db) : Prop :=
  List.NoDup (map (fun v => (v_election_id v, v_voter_id v)) (votes d)).

(** [id UUID PRIMARY KEY] on [candidates] *)
Definition candidate_ids_unique (d : db) : Prop :=
  List.NoDup (map c_id (candidates d)).

(** The ballots of voter [V] in election [E]. *)
Definition ballots_of (d : db) (E V : uuid) : list vote_row :=
  List.filter (fun v => String.eqb (v_election_id v) E && String.eqb (v_voter_id v) V) (votes d).

Fixpoint distinct_by {A : Type} (eqb : A -> A -> bool) (l : list A) : bool :=
  match l with
  | [] => true
  | x :: l' => negb (existsb (eqb x) l') && distinct_by eqb l'
  end.

Definition distinct (l : list string) : bool := distinct_by String.eqb l.

Definition mem (x : string) (l : list string) : bool := existsb (String.eqb x) l.

(** Every primary-key, UNIQUE and foreign-key constraint that the migration
    puts on the columns of the six tables of [db], decided on a concrete
    store: the primary keys of [profiles], [elections] and [candidates];
    UNIQUE on [face_data.user_id], on [votes.vote_receipt], on
    [votes(election_id, voter_id)] and on [user_roles(user_id, role)]; the
    foreign keys of [face_data], [user_roles], [elections], [candidates] and
    [votes].  (The generated [id] columns of [user_roles], [face_data] and
    [votes] are not columns of the model, and [auth.users] and [audit_log]
    are outside it.) *)
Definition schema_ok (d : db) : bool :=
  distinct (map p_id (profiles d))
  && distinct (map e_id (elections d))
  && distinct (map c_id (candidates d))
  && distinct (map fd_user_id (face_data d))
  && distinct (map v_vote_receipt (votes d))
  && distinct_by (fun a b => String.eqb (v_election_id a) (v_election_id b)
                              && String.eqb (v_voter_id a) (v_voter_id b)) (votes d)
  && forallb (fun f => mem (fd_user_id f) (map p_id (profiles d))) (face_data d)
  && forallb (fun ur => mem (fst ur) (map p_id (profiles d))) (user_roles d)
  && forallb (fun e => mem (e_created_by e) (map p_id (profiles d))) (elections d)
  && forallb (fun c => mem (c_election_id c) (map e_id (elections d))) (candidates d)
  && forallb (fun v => mem (v_election_id v) (map e_id (elections d))
                       && mem (v_candidate_id v) (map c_id (candidates d))
                       && mem (v_voter_id v) (map p_id (profiles d))) (votes d)
  && distinct_by (fun a b => String.eqb (fst a) (fst b) && role_eqb (snd a) (snd b))
       (user_roles d).

(** The sum of the values of the percentages of a tally. *)
Definition percentage_sum (rows : list (Results.CandidateResult binary64)) : Q :=
  fold_right Qplus 0%Q (map (fun r => b64_to_Q (Results.percentage r)) rows).

(** ** Example stores *)

Definition voter (id : uuid) (registered : bool) : profile_row :=
  {| p_id := id; p_face_registered := Some registered; p_avatar_url := None |}.

Definition ballot (electionId candidateId voterId receipt : string) : vote_row :=
  {| v_election_id := electionId; v_candidate_id := candidateId; v_voter_id := voterId;
     v_vote_receipt := receipt; v_face_verified := Some true |}.

Definition election_E : election_row :=
  {| e_id := "E"; e_status := ended; e_results_published := Some true; e_created_by := "adm" |}.

Definition election_F : election_row :=
  {| e_id := "F"; e_status := scheduled; e_results_published := Some false;
     e_created_by := "adm" |}.

Definition cand_a : candidate_row :=
  {| c_id := "a"; c_election_id := "E"; c_name := "Al"; c_party := None |}.
Definition cand_b : candidate_row :=
  {| c_id := "b"; c_election_id := "E"; c_name := "Bo"; c_party := None |}.
Definition cand_c : candidate_row :=
  {| c_id := "c"; c_election_id := "E"; c_name := "Cy"; c_party := Some "Green" |}.
Definition cand_x : candidate_row :=
  {| c_id := "x"; c_election_id := "F"; c_name := "Xi"; c_party := None |}.

(** An ended, published election "E" with candidates "b", "c", "a" and ten
    ballots split 3/2/5, and a scheduled election "F" with candidate "x";
    "adm" is an administrator. *)
Definition demo_store : db :=
  {| profiles := voter "adm" true
       :: map (fun u => voter u true) ["v1"; "v2"; "v3"; "v4"; "v5"; "v6"; "v7"; "v8"; "v9"; "v10"];
     user_roles := [("adm", role_user); ("adm", role_admin); ("v1", role_user); ("v2", role_user)];
     face_data := [];
     elections := [election_E; election_F];
     candidates := [cand_b; cand_c; cand_a; cand_x];
     votes :=
       [ ballot "E" "b" "v1" "VR-1-r"; ballot "E" "a" "v2" "VR-2-r"; ballot "E" "c" "v3" "VR-3-r";
         ballot "E" "a" "v4" "VR-4-r"; ballot "E" "b" "v5" "VR-5-r"; ballot "E" "a" "v6" "VR-6-r";
         ballot "E" "c" "v7" "VR-7-r"; ballot "E" "a" "v8" "VR-8-r"; ballot "E" "b" "v9" "VR-9-r";
         ballot "E" "a" "v10" "VR-10-r" ] |}.

(** The same store before any ballot was cast. *)
Definition demo_store_no_ballots : db := with_votes demo_store [].

(** The same store before voter "v1" cast a ballot: nine ballots, split
    2/2/5. *)
Definition demo_store_v1_abstains : db := with_votes demo_store (tl (votes demo_store)).

Definition election_G : election_row :=
  {| e_id := "G"; e_status := active; e_results_published := Some false;
     e_created_by := "adm" |}.

Definition cand_g : candidate_row :=
  {| c_id := "g"; c_election_id := "G"; c_name := "Gus"; c_party := None |}.

(** Two elections, no ballot yet; "G" is open for voting. *)
Definition stray_start : db :=
  {| profiles := [voter "adm" true; voter "v1" true; voter "bob" false];
     user_roles := [("adm", role_user); ("adm", role_admin); ("v1", role_user);
                    ("bob", role_user)];
     face_data := [];
     elections := [election_E; election_G];
     candidates := [cand_a; cand_g];
     votes := [] |}.

(** Voter "v1" sends a ballot for election "G" that names candidate "a" of
    election "E"; the administrator then ends "G" and publishes its results. *)
Definition stray_requests : list request :=
  [ rq_insert_vote (Some "v1")
      {| election_id := "G"; candidate_id := Some "a"; voter_id := "v1";
         vote_receipt := "VR-1-r"; face_verified := true |};
    rq_update_election_status (Some "adm") "G" ended;
    rq_publish_results (Some "adm") "G" ].

Definition stray_store : db := run stray_start stray_requests.

(** The state of a voting page that [session] opened on store [d] for
    [electionId], after the voter picked candidate [c], pressed "Cast Vote"
    and let the camera start. *)
Definition ready_to_submit (electionId : uuid) (session : option uuid) (c : uuid) (d : db)
    : Vote.state :=
  fst (fst (Vote.interact electionId session
              [Vote.click_candidate c; Vote.click_cast_vote;
               Vote.click_start_verification true]
              d (fst (Vote.loadElection electionId session d Vote.initial)))).

(** [stray_start] after the administrator paused election "G". *)
Definition paused_store : db :=
  commit stray_start (update_election_status stray_start (Some "adm") "G" paused).

(** [stray_start] after voter "v1" cast a ballot for candidate "g" of "G"
    from a voting page. *)
Definition voted_store : db :=
  snd (fst (Vote.handle "G" (Some "v1") (Vote.click_verify_and_submit "1700000000000" "k3x9q2a7b")
              stray_start (ready_to_submit "G" (Some "v1") "g" stray_start))).

(** Requests and page submissions, but no ballot insert sent past the
    voting page. *)
Definition through_the_page (a : action) : bool :=
  match a with
  | act_request (rq_insert_vote _ _) => false
  | _ => true
  end.

Definition verified (v : vote_row) : Prop := v_face_verified v = Some true.

(** ** Further constraints and vocabulary of the properties *)

(** [id UUID PRIMARY KEY] on [elections] and on [profiles] *)
Definition election_ids_unique (d : db) : Prop := List.NoDup (map e_id (elections d)).
Definition profile_ids_unique (d : db) : Prop := List.NoDup (map p_id (profiles d)).

(** [UNIQUE(user_id, role)] on [user_roles] *)
Definition roles_unique (d : db) : Prop := List.NoDup (user_roles d).

(** The identity a request is issued under; the sign-up trigger runs for
    whoever creates an account. *)
Definition issuer (r : request) : option uuid :=
  match r with
  | rq_sign_up _ => None
  | rq_insert_face_data uid _ _ | rq_update_profile_face uid _ _
  | rq_insert_election uid _ _ | rq_update_election_status uid _ _
  | rq_publish_results uid _ | rq_delete_election uid _
  | rq_insert_candidate uid _ _ _ _ | rq_delete_candidate uid _
  | rq_insert_vote uid _ => uid
  end.

(** Requests that delete rows. *)
Definition deletes (a : action) : bool :=
  match a with
  | act_request (rq_delete_election _ _) | act_request (rq_delete_candidate _ _) => true
  | _ => false
  end.

(** The status changes the buttons of the elections page stand for. *)
Definition lifecycle_edge (a b : election_status) : bool :=
  match a, b with
  | scheduled, active | active, paused | active, ended | paused, active => true
  | _, _ => false
  end.

(** Results are published for ended elections only. *)
Definition published_only_when_ended (d : db) : Prop :=
  Forall (fun e => truthy (e_results_published e) = true -> e_status e = ended) (elections d).

(** The status of election [id] in a store, if the store has it. *)
Definition status_of (d : db) (id : uuid) : option election_status :=
  option_map e_status (find (fun e => String.eqb (e_id e) id) (elections d)).

(** What a ballot inserted from the voting page of [session] for
    [electionId], on which the candidates [listed] were loaded, is bound to
    be. *)
Definition cast_here (electionId : uuid) (session : option uuid) (listed : list candidate_row)
    (v : vote_row) : Prop :=
  v_election_id v = electionId
  /\ session = Some (v_voter_id v)
  /\ In (v_candidate_id v) (map c_id listed)
  /\ v_face_verified v = Some true.

(** The page shows the candidates [listed] and its selection is one of them. *)
Definition selection_listed (listed : list candidate_row) (st : Vote.state) : Prop :=
  Vote.candidates st = listed
  /\ forall c, Vote.selectedCandidate st = Some c -> In c (map c_id listed).

(** The same constraints as a property, in the order of [schema_ok]; the
    last one is [UNIQUE(user_id, role)]. *)
Definition schema_valid (d : db) : Prop :=
  List.NoDup (map p_id (profiles d))
  /\ List.NoDup (map e_id (elections d))
  /\ List.NoDup (map c_id (candidates d))
  /\ List.NoDup (map fd_user_id (face_data d))
  /\ List.NoDup (map v_vote_receipt (votes d))
  /\ votes_unique d
  /\ Forall (fun f => In (fd_user_id f) (map p_id (profiles d))) (face_data d)
  /\ Forall (fun ur => In (fst ur) (map p_id (profiles d))) (user_roles d)
  /\ Forall (fun e => In (e_created_by e) (map p_id (profiles d))) (elections d)
  /\ Forall (fun c => In (c_election_id c) (map e_id (elections d))) (candidates d)
  /\ Forall (fun v => In (v_election_id v) (map e_id (elections d))
                      /\ In (v_candidate_id v) (map c_id (candidates d))
                      /\ In (v_voter_id v) (map p_id (profiles d))) (votes d)
  /\ roles_unique d.

(** The elections page lists what the store holds. *)
Definition shows_store (d : db) (st : ElectionsManagement.state) : Prop :=
  ElectionsManagement.elections st = elections d
  /\ ElectionsManagement.loading st = false.

(** How the elections of [d'] relate to those of [d] after a press of a
    button of the elections page: ids stay unique; an election present
    before and after has the same status or one reached by a lifecycle edge;
    publication stays confined to ended elections; an election with a new id
    is scheduled and unpublished. *)
Definition lifecycle_step (d d' : db) : Prop :=
  election_ids_unique d'
  /\ (forall id s s', status_of d id = Some s -> status_of d' id = Some s' ->
                       s = s' \/ lifecycle_edge s s' = true)
  /\ (published_only_when_ended d -> published_only_when_ended d')
  /\ (forall e, In e (elections d') -> ~ In (e_id e) (map e_id (elections d)) ->
                 e_status e = scheduled /\ e_results_published e = Some false).

(** * Properties *)

(** ** Sorting *)

Section Sorting.
Context {A : Type} (key : A -> nat).
Local Abbreviation descending := (descending key).
Local Abbreviation ge_key := (ge_key key).

Lemma sort_insert_Permutation (a : A) (l : list A) :
  Permutation (sort_insert descending a l) (a :: l).
Proof.
  induction l as [|b l IH]; simpl; [reflexivity|].
  destruct (descending a b <=? 0)%Z; [reflexivity|].
  etransitivity; [apply perm_skip, IH | apply perm_swap].
Qed.

Lemma array_sort_Permutation (l : list A) :
  Permutation (array_sort descending l) l.
Proof.
  induction l as [|a l IH]; simpl; [reflexivity|].
  etransitivity; [apply sort_insert_Permutation | apply perm_skip, IH].
Qed.

Lemma sort_insert_sorted (a : A) (l : list A) :
  StronglySorted ge_key l -> StronglySorted ge_key (sort_insert descending a l).
Proof.
  induction 1 as [|b l Hl IH Hb]; simpl.
  - repeat constructor.
  - destruct (Z.leb_spec (descending a b) 0) as [Hle|Hgt]; unfold descending in *.
    + constructor; [constructor; assumption|].
      constructor; [unfold ge_key; lia|].
      eapply List.Forall_impl; [|exact Hb]. unfold ge_key; intros; lia.
    + constructor; [exact IH|].
      eapply Permutation_Forall; [symmetry; apply sort_insert_Permutation|].
      constructor; [unfold ge_key; lia | exact Hb].
Qed.

Lemma array_sort_sorted (l : list A) :
  StronglySorted ge_key (array_sort descending l).
Proof.
  induction l as [|a l IH]; simpl; [constructor|].
  apply sort_insert_sorted, IH.
Qed.

(** Stability: rows with the same key keep their relative order. *)
Lemma sort_insert_stable (k : nat) (a : A) (l : list A) :
  StronglySorted ge_key l ->
  List.filter (fun x => key x =? k) (sort_insert descending a l)
  = List.filter (fun x => key x =? k) (a :: l).
Proof.
  induction 1 as [|b l Hl IH Hb]; [reflexivity|].
  cbn [sort_insert].
  destruct (Z.leb_spec (descending a b) 0) as [Hle|Hgt]; [reflexivity|].
  unfold descending in Hgt.
  cbn [List.filter] in *. rewrite IH.
  destruct (Nat.eqb_spec (key a) k) as [Ha|Ha]; [|reflexivity].
  destruct (Nat.eqb_spec (key b) k) as [Hb'|Hb']; [lia|reflexivity].
Qed.

Lemma array_sort_stable (k : nat) (l : list A) :
  List.filter (fun x => key x =? k) (array_sort descending l)
  = List.filter (fun x => key x =? k) l.
Proof.
  induction l as [|a l IH]; [reflexivity|].
  cbn [array_sort fold_right].
  rewrite sort_insert_stable by apply array_sort_sorted.
  cbn [List.filter]. fold (array_sort descending l). rewrite IH. reflexivity.
Qed.
End Sorting.

(** ** The tally *)

Lemma fold_voteCounts (votesData : list uuid) (acc : gmap uuid nat) (k : uuid) :
  default 0 (fold_left (fun acc vote => <[vote := default 0 (acc !! vote) + 1]> acc)
               votesData acc !! k)
  = default 0 (acc !! k) + ballot_count votesData k.
Proof.
  unfold ballot_count.
  revert acc; induction votesData as [|v vs IH]; intros acc; simpl; [lia|].
  rewrite IH. destruct (string_dec v k) as [->|Hne].
  - rewrite lookup_insert_eq. simpl. lia.
  - rewrite lookup_insert_ne by assumption. reflexivity.
Qed.

Lemma voteCounts_lookup (votesData : list uuid) (k : uuid) :
  default 0 (Results.voteCounts votesData !! k) = ballot_count votesData k.
Proof.
  unfold Results.voteCounts. rewrite fold_voteCounts, lookup_empty. reflexivity.
Qed.

Section Tally.
Context {num : Type} `{Number num}.

Lemma resultsWithVotes_rows (candidatesData : list candidate_row) (votesData : list uuid) :
  Results.resultsWithVotes candidatesData votesData
  = array_sort (descending Results.votes) (map (row_of votesData) candidatesData).
Proof.
  unfold Results.resultsWithVotes, descending. f_equal.
  apply map_ext; intros c. unfold row_of. rewrite voteCounts_lookup. reflexivity.
Qed.

Lemma resultsWithVotes_Permutation candidatesData votesData :
  Permutation (Results.resultsWithVotes candidatesData votesData)
              (map (row_of votesData) candidatesData).
Proof. rewrite resultsWithVotes_rows. apply array_sort_Permutation. Qed.

Lemma resultsWithVotes_candidates candidatesData votesData :
  Permutation (map Results.candidate (Results.resultsWithVotes candidatesData votesData))
              candidatesData.
Proof.
  rewrite resultsWithVotes_Permutation, map_map. simpl.
  rewrite map_id. reflexivity.
Qed.

Lemma resultsWithVotes_each candidatesData votesData :
  Forall (fun r => r = row_of votesData (Results.candidate r))
         (Results.resultsWithVotes candidatesData votesData).
Proof.
  eapply Permutation_Forall; [symmetry; apply resultsWithVotes_Permutation|].
  apply List.Forall_forall. intros r Hr. apply in_map_iff in Hr as [c [<- _]]. reflexivity.
Qed.

Lemma resultsWithVotes_sorted candidatesData votesData :
  StronglySorted (ge_key Results.votes) (Results.resultsWithVotes candidatesData votesData).
Proof. rewrite resultsWithVotes_rows. apply array_sort_sorted. Qed.

Lemma resultsWithVotes_stable candidatesData votesData (k : nat) :
  map Results.candidate
    (List.filter (fun r => Results.votes r =? k)
       (Results.resultsWithVotes candidatesData votesData))
  = List.filter (fun c => ballot_count votesData (c_id c) =? k) candidatesData.
Proof.
  rewrite resultsWithVotes_rows, array_sort_stable.
  induction candidatesData as [|c cs IH]; [reflexivity|].
  cbn [map List.filter Results.votes row_of].
  destruct (ballot_count votesData (c_id c) =? k); cbn [map]; rewrite IH; reflexivity.
Qed.

(** What [loadResults] does for an election it reads as published. *)
Lemma loadResults_published electionId uid d st e :
  select_election d uid electionId = Some e ->
  e_results_published e = Some true ->
  Results.loadResults electionId uid d st
  = ({| Results.election := Some e;
        Results.results :=
          Results.resultsWithVotes (select_candidates d electionId)
                                   (select_votes d uid electionId);
        Results.totalVotes := length (select_votes d uid electionId);
        Results.loading := false |}, []).
Proof.
  intros He Hp. unfold Results.loadResults. rewrite He. simpl. rewrite Hp. reflexivity.
Qed.

Lemma loadResults_unpublished electionId uid d st :
  Results.unpublished (select_election d uid electionId) = true ->
  Results.loadResults electionId uid d st = (st, [navigate "/dashboard"]).
Proof. intros Hu. unfold Results.loadResults. rewrite Hu. reflexivity. Qed.
End Tally.

(** ** Publication gate and tally (results page) *)

(** C4. While no election row with the requested id has [results_published]
    true, whatever its status and whoever asks, [loadResults] computes and
    stores nothing: the page state is untouched (no rows, no total, still
    loading) and the page leaves for the dashboard.  Conversely, whenever
    [loadResults] stores a tally, the election it read is published. *)
Theorem unpublished_results_withheld :
  forall (num : Type) (N : Number num) (electionId : uuid) (uid : option uuid) (d : db)
         (st : Results.state num),
    (Forall (fun e => e_id e = electionId -> e_results_published e <> Some true) (elections d) ->
     Results.loadResults electionId uid d st = (st, [navigate "/dashboard"])
     /\ Results.results (fst (Results.loadResults electionId uid d Results.initial)) = []
     /\ Results.totalVotes (fst (Results.loadResults electionId uid d Results.initial)) = 0)
    /\ (Results.loadResults electionId uid d st <> (st, [navigate "/dashboard"]) ->
        exists e, In e (elections d) /\ e_id e = electionId
                  /\ e_results_published e = Some true).
Proof.
  intros num N electionId uid d st.
  assert (Hsel : forall e, select_election d uid electionId = Some e ->
                           In e (elections d) /\ e_id e = electionId).
  { intros e He. unfold select_election in He.
    assert (Hin : In e (List.filter
              (fun e => elections_select_policy d uid e && String.eqb (e_id e) electionId)
              (elections d))).
    { destruct (List.filter _ (elections d)) as [|r [|r' l]]; simpl in He; try discriminate.
      injection He as ->. left; reflexivity. }
    apply filter_In in Hin as [Hin Hb]. apply andb_prop in Hb as [_ Hb].
    apply String.eqb_eq in Hb. auto. }
  split.
  - intros Hall.
    assert (Hu : Results.unpublished (select_election d uid electionId) = true).
    { destruct (select_election d uid electionId) as [e|] eqn:He; [|reflexivity].
      destruct (Hsel e eq_refl) as [Hin Hid].
      rewrite List.Forall_forall in Hall. specialize (Hall e Hin Hid).
      simpl. destruct (e_results_published e) as [[|]|]; try reflexivity. congruence. }
    rewrite !loadResults_unpublished by exact Hu. auto.
  - intros Hshown.
    destruct (select_election d uid electionId) as [e|] eqn:He.
    + exists e. destruct (Hsel e eq_refl) as [Hin Hid]. repeat split; try assumption.
      destruct (e_results_published e) as [[|]|] eqn:Hp; try reflexivity;
        exfalso; apply Hshown; apply loadResults_unpublished; rewrite He; simpl;
        rewrite Hp; reflexivity.
    + exfalso; apply Hshown; apply loadResults_unpublished; rewrite He; reflexivity.
Qed.

Lemma unpublished_results_withheld_witness :
  Forall (fun e => e_id e = "F" -> e_results_published e <> Some true) (elections demo_store)
  /\ Results.loadResults (num:=binary64) "F" (Some "adm") demo_store Results.initial
     = (Results.initial, [navigate "/dashboard"])
  /\ (Results.loadResults (num:=binary64) "E" (Some "adm") demo_store Results.initial
        <> (Results.initial, [navigate "/dashboard"])
      /\ exists e, In e (elections demo_store) /\ e_id e = "E"
                   /\ e_results_published e = Some true).
Proof.
  assert (H1 : Forall (fun e => e_id e = "F" -> e_results_published e <> Some true)
                 (elections demo_store)).
  { repeat constructor; simpl; intros; discriminate. }
  assert (H2 : Results.loadResults (num:=binary64) "E" (Some "adm") demo_store Results.initial
               <> (Results.initial, [navigate "/dashboard"])).
  { vm_compute. discriminate. }
  split; [exact H1|]. split.
  - exact (proj1 (proj1 (unpublished_results_withheld binary64 _ "F" (Some "adm")
                           demo_store Results.initial) H1)).
  - split; [exact H2|].
    exact (proj2 (unpublished_results_withheld binary64 _ "E" (Some "adm")
                    demo_store Results.initial) H2).
Defined.

Lemma Permutation_three {A : Type} (l : list A) (a b c : A) :
  Permutation l [a; b; c] ->
  l = [a; b; c] \/ l = [a; c; b] \/ l = [b; a; c] \/ l = [b; c; a]
  \/ l = [c; a; b] \/ l = [c; b; a].
Proof.
  intros HP.
  destruct l as [|x l]; [apply Permutation_nil in HP; discriminate|].
  assert (Hx : In x [a; b; c]) by (eapply Permutation_in; [exact HP | left; reflexivity]).
  simpl in Hx. destruct Hx as [<-|[<-|[<-|[]]]].
  - apply Permutation_cons_inv, Permutation_sym, Permutation_length_2_inv in HP.
    destruct HP as [->| ->]; auto.
  - assert (HP' : Permutation (b :: l) (b :: [a; c])).
    { etransitivity; [exact HP | apply perm_swap]. }
    apply Permutation_cons_inv, Permutation_sym, Permutation_length_2_inv in HP'.
    destruct HP' as [->| ->]; auto 10.
  - assert (HP' : Permutation (c :: l) (c :: [a; b])).
    { etransitivity; [exact HP|].
      etransitivity; [apply perm_skip, perm_swap | apply perm_swap]. }
    apply Permutation_cons_inv, Permutation_sym, Permutation_length_2_inv in HP'.
    destruct HP' as [->| ->]; auto 10.
Qed.

(** The ballots read, counted by candidate. *)
Lemma count_by_candidate (ballots : list vote_row) (k : uuid) :
  ballot_count (map v_candidate_id ballots) k
  = length (List.filter (fun v => String.eqb (v_candidate_id v) k) ballots).
Proof.
  unfold ballot_count. induction ballots as [|v vs IH]; [reflexivity|].
  cbn [map count_occ List.filter].
  destruct (string_dec (v_candidate_id v) k) as [Heq|Hne].
  - apply String.eqb_eq in Heq. rewrite Heq. cbn [length]. f_equal. exact IH.
  - apply String.eqb_neq in Hne. rewrite Hne. exact IH.
Qed.

(** A viewer whom the SELECT policies let read every ballot of an election
    reads exactly the ballots of that election. *)
Lemma readable_votes_all (d : db) (uid : option uuid) (E : uuid) :
  Forall (fun v => v_election_id v = E -> votes_select_policy d uid v = true) (votes d) ->
  readable_votes d uid E = List.filter (fun v => String.eqb (v_election_id v) E) (votes d).
Proof.
  intros Hall. unfold readable_votes. apply filter_ext_in. intros v Hin.
  rewrite List.Forall_forall in Hall.
  destruct (String.eqb_spec (v_election_id v) E) as [Heq|]; [|apply andb_false_r].
  rewrite (Hall v Hin Heq). reflexivity.
Qed.

Lemma admin_reads_every_ballot (d : db) (uid : option uuid) (l : list vote_row) (E : uuid) :
  has_role d uid role_admin = true ->
  Forall (fun v => v_election_id v = E -> votes_select_policy d uid v = true) l.
Proof.
  intros Ha. apply List.Forall_forall. intros v _ _.
  unfold votes_select_policy. rewrite Ha. apply orb_true_r.
Qed.




Lemma no_ballots_read (d : db) (uid : option uuid) (electionId : uuid) :
  Forall (fun v => v_election_id v <> electionId) (votes d) ->
  select_votes d uid electionId = [].
Proof.
  unfold select_votes, readable_votes. intros Hall.
  induction Hall as [|v vs Hv _ IH]; [reflexivity|].
  cbn [List.filter]. apply String.eqb_neq in Hv. rewrite Hv, andb_false_r. exact IH.
Qed.

(** Rows with equal counts are left as they are by the sort. *)
Lemma array_sort_ties {A : Type} (key : A -> nat) (k : nat) (l : list A) :
  Forall (fun x => key x = k) l -> array_sort (descending key) l = l.
Proof.
  induction 1 as [|a l Ha Hl IH]; [reflexivity|].
  cbn [array_sort fold_right]. fold (array_sort (descending key) l). rewrite IH.
  destruct Hl as [|b l' Hb _]; [reflexivity|].
  cbn [sort_insert]. unfold descending. rewrite Ha, Hb, Z.sub_diag. reflexivity.
Qed.



(** ** Sum of the percentages *)

Lemma list_sum_map_add {A : Type} (f g : A -> nat) (l : list A) :
  list_sum (map (fun x => f x + g x) l) = list_sum (map f l) + list_sum (map g l).
Proof. induction l as [|x l IH]; simpl; [reflexivity | rewrite IH; lia]. Qed.

Lemma list_sum_indicator (ids : list uuid) (v : uuid) :
  list_sum (map (fun k => if string_dec v k then 1 else 0) ids) = count_occ string_dec ids v.
Proof.
  induction ids as [|k ids IH]; simpl; [reflexivity|].
  rewrite IH. destruct (string_dec v k) as [Heq|Hne], (string_dec k v) as [Heq'|Hne'];
    try reflexivity; congruence.
Qed.

(** Distinct candidates that cover every ballot read share out the ballots. *)
Lemma ballot_counts_sum (ids votesData : list uuid) :
  List.NoDup ids ->
  Forall (fun k => In k ids) votesData ->
  list_sum (map (ballot_count votesData) ids) = length votesData.
Proof.
  intros Hnd Hall. unfold ballot_count.
  induction Hall as [|v vs Hv _ IH].
  - induction ids as [|k ids IH']; simpl; [reflexivity|].
    apply IH'. inversion Hnd; assumption.
  - rewrite (map_ext _ (fun k => (if string_dec v k then 1 else 0) + count_occ string_dec vs k)).
    + rewrite list_sum_map_add, list_sum_indicator.
      rewrite (proj1 (NoDup_count_occ' string_dec ids) Hnd v Hv).
      simpl. f_equal. exact IH.
    + intros k. simpl. destruct (string_dec v k); reflexivity.
Qed.

Lemma NoDup_map_filter {A B : Type} (f : A -> B) (p : A -> bool) (l : list A) :
  List.NoDup (map f l) -> List.NoDup (map f (List.filter p l)).
Proof.
  induction l as [|x l IH]; simpl; intros Hnd; [constructor|].
  inversion Hnd as [|? ? Hx Hl]; subst.
  destruct (p x); simpl; [constructor|]; auto.
  intros Hin. apply Hx. apply in_map_iff in Hin as [y [Hy Hin]].
  apply in_map_iff. exists y. split; [assumption|]. apply filter_In in Hin. tauto.
Qed.

Lemma Qsum_Permutation (l l' : list Q) :
  Permutation l l' -> (fold_right Qplus 0 l == fold_right Qplus 0 l')%Q.
Proof.
  induction 1 as [|x l l' _ IH|x y l|l l' l'' _ IH1 _ IH2]; simpl.
  - reflexivity.
  - rewrite IH. reflexivity.
  - ring.
  - rewrite IH1. exact IH2.
Qed.

(** *** Rounding in binary64

    [SFdiv] and [SFmul] round through [binary_round_aux]; for a positive
    mantissa of at least 53 digits in the range of the normal numbers, it
    cuts the mantissa to 53 digits and adds at most one. *)

Section Rounding.
Local Open Scope Z_scope.

Lemma digits2_pos_size (p : positive) : digits2_pos p = Pos.size p.
Proof. induction p as [p IH|p IH|]; simpl; congruence. Qed.

Lemma digits2_pos_bounds (p : positive) :
  2 ^ (Z.pos (digits2_pos p) - 1) <= Z.pos p < 2 ^ Z.pos (digits2_pos p).
Proof.
  rewrite digits2_pos_size.
  pose proof (Pos.size_gt p) as Hgt. pose proof (Pos.size_le p) as Hle.
  apply Pos2Z.pos_lt_pos in Hgt. apply Pos2Z.pos_le_pos in Hle.
  rewrite Pos2Z.inj_pow in Hgt, Hle.
  replace (Z.pos (Pos.size p)) with (Z.succ (Z.pos (Pos.size p) - 1)) in Hle at 1 by lia.
  rewrite Z.pow_succ_r in Hle by lia.
  lia.
Qed.

Lemma digits2_pos_unique (p : positive) (d : Z) :
  2 ^ (d - 1) <= Z.pos p < 2 ^ d -> Z.pos (digits2_pos p) = d.
Proof.
  intros [Hlo Hhi]. pose proof (digits2_pos_bounds p) as [Hlo' Hhi'].
  assert (0 < d).
  { destruct (Z.ltb_spec 0 d) as [|Hd]; [assumption|].
    destruct (Z.eqb_spec d 0) as [->|]; [simpl in Hhi; lia|].
    rewrite Z.pow_neg_r in Hhi by lia. lia. }
  assert (H1 : 2 ^ (d - 1) < 2 ^ Z.pos (digits2_pos p)) by lia.
  assert (H2 : 2 ^ (Z.pos (digits2_pos p) - 1) < 2 ^ d) by lia.
  apply Z.pow_lt_mono_r_iff in H1; [|lia|lia].
  apply Z.pow_lt_mono_r_iff in H2; [|lia|lia].
  lia.
Qed.

Lemma shr_1_m (mrs : shr_record) :
  0 <= shr_m mrs -> shr_m (shr_1 mrs) = shr_m mrs / 2.
Proof.
  destruct mrs as [m r s]. cbn [shr_m]. intros Hm.
  destruct m as [|[p|p|]|p]; cbn [shr_1 shr_m]; try reflexivity; try lia.
  - apply Z.div_unique with (r := 1); lia.
  - apply Z.div_unique with (r := 0); lia.
Qed.

Lemma iter_shr_1_m (p : positive) (mrs : shr_record) :
  0 <= shr_m mrs ->
  shr_m (SpecFloat.iter_pos shr_1 p mrs) = shr_m mrs / 2 ^ Z.pos p.
Proof.
  revert mrs. induction p as [p IH|p IH|]; intros mrs Hm; cbn [SpecFloat.iter_pos].
  - assert (H1 : 0 <= shr_m (shr_1 mrs)) by (rewrite shr_1_m by assumption; apply Z.div_pos; lia).
    assert (H2 : 0 <= shr_m (SpecFloat.iter_pos shr_1 p (shr_1 mrs))).
    { rewrite IH by assumption. apply Z.div_pos; [assumption|]. apply Z.pow_pos_nonneg; lia. }
    rewrite IH, IH, shr_1_m by assumption.
    rewrite !Z.div_div by (try apply Z.pow_pos_nonneg; lia).
    f_equal. rewrite <- Z.pow_add_r by lia.
    rewrite <- (Z.pow_succ_r 2) by lia. f_equal. lia.
  - assert (H2 : 0 <= shr_m (SpecFloat.iter_pos shr_1 p mrs)).
    { rewrite IH by assumption. apply Z.div_pos; [assumption|]. apply Z.pow_pos_nonneg; lia. }
    rewrite IH, IH by assumption.
    rewrite !Z.div_div by (try apply Z.pow_pos_nonneg; lia).
    f_equal. rewrite <- Z.pow_add_r by lia. f_equal. lia.
  - rewrite shr_1_m by assumption. reflexivity.
Qed.

Lemma round_nearest_even_near (m : Z) (l : location) :
  m <= round_nearest_even m l <= m + 1.
Proof. destruct l as [|[]]; cbn [round_nearest_even]; try destruct (Z.even m); lia. Qed.

Lemma shr_record_of_loc_m (m : Z) (l : location) : shr_m (shr_record_of_loc m l) = m.
Proof. destruct l as [|[]]; reflexivity. Qed.


Lemma shr_fexp_spec (m : positive) (e : Z) (l : location) :
  0 <= Z.pos (digits2_pos m) - 53 ->
  -1074 <= e + (Z.pos (digits2_pos m) - 53) ->
  exists mrs,
    shr_fexp 53 1024 (Z.pos m) e l = (mrs, e + (Z.pos (digits2_pos m) - 53))
    /\ shr_m mrs = Z.pos m / 2 ^ (Z.pos (digits2_pos m) - 53)
    /\ (Z.pos (digits2_pos m) - 53 = 0 -> mrs = shr_record_of_loc (Z.pos m) l).
Proof.
  intros Hn He. unfold shr_fexp, fexp, emin. cbn [Zdigits2].
  replace (Z.max (Z.pos (digits2_pos m) + e - 53) (3 - 1024 - 53) - e)
    with (Z.pos (digits2_pos m) - 53) by lia.
  destruct (Z.pos (digits2_pos m) - 53) as [|n|n] eqn:Hd; [| |lia].
  - exists (shr_record_of_loc (Z.pos m) l). cbn [shr].
    rewrite Z.add_0_r, shr_record_of_loc_m, Z.div_1_r. auto.
  - exists (SpecFloat.iter_pos shr_1 n (shr_record_of_loc (Z.pos m) l)). cbn [shr].
    split; [reflexivity|]. split; [|discriminate].
    rewrite iter_shr_1_m, shr_record_of_loc_m; rewrite ?shr_record_of_loc_m; [reflexivity|lia].
Qed.

(** Rounding a positive mantissa of at least 53 digits, in the range of the
    normal numbers: the result is a normal number, and it is the mantissa
    cut to 53 digits or that plus one, at the exponent of the cut. *)
Lemma binary_round_aux_spec (mx : positive) (ex : Z) (lx : location) :
  let n := Z.pos (digits2_pos mx) - 53 in
  0 <= n -> -1074 <= ex + n -> ex + n < 971 ->
  exists (m : positive) (e k : Z),
    binary_round_aux 53 1024 false (Z.pos mx) ex lx = S754_finite false m e
    /\ 2 ^ 52 <= Z.pos m < 2 ^ 53
    /\ Z.pos mx / 2 ^ n <= k <= Z.pos mx / 2 ^ n + 1
    /\ (n = 0 -> lx = loc_Exact -> k = Z.pos mx)
    /\ (e = ex + n /\ Z.pos m = k \/ e = ex + n + 1 /\ 2 * Z.pos m = k).
Proof.
  intros n Hn Hlo Hhi. subst n.
  set (n := Z.pos (digits2_pos mx) - 53) in *.
  destruct (shr_fexp_spec mx ex lx Hn Hlo) as (mrs & Hshr & Hm & Hexact).
  fold n in Hshr, Hm, Hexact.
  unfold binary_round_aux. rewrite Hshr.
  pose proof (round_nearest_even_near (shr_m mrs) (loc_of_shr_record mrs)) as Hk.
  set (k := round_nearest_even (shr_m mrs) (loc_of_shr_record mrs)) in *.
  rewrite Hm in Hk.
  assert (HM : 2 ^ 52 <= Z.pos mx / 2 ^ n < 2 ^ 53).
  { pose proof (digits2_pos_bounds mx) as [Hl Hu].
    assert (Hp : 0 < 2 ^ n) by (apply Z.pow_pos_nonneg; lia).
    replace (Z.pos (digits2_pos mx) - 1) with (n + 52) in Hl by lia.
    replace (Z.pos (digits2_pos mx)) with (n + 53) in Hu by lia.
    rewrite Z.pow_add_r in Hl, Hu by lia.
    split.
    - apply Z.div_le_lower_bound; [exact Hp | exact Hl].
    - apply Z.div_lt_upper_bound; [exact Hp | exact Hu]. }
  assert (Hkx : n = 0 -> lx = loc_Exact -> k = Z.pos mx).
  { intros H0 ->. subst k. rewrite (Hexact H0). reflexivity. }
  destruct k as [|kp|kp] eqn:Ek; [lia| |lia].
  destruct (Z.ltb_spec (Z.pos kp) (2 ^ 53)) as [Hlt|Hge].
  - assert (Hd : Z.pos (digits2_pos kp) - 53 = 0).
    { rewrite (digits2_pos_unique kp 53); [reflexivity|]. change (53 - 1) with 52. lia. }
    destruct (shr_fexp_spec kp (ex + n) loc_Exact) as (mrs2 & Hshr2 & Hm2 & _); [lia|lia|].
    rewrite Hshr2, Hm2, Hd, Z.div_1_r.
    destruct (Z.leb_spec (ex + n + 0) (1024 - 53)) as [_|]; [|lia].
    exists kp, (ex + n + 0), (Z.pos kp).
    split; [reflexivity|]. split; [lia|]. split; [lia|]. split; [exact Hkx|].
    left. split; [lia | reflexivity].
  - assert (Hk53 : Z.pos kp = 2 ^ 53) by lia.
    assert (Hd : Z.pos (digits2_pos kp) - 53 = 1).
    { rewrite (digits2_pos_unique kp 54); [reflexivity|]. rewrite Hk53.
      split; [reflexivity | reflexivity]. }
    destruct (shr_fexp_spec kp (ex + n) loc_Exact) as (mrs2 & Hshr2 & Hm2 & _); [lia|lia|].
    rewrite Hshr2, Hm2, Hd, Hk53.
    change (2 ^ 53 / 2 ^ 1) with (Z.pos 4503599627370496).
    destruct (Z.leb_spec (ex + n + 1) (1024 - 53)) as [_|]; [|lia].
    exists 4503599627370496%positive, (ex + n + 1), (Z.pos kp).
    split; [reflexivity|]. split; [split; [reflexivity | reflexivity]|].
    split; [lia|]. split; [exact Hkx|].
    right. split; [reflexivity | rewrite Hk53; reflexivity].
Qed.


Lemma binary_round_aux_exact (mz : positive) (ez : Z) :
  2 ^ 52 <= Z.pos mz < 2 ^ 53 -> -1074 <= ez < 971 ->
  binary_round_aux 53 1024 false (Z.pos mz) ez loc_Exact = S754_finite false mz ez.
Proof.
  intros Hm He.
  assert (Hd : Z.pos (digits2_pos mz) - 53 = 0).
  { rewrite (digits2_pos_unique mz 53); [reflexivity|]. change (53 - 1) with 52. exact Hm. }
  destruct (binary_round_aux_spec mz ez loc_Exact) as (m & e & k & Heq & Hmb & _ & Hk & Hval);
    rewrite ?Hd; try lia.
  rewrite Hd in Hk, Hval. rewrite Heq. specialize (Hk eq_refl eq_refl).
  destruct Hval as [[-> Hmk]|[_ Hmk]]; [|lia].
  rewrite Z.add_0_r. f_equal. apply Pos2Z.inj. lia.
Qed.

Lemma iter_xO (s p : positive) : Z.pos (Pos.iter xO p s) = Z.pos p * 2 ^ Z.pos s.
Proof.
  induction s as [|s IH] using Pos.peano_ind.
  - cbn [Pos.iter]. rewrite Pos2Z.inj_xO. change (2 ^ 1) with 2. lia.
  - rewrite Pos.iter_succ, Pos2Z.inj_xO, IH, Pos2Z.inj_succ, Z.pow_succ_r by lia. lia.
Qed.

End Rounding.

(** *** Values and relative errors *)

Section RoundingError.
Local Open Scope Q_scope.

Lemma pow2_pos (e : Z) : 0 < 2 ^ e.
Proof. apply Qpower_0_lt. reflexivity. Qed.

Lemma pow2_add (a b : Z) : 2 ^ (a + b) == 2 ^ a * 2 ^ b.
Proof. apply Qpower_plus. intros H. discriminate H. Qed.

Lemma scaled_le (a b e : Z) : (a <= b)%Z -> inject_Z a * 2 ^ e <= inject_Z b * 2 ^ e.
Proof.
  intros Hab. apply Qmult_le_compat_r; [rewrite <- Zle_Qle; exact Hab|].
  apply Qlt_le_weak, pow2_pos.
Qed.

Lemma scaled_shift (a n e : Z) :
  (0 <= n)%Z -> inject_Z (a * 2 ^ n) * 2 ^ e == inject_Z a * 2 ^ (e + n).
Proof.
  intros Hn. rewrite inject_Z_mult, Zpower_Qpower, pow2_add by exact Hn.
  change (inject_Z 2) with 2. ring.
Qed.

(** A positive integer below 2^53 is a binary64 number: its conversion
    is a normal number of the same value. *)
Lemma b64_of_Z_exact (c : Z) :
  (0 < c < 2 ^ 53)%Z ->
  exists (m : positive) (e : Z),
    b64_of_Z c = S754_finite false m e
    /\ (2 ^ 52 <= Z.pos m < 2 ^ 53)%Z /\ (-52 <= e <= 0)%Z
    /\ inject_Z (Z.pos m) * 2 ^ e == inject_Z c.
Proof.
  intros [Hpos Hlt]. destruct c as [|p|p]; try lia.
  pose proof (digits2_pos_bounds p) as [Hl Hu].
  assert (Hd : (Z.pos (digits2_pos p) <= 53)%Z).
  { assert (H : (2 ^ (Z.pos (digits2_pos p) - 1) < 2 ^ 53)%Z) by lia.
    apply Z.pow_lt_mono_r_iff in H; lia. }
  unfold b64_of_Z, binary_normalize, binary_round, fexp, emin.
  replace (Z.max (Z.pos (digits2_pos p) + 0 - 53) (3 - 1024 - 53))
    with (Z.pos (digits2_pos p) - 53)%Z by lia.
  unfold shl_align.
  destruct (Z.pos (digits2_pos p) - 53 - 0)%Z as [|s|s] eqn:Hs; [|lia|].
  - assert (Hd53 : Z.pos (digits2_pos p) = 53%Z) by lia.
    rewrite Hd53 in Hl, Hu. change (53 - 1)%Z with 52%Z in Hl.
    exists p, 0%Z. rewrite binary_round_aux_exact by lia.
    split; [reflexivity|]. split; [lia|]. split; [lia|].
    change (2 ^ 0) with 1. ring.
  - assert (Hsd : Z.pos s = (53 - Z.pos (digits2_pos p))%Z) by lia.
    assert (Hmz : (2 ^ 52 <= Z.pos (Pos.iter xO p s) < 2 ^ 53)%Z).
    { rewrite iter_xO.
      assert (Hp : (0 < 2 ^ Z.pos s)%Z) by (apply Z.pow_pos_nonneg; lia).
      assert (H52 : (2 ^ 52 = 2 ^ (Z.pos (digits2_pos p) - 1) * 2 ^ Z.pos s)%Z)
        by (rewrite <- Z.pow_add_r by lia; f_equal; lia).
      assert (H53 : (2 ^ 53 = 2 ^ Z.pos (digits2_pos p) * 2 ^ Z.pos s)%Z)
        by (rewrite <- Z.pow_add_r by lia; f_equal; lia).
      split.
      - rewrite H52. apply Z.mul_le_mono_nonneg_r; lia.
      - rewrite H53. apply Z.mul_lt_mono_pos_r; lia. }
    exists (Pos.iter xO p s), (Z.pos (digits2_pos p) - 53)%Z.
    rewrite binary_round_aux_exact by lia.
    split; [reflexivity|]. split; [exact Hmz|]. split; [lia|].
    rewrite iter_xO, scaled_shift by lia.
    replace (Z.pos (digits2_pos p) - 53 + Z.pos s)%Z with 0%Z by lia.
    change (2 ^ 0) with 1. ring.
Qed.

(** The error of one rounding is at most the value times 2^-52. *)
Lemma binary_round_aux_error (mx : positive) (ex : Z) (lx : location) (x : Q) :
  (0 <= Z.pos (digits2_pos mx) - 53)%Z ->
  (-1074 <= ex + (Z.pos (digits2_pos mx) - 53))%Z ->
  (ex + (Z.pos (digits2_pos mx) - 53) < 971)%Z ->
  inject_Z (Z.pos mx) * 2 ^ ex <= x ->
  x <= inject_Z (Z.pos mx + 1) * 2 ^ ex ->
  exists (m : positive) (e : Z),
    binary_round_aux 53 1024 false (Z.pos mx) ex lx = S754_finite false m e
    /\ (2 ^ 52 <= Z.pos m < 2 ^ 53)%Z
    /\ (ex + (Z.pos (digits2_pos mx) - 53) <= e <= ex + (Z.pos (digits2_pos mx) - 53) + 1)%Z
    /\ Qabs (inject_Z (Z.pos m) * 2 ^ e - x) <= x * (1 # 4503599627370496).
Proof.
  intros Hn Hlo Hhi Hxl Hxu.
  destruct (binary_round_aux_spec mx ex lx Hn Hlo Hhi) as (m & e & k & Heq & Hm & Hk & _ & Hval).
  set (n := (Z.pos (digits2_pos mx) - 53)%Z) in *.
  set (M := (Z.pos mx / 2 ^ n)%Z) in *.
  exists m, e. split; [exact Heq|]. split; [exact Hm|]. split; [lia|].
  assert (Hp : (0 < 2 ^ n)%Z) by (apply Z.pow_pos_nonneg; lia).
  assert (HM : (2 ^ 52 <= M)%Z).
  { pose proof (digits2_pos_bounds mx) as [Hl _].
    replace (Z.pos (digits2_pos mx) - 1)%Z with (n + 52)%Z in Hl by lia.
    rewrite Z.pow_add_r in Hl by lia.
    apply Z.div_le_lower_bound; [exact Hp | exact Hl]. }
  pose proof (pow2_pos (ex + n)) as HP.
  assert (F1 : inject_Z M * 2 ^ (ex + n) <= x).
  { rewrite <- scaled_shift by lia. eapply Qle_trans; [|exact Hxl].
    apply scaled_le. unfold M. rewrite Z.mul_comm. apply Z.mul_div_le. exact Hp. }
  assert (F2 : x <= inject_Z (M + 1) * 2 ^ (ex + n)).
  { rewrite <- scaled_shift by lia. eapply Qle_trans; [exact Hxu|].
    apply scaled_le. unfold M.
    pose proof (Z.mul_succ_div_gt (Z.pos mx) (2 ^ n) Hp). lia. }
  assert (F3 : inject_Z (2 ^ 52) * 2 ^ (ex + n) <= inject_Z M * 2 ^ (ex + n))
    by (apply scaled_le; exact HM).
  assert (F4 : inject_Z (Z.pos m) * 2 ^ e == inject_Z k * 2 ^ (ex + n)).
  { destruct Hval as [[-> ->]|[-> <-]]; [reflexivity|].
    rewrite <- scaled_shift by lia. rewrite (Z.mul_comm 2). reflexivity. }
  assert (F5 : inject_Z M * 2 ^ (ex + n) <= inject_Z k * 2 ^ (ex + n)) by (apply scaled_le; lia).
  assert (F6 : inject_Z k * 2 ^ (ex + n) <= inject_Z (M + 1) * 2 ^ (ex + n))
    by (apply scaled_le; lia).
  rewrite F4. rewrite inject_Z_plus in F2, F6.
  change (inject_Z (2 ^ 52)) with 4503599627370496 in F3.
  change (inject_Z 1) with 1 in F2, F6.
  apply Qabs_Qle_condition.
  set (a := inject_Z M * 2 ^ (ex + n)) in *.
  set (v := inject_Z k * 2 ^ (ex + n)) in *.
  set (P := 2 ^ (ex + n)) in *.
  assert (F2' : x <= a + P) by (eapply Qle_trans; [exact F2|]; unfold a, P; lra).
  assert (F6' : v <= a + P) by (eapply Qle_trans; [exact F6|]; unfold a, P; lra).
  clearbody a v P. split; lra.
Qed.

(** Division of normal numbers whose quotient is in the normal range. *)
Lemma SFdiv_error (m1 m2 : positive) (e1 e2 : Z) :
  (2 ^ 52 <= Z.pos m1 < 2 ^ 53)%Z -> (2 ^ 52 <= Z.pos m2 < 2 ^ 53)%Z ->
  (-52 <= e1 <= 0)%Z -> (-52 <= e2 <= 0)%Z ->
  exists (m : positive) (e : Z),
    SFdiv 53 1024 (S754_finite false m1 e1) (S754_finite false m2 e2) = S754_finite false m e
    /\ (2 ^ 52 <= Z.pos m < 2 ^ 53)%Z /\ (-105 <= e <= 1)%Z
    /\ Qabs (inject_Z (Z.pos m) * 2 ^ e
             - inject_Z (Z.pos m1) * 2 ^ e1 / (inject_Z (Z.pos m2) * 2 ^ e2))
       <= inject_Z (Z.pos m1) * 2 ^ e1 / (inject_Z (Z.pos m2) * 2 ^ e2)
          * (1 # 4503599627370496).
Proof.
  intros H1 H2 He1 He2.
  assert (D1 : Z.pos (digits2_pos m1) = 53%Z)
    by (apply digits2_pos_unique; change (53 - 1)%Z with 52%Z; exact H1).
  assert (D2 : Z.pos (digits2_pos m2) = 53%Z)
    by (apply digits2_pos_unique; change (53 - 1)%Z with 52%Z; exact H2).
  unfold SFdiv, SFdiv_core_binary. cbn [Zdigits2 xorb]. rewrite D1, D2.
  replace (Z.min (fexp 53 1024 (53 + e1 - (53 + e2))) (e1 - e2)) with (e1 - e2 - 53)%Z
    by (unfold fexp, emin; lia).
  replace (e1 - e2 - (e1 - e2 - 53))%Z with 53%Z by lia.
  cbv iota. rewrite Z.shiftl_mul_pow2 by lia.
  pose proof (Z_div_mod (Z.pos m1 * 2 ^ 53) (Z.pos m2) eq_refl) as Hdiv.
  destruct (Z.div_eucl (Z.pos m1 * 2 ^ 53) (Z.pos m2)) as [q r]. destruct Hdiv as [Hq Hr].
  assert (Hq1 : (2 ^ 52 <= q)%Z).
  { destruct (Z.leb_spec (2 ^ 52) q) as [|Hlt]; [assumption|]. exfalso.
    assert (G1 : (Z.pos m2 * (q + 1) <= Z.pos m2 * 2 ^ 52)%Z)
      by (apply Z.mul_le_mono_nonneg_l; lia).
    assert (G2 : (2 ^ 52 * 2 ^ 53 <= Z.pos m1 * 2 ^ 53)%Z)
      by (apply Z.mul_le_mono_nonneg_r; lia).
    lia. }
  assert (Hq2 : (q < 2 ^ 54)%Z).
  { destruct (Z.ltb_spec q (2 ^ 54)) as [|Hge]; [assumption|]. exfalso.
    assert (G1 : (Z.pos m2 * 2 ^ 54 <= Z.pos m2 * q)%Z)
      by (apply Z.mul_le_mono_nonneg_l; lia).
    assert (G2 : (Z.pos m1 * 2 ^ 53 < 2 ^ 53 * 2 ^ 53)%Z)
      by (apply Z.mul_lt_mono_pos_r; lia).
    lia. }
  destruct q as [|qp|qp]; try lia.
  pose proof (digits2_pos_bounds qp) as [Hl Hu].
  assert (Hd1 : (53 <= Z.pos (digits2_pos qp))%Z).
  { assert (H : (2 ^ 52 < 2 ^ Z.pos (digits2_pos qp))%Z) by lia.
    apply Z.pow_lt_mono_r_iff in H; lia. }
  assert (Hd2 : (Z.pos (digits2_pos qp) <= 54)%Z).
  { assert (H : (2 ^ (Z.pos (digits2_pos qp) - 1) < 2 ^ 54)%Z) by lia.
    apply Z.pow_lt_mono_r_iff in H; lia. }
  assert (Hv2 : 0 < inject_Z (Z.pos m2) * 2 ^ e2).
  { apply Qmult_lt_0_compat; [reflexivity | apply pow2_pos]. }
  assert (E1 : inject_Z (Z.pos m1) * 2 ^ e1 == inject_Z (Z.pos m1 * 2 ^ 53) * 2 ^ (e1 - 53)).
  { rewrite scaled_shift by lia. replace (e1 - 53 + 53)%Z with e1 by lia. reflexivity. }
  assert (E2 : forall t, inject_Z t * 2 ^ (e1 - e2 - 53) * (inject_Z (Z.pos m2) * 2 ^ e2)
                         == inject_Z (t * Z.pos m2) * 2 ^ (e1 - 53)).
  { intros t. rewrite inject_Z_mult. replace (e1 - 53)%Z with (e1 - e2 - 53 + e2)%Z by lia.
    rewrite pow2_add. ring. }
  destruct (binary_round_aux_error qp (e1 - e2 - 53) (new_location (Z.pos m2) r)
              (inject_Z (Z.pos m1) * 2 ^ e1 / (inject_Z (Z.pos m2) * 2 ^ e2)))
    as (m & e & Heq & Hm & He & Herr); try lia.
  - apply Qle_shift_div_l; [exact Hv2|]. rewrite E2, E1. apply scaled_le. lia.
  - apply Qle_shift_div_r; [exact Hv2|]. rewrite E2, E1. apply scaled_le. lia.
  - exists m, e. split; [exact Heq|]. split; [exact Hm|]. split; [lia | exact Herr].
Qed.

(** Multiplication of a normal number by 100. *)
Lemma SFmul_100_error (m : positive) (e : Z) :
  (2 ^ 52 <= Z.pos m < 2 ^ 53)%Z -> (-105 <= e <= 1)%Z ->
  exists (m' : positive) (e' : Z),
    SFmul 53 1024 (S754_finite false m e) (b64_of_Z 100) = S754_finite false m' e'
    /\ Qabs (inject_Z (Z.pos m') * 2 ^ e' - inject_Z (Z.pos m) * 2 ^ e * 100)
       <= inject_Z (Z.pos m) * 2 ^ e * 100 * (1 # 4503599627370496).
Proof.
  intros Hm He.
  change (b64_of_Z 100) with (S754_finite false 7036874417766400 (-46)).
  cbn [SFmul xorb].
  set (mx := (m * 7036874417766400)%positive).
  assert (Hmx : Z.pos mx = (Z.pos m * 7036874417766400)%Z) by apply Pos2Z.inj_mul.
  pose proof (digits2_pos_bounds mx) as [Hl Hu].
  assert (Hd1 : (105 <= Z.pos (digits2_pos mx))%Z).
  { assert (H : (2 ^ 104 < 2 ^ Z.pos (digits2_pos mx))%Z) by lia.
    apply Z.pow_lt_mono_r_iff in H; lia. }
  assert (Hd2 : (Z.pos (digits2_pos mx) <= 106)%Z).
  { assert (H : (2 ^ (Z.pos (digits2_pos mx) - 1) < 2 ^ 106)%Z) by lia.
    apply Z.pow_lt_mono_r_iff in H; lia. }
  assert (E : inject_Z (Z.pos mx) * 2 ^ (e + -46) == inject_Z (Z.pos m) * 2 ^ e * 100).
  { rewrite Hmx, inject_Z_mult, pow2_add.
    assert (E100 : inject_Z 7036874417766400 * 2 ^ (-46) == 100) by reflexivity.
    rewrite <- E100. ring. }
  destruct (binary_round_aux_error mx (e + -46) loc_Exact (inject_Z (Z.pos m) * 2 ^ e * 100))
    as (m' & e' & Heq & _ & _ & Herr); try lia.
  - rewrite E. apply Qle_refl.
  - rewrite <- E. apply scaled_le. lia.
  - exists m', e'. split; [exact Heq | exact Herr].
Qed.

(** A percentage of the tally is the exact percentage up to two roundings. *)
Lemma percentage_of_error (count voteCount : nat) :
  (count <= voteCount)%nat -> (0 < voteCount)%nat -> (Z.of_nat voteCount < 2 ^ 53)%Z ->
  b64_finite (Results.percentage_of count voteCount) = true
  /\ Qabs (b64_to_Q (Results.percentage_of count voteCount)
           - inject_Z (Z.of_nat count) / inject_Z (Z.of_nat voteCount) * 100)
     <= inject_Z (Z.of_nat count) / inject_Z (Z.of_nat voteCount) * (1 # 10000000000000).
Proof.
  intros Hle Hpos Hlt. unfold Results.percentage_of.
  destruct (Nat.ltb_spec 0 voteCount) as [_|]; [|lia].
  cbn [num_mul num_div num_of_nat binary64_Number].
  destruct (b64_of_Z_exact (Z.of_nat voteCount)) as (m2 & e2 & -> & Hm2 & He2 & Hv2); [lia|].
  destruct (Nat.eq_dec count 0%nat) as [->|Hc].
  - change (b64_of_Z (Z.of_nat 0)) with (S754_zero false).
    change (b64_of_Z (Z.of_nat 100)) with (S754_finite false 7036874417766400 (-46)).
    cbn [SFdiv SFmul xorb b64_to_Q b64_finite]. change (inject_Z (Z.of_nat 0)) with 0.
    split; [reflexivity|].
    assert (E : 0 / inject_Z (Z.of_nat voteCount) == 0) by (unfold Qdiv; ring).
    rewrite E. apply Qle_bool_imp_le. reflexivity.
  - destruct (b64_of_Z_exact (Z.of_nat count)) as (m1 & e1 & -> & Hm1 & He1 & Hv1); [lia|].
    destruct (SFdiv_error m1 m2 e1 e2 Hm1 Hm2 He1 He2) as (m & e & -> & Hm & He & Hdiv).
    change (b64_of_Z (Z.of_nat 100)) with (b64_of_Z 100).
    destruct (SFmul_100_error m e Hm He) as (m' & e' & -> & Hmul).
    cbn [b64_to_Q b64_finite]. split; [reflexivity|]. rewrite Hv1, Hv2 in Hdiv.
    assert (Hx : 0 <= inject_Z (Z.of_nat count) / inject_Z (Z.of_nat voteCount)).
    { apply Qle_shift_div_l; [change 0 with (inject_Z 0); rewrite <- Zlt_Qlt; lia|].
      rewrite Qmult_0_l. change 0 with (inject_Z 0). rewrite <- Zle_Qle. lia. }
    set (x := inject_Z (Z.of_nat count) / inject_Z (Z.of_nat voteCount)) in *.
    set (z := inject_Z (Z.pos m) * 2 ^ e) in *.
    set (p := inject_Z (Z.pos m') * 2 ^ e') in *.
    apply Qabs_Qle_condition in Hdiv, Hmul. apply Qabs_Qle_condition.
    clearbody x z p. split; lra.
Qed.

End RoundingError.

(** The percentages of a tally add up to the exact percentages of the
    counts, up to two roundings each. *)
Lemma percentages_error_sum (counts : list nat) (voteCount : nat) :
  0 < voteCount -> (Z.of_nat voteCount < 2 ^ 53)%Z ->
  Forall (fun c => c <= voteCount) counts ->
  (Qabs (fold_right Qplus 0
           (map (fun c => b64_to_Q (Results.percentage_of c voteCount)) counts)
         - inject_Z (Z.of_nat (list_sum counts)) / inject_Z (Z.of_nat voteCount) * 100)
   <= inject_Z (Z.of_nat (list_sum counts)) / inject_Z (Z.of_nat voteCount)
      * (1 # 10000000000000))%Q.
Proof.
  intros Hpos Hlt Hall. induction Hall as [|c counts Hc _ IH].
  - cbn [map fold_right list_sum].
    assert (E : (inject_Z (Z.of_nat 0) / inject_Z (Z.of_nat voteCount) == 0)%Q)
      by (change (inject_Z (Z.of_nat 0)) with 0%Q; unfold Qdiv; ring).
    rewrite E. apply Qle_bool_imp_le. reflexivity.
  - cbn [map fold_right list_sum].
    pose proof (proj2 (percentage_of_error c voteCount Hc Hpos Hlt)) as Hp.
    assert (E : (inject_Z (Z.of_nat (c + list_sum counts)) / inject_Z (Z.of_nat voteCount)
                 == inject_Z (Z.of_nat c) / inject_Z (Z.of_nat voteCount)
                    + inject_Z (Z.of_nat (list_sum counts)) / inject_Z (Z.of_nat voteCount))%Q).
    { rewrite Nat2Z.inj_add, inject_Z_plus. unfold Qdiv. ring. }
    rewrite E.
    set (x := (inject_Z (Z.of_nat c) / inject_Z (Z.of_nat voteCount))%Q) in *.
    set (y := (inject_Z (Z.of_nat (list_sum counts)) / inject_Z (Z.of_nat voteCount))%Q) in *.
    set (p := b64_to_Q (Results.percentage_of c voteCount)) in *.
    set (s := fold_right Qplus 0%Q
                (map (fun c => b64_to_Q (Results.percentage_of c voteCount)) counts)) in *.
    apply Qabs_Qle_condition in Hp, IH. apply Qabs_Qle_condition.
    clearbody x y p s. split; lra.
Qed.

(** Distinct candidates, at least one ballot and fewer than 2^53, every
    ballot for one of the candidates: the counts add up to the number of
    ballots, and the percentages are finite numbers that add up to 100, up
    to 10^-13. *)
Lemma tally_percentages_sum (cs : list candidate_row) (vs : list uuid) :
  List.NoDup (map c_id cs) ->
  Forall (fun k => In k (map c_id cs)) vs ->
  0 < length vs -> (Z.of_nat (length vs) < 2 ^ 53)%Z ->
  list_sum (map Results.votes (Results.resultsWithVotes (num:=binary64) cs vs)) = length vs
  /\ Forall (fun r => b64_finite (Results.percentage r) = true)
        (Results.resultsWithVotes cs vs)
  /\ (Qabs (percentage_sum (Results.resultsWithVotes cs vs) - 100)
      <= 1 # 10000000000000)%Q.
Proof.
  intros Hnd Hall Hpos Hlt.
  assert (Hsum : list_sum (map (fun c => ballot_count vs (c_id c)) cs) = length vs).
  { rewrite <- (ballot_counts_sum _ _ Hnd Hall), map_map. reflexivity. }
  split; [|split].
  - rewrite (Permutation_map Results.votes (resultsWithVotes_Permutation cs vs)).
    rewrite map_map. exact Hsum.
  - eapply Permutation_Forall; [symmetry; apply resultsWithVotes_Permutation|].
    apply List.Forall_forall. intros r Hr. apply in_map_iff in Hr as [c [<- _]].
    cbn [Results.percentage row_of].
    apply percentage_of_error; [apply count_occ_bound | exact Hpos | exact Hlt].
  - unfold percentage_sum.
    rewrite (Qsum_Permutation _ _
               (Permutation_map (fun r => b64_to_Q (Results.percentage r))
                  (resultsWithVotes_Permutation cs vs))).
    rewrite map_map. cbn [Results.percentage row_of].
    rewrite <- (map_map (fun c => ballot_count vs (c_id c))
                        (fun k => b64_to_Q (Results.percentage_of k (length vs)))).
    assert (HF : Forall (fun c => c <= length vs) (map (fun c => ballot_count vs (c_id c)) cs)).
    { apply List.Forall_forall. intros k Hk. apply in_map_iff in Hk as [c [<- _]].
      apply count_occ_bound. }
    pose proof (percentages_error_sum _ _ Hpos Hlt HF) as Herr.
    rewrite Hsum in Herr.
    assert (E : (inject_Z (Z.of_nat (length vs)) / inject_Z (Z.of_nat (length vs)) == 1)%Q).
    { field. unfold Qeq. simpl. lia. }
    rewrite E in Herr.
    set (s := fold_right Qplus 0%Q
                (map (fun k => b64_to_Q (Results.percentage_of k (length vs)))
                   (map (fun c => ballot_count vs (c_id c)) cs))) in *.
    apply Qabs_Qle_condition in Herr. apply Qabs_Qle_condition.
    clearbody s. split; lra.
Qed.

(** The tally of an election read as published, by the ballots the viewer
    may read. *)
Lemma loadResults_percentages_sum (electionId : uuid) (uid : option uuid) (d : db)
    (e : election_row) :
  select_election d uid electionId = Some e ->
  e_results_published e = Some true ->
  candidate_ids_unique d ->
  0 < length (readable_votes d uid electionId) ->
  (Z.of_nat (length (readable_votes d uid electionId)) < 2 ^ 53)%Z ->
  Forall (fun v => In (v_candidate_id v) (map c_id (select_candidates d electionId)))
         (readable_votes d uid electionId) ->
  let shown := fst (Results.loadResults (num:=binary64) electionId uid d Results.initial) in
  Results.totalVotes shown = length (readable_votes d uid electionId)
  /\ list_sum (map Results.votes (Results.results shown))
     = length (readable_votes d uid electionId)
  /\ Forall (fun r => b64_finite (Results.percentage r) = true) (Results.results shown)
  /\ (Qabs (percentage_sum (Results.results shown) - 100) <= 1 # 10000000000000)%Q.
Proof.
  intros He Hp Hids Hpos Hlt Hall shown. subst shown.
  rewrite (loadResults_published _ _ _ _ _ He Hp).
  cbn [fst Results.results Results.totalVotes]. unfold select_votes.
  rewrite length_map. split; [reflexivity|].
  rewrite <- (length_map v_candidate_id (readable_votes d uid electionId)).
  apply tally_percentages_sum.
  - apply NoDup_map_filter. exact Hids.
  - apply List.Forall_map. exact Hall.
  - rewrite length_map. exact Hpos.
  - rewrite length_map. exact Hlt.
Qed.




(** ** One ballot per voter and election *)

Lemma uid_is_Some (uid : option uuid) (id : uuid) :
  uid_is uid id = true <-> uid = Some id.
Proof.
  destruct uid as [u|]; simpl; [|split; discriminate].
  rewrite String.eqb_eq. split; congruence.
Qed.

(** When [insert_vote] accepts a payload, the caller is the voter, no ballot
    of that voter in that election was present, and the store gains the one
    row of the payload. *)
Lemma insert_vote_accepts (d d' : db) (uid : option uuid) (p : vote_payload) :
  insert_vote d uid p = pg_ok d' ->
  exists cid,
    candidate_id p = Some cid
    /\ uid = Some (voter_id p)
    /\ ballots_of d (election_id p) (voter_id p) = []
    /\ d' = with_votes d (votes d ++
              [{| v_election_id := election_id p; v_candidate_id := cid;
                  v_voter_id := voter_id p; v_vote_receipt := vote_receipt p;
                  v_face_verified := Some (face_verified p) |}]).
Proof.
  unfold insert_vote, votes_insert_check.
  destruct (uid_is uid (voter_id p)) eqn:Hu; simpl; [|discriminate].
  destruct (candidate_id p) as [cid|]; [|discriminate].
  destruct (existsb _ (votes d)); [discriminate|].
  destruct (existsb _ (votes d)) eqn:Hdup; [discriminate|].
  destruct (existsb _ (elections d)); simpl; [|discriminate].
  destruct (existsb _ (candidates d)); simpl; [|discriminate].
  destruct (existsb _ (profiles d)); simpl; [|discriminate].
  intros [= <-]. exists cid. repeat split; try reflexivity.
  - apply uid_is_Some. exact Hu.
  - unfold ballots_of. induction (votes d) as [|v vs IH]; [reflexivity|].
    simpl in Hdup |- *. apply orb_false_elim in Hdup as [Hv Hvs].
    rewrite Hv. exact (IH Hvs).
Qed.

(** A second insert for the same voter and election is rejected. *)
Lemma insert_vote_rejects_duplicate (d : db) (uid : option uuid) (p : vote_payload) :
  ballots_of d (election_id p) (voter_id p) <> [] ->
  exists error, insert_vote d uid p = pg_fail error.
Proof.
  intros Hex. destruct (insert_vote d uid p) as [d'|error] eqn:Hins; [|eauto].
  apply insert_vote_accepts in Hins as (cid & _ & _ & Hnone & _). contradiction.
Qed.

Lemma ballots_of_In (d : db) (E V : uuid) (v : vote_row) :
  In v (ballots_of d E V) <-> In v (votes d) /\ v_election_id v = E /\ v_voter_id v = V.
Proof.
  unfold ballots_of. rewrite filter_In, andb_true_iff, !String.eqb_eq. tauto.
Qed.

Lemma votes_unique_at_most_one (d : db) (E V : uuid) :
  votes_unique d -> length (ballots_of d E V) <= 1.
Proof.
  unfold votes_unique, ballots_of. induction (votes d) as [|v vs IH]; simpl; [lia|].
  intros Hnd. inversion Hnd as [|? ? Hv Hvs]; subst. specialize (IH Hvs).
  destruct (String.eqb_spec (v_election_id v) E) as [HE|]; simpl; [|exact IH].
  destruct (String.eqb_spec (v_voter_id v) V) as [HV|]; simpl; [|exact IH].
  destruct (List.filter _ vs) as [|w ws] eqn:Hf; [simpl; lia|].
  exfalso. apply Hv. apply in_map_iff. exists w.
  assert (Hw : In w (List.filter
            (fun v => String.eqb (v_election_id v) E && String.eqb (v_voter_id v) V) vs))
    by (rewrite Hf; left; reflexivity).
  apply filter_In in Hw as [Hin Hb]. apply andb_prop in Hb as [H1 H2].
  apply String.eqb_eq in H1, H2. split; [congruence | exact Hin].
Qed.

Lemma votes_unique_filter (d : db) (keep : vote_row -> bool) :
  votes_unique d -> votes_unique (with_votes d (List.filter keep (votes d))).
Proof. unfold votes_unique. simpl. apply NoDup_map_filter. Qed.

Lemma votes_unique_same_votes (d d' : db) :
  votes d' = votes d -> votes_unique d -> votes_unique d'.
Proof. unfold votes_unique. intros ->. auto. Qed.

Lemma delete_candidates_votes_unique (d : db) (doomed : candidate_row -> bool) :
  votes_unique d -> votes_unique (delete_candidates_where d doomed).
Proof. unfold votes_unique. simpl. apply NoDup_map_filter. Qed.

(** Every request keeps the constraint, accepted or not. *)
Lemma exec_votes_unique (d : db) (r : request) :
  votes_unique d -> votes_unique (commit d (exec d r)).
Proof.
  intros Hu. destruct r; simpl.
  - unfold handle_new_user. destruct (existsb _ _); simpl; exact Hu.
  - unfold insert_face_data.
    destruct (negb _); [exact Hu|]. destruct (existsb _ _); [exact Hu|].
    destruct (negb _); exact Hu.
  - exact Hu.
  - unfold insert_election.
    destruct (negb _); [exact Hu|]. destruct (existsb _ _); [exact Hu|].
    destruct (negb _); exact Hu.
  - exact Hu.
  - exact Hu.
  - unfold delete_election. destruct (_ && _); [|exact Hu]. simpl.
    unfold votes_unique in *. simpl. apply NoDup_map_filter, NoDup_map_filter, Hu.
  - unfold insert_candidate.
    destruct (negb _); [exact Hu|]. destruct (existsb _ _); [exact Hu|].
    destruct (negb _); exact Hu.
  - apply delete_candidates_votes_unique, Hu.
  - destruct (insert_vote d uid p) as [d'|error] eqn:Hins; [|exact Hu]. simpl.
    apply insert_vote_accepts in Hins as (cid & _ & _ & Hnone & ->).
    unfold votes_unique in *. simpl. rewrite map_app. simpl.
    apply List.NoDup_app; [exact Hu | repeat constructor; simpl; tauto |].
    intros pr Hin [<-|[]].
    apply in_map_iff in Hin as (v & Hv & Hin). injection Hv as HE HV.
    assert (Hb : In v (ballots_of d (election_id p) (voter_id p)))
      by (apply ballots_of_In; auto).
    rewrite Hnone in Hb. exact Hb.
Qed.

Lemma run_votes_unique (rs : list request) (d : db) :
  votes_unique d -> votes_unique (run d rs).
Proof.
  revert d. induction rs as [|r rs IH]; intros d Hu; [exact Hu|].
  apply IH, exec_votes_unique, Hu.
Qed.

(** The store after [verifyAndSubmit] is the store before, or the result of
    the one insert it sends, with [face_verified] set. *)
Lemma verifyAndSubmit_store (electionId : uuid) (session : option uuid) (now suffix : string)
    (d : db) (st : Vote.state) :
  let d' := snd (fst (Vote.verifyAndSubmit electionId session now suffix d st)) in
  d' = d
  \/ exists uid,
       session = Some uid
       /\ insert_vote d (Some uid)
            {| election_id := electionId;
               candidate_id := Vote.selectedCandidate st;
               voter_id := uid;
               vote_receipt := Vote.voteReceipt now suffix;
               face_verified := true |} = pg_ok d'.
Proof.
  unfold Vote.verifyAndSubmit, Vote.try_submit. cbn [Vote.setVerifying Vote.selectedCandidate].
  destruct session as [uid|]; simpl; [|left; reflexivity].
  destruct (insert_vote d (Some uid) _) as [d1|error] eqn:Hins; simpl.
  - right. exists uid. split; [reflexivity | exact Hins].
  - left. reflexivity.
Qed.

Lemma perform_votes_unique (d : db) (a : action) :
  votes_unique d -> votes_unique (perform d a).
Proof.
  intros Hu. destruct a as [r|electionId session now suffix st]; simpl.
  - apply exec_votes_unique, Hu.
  - destruct (verifyAndSubmit_store electionId session now suffix d st)
      as [->|(uid & _ & Hins)]; [exact Hu|].
    match type of Hins with insert_vote _ _ ?p = _ =>
      pose proof (exec_votes_unique d (rq_insert_vote (Some uid) p) Hu) as Hu'
    end.
    simpl in Hu'. rewrite Hins in Hu'. exact Hu'.
Qed.

Lemma history_votes_unique (acts : list action) (d : db) :
  votes_unique d -> votes_unique (history d acts).
Proof.
  revert d. induction acts as [|a acts IH]; intros d Hu; [exact Hu|].
  apply IH, perform_votes_unique, Hu.
Qed.

Lemma select_own_vote_ballots (d : db) (uid E : uuid) :
  select_own_vote d (Some uid) E uid = single (ballots_of d E uid).
Proof.
  unfold select_own_vote, ballots_of. f_equal. apply filter_ext. intros v.
  unfold votes_select_policy, uid_is.
  destruct (String.eqb_spec (v_voter_id v) uid) as [->|Hne].
  - rewrite String.eqb_refl. reflexivity.
  - rewrite !andb_false_r. reflexivity.
Qed.

(** C1. Starting from any store that satisfies UNIQUE(election_id,
    voter_id), after any interleaving of requests and of submissions from
    voting pages of any sessions, the store holds at most one ballot for
    every election and voter; an insert for a voter and election that
    already have a ballot is rejected and leaves the store as it was; and
    when the voting page is loaded by a voter for an election available for
    voting in which a ballot of that voter exists, [loadElection] sets
    [hasVoted]. *)
Theorem one_ballot_per_voter_and_election :
  (forall (d : db) (acts : list action) (E V : uuid),
      votes_unique d -> length (ballots_of (history d acts) E V) <= 1)
  /\ (forall (d : db) (uid : option uuid) (p : vote_payload),
         ballots_of d (election_id p) (voter_id p) <> [] ->
         (exists error, insert_vote d uid p = pg_fail error)
         /\ commit d (insert_vote d uid p) = d)
  /\ (forall (d : db) (electionId uid : uuid) (st : Vote.state),
         votes_unique d ->
         Vote.available_for_voting (select_election d (Some uid) electionId) = true ->
         ballots_of d electionId uid <> [] ->
         Vote.hasVoted (fst (Vote.loadElection electionId (Some uid) d st)) = true).
Proof.
  split; [|split].
  - intros d acts E V Hu. apply votes_unique_at_most_one, history_votes_unique, Hu.
  - intros d uid p Hex.
    destruct (insert_vote_rejects_duplicate d uid p Hex) as [error Herr].
    split; [eauto | rewrite Herr; reflexivity].
  - intros d electionId uid st Hu Hav Hex.
    unfold Vote.loadElection. rewrite Hav. cbn [negb fst Vote.hasVoted].
    rewrite select_own_vote_ballots.
    pose proof (votes_unique_at_most_one d electionId uid Hu) as Hle.
    destruct (ballots_of d electionId uid) as [|v [|w l]]; simpl in *;
      [contradiction | reflexivity | lia].
Qed.

Lemma one_ballot_per_voter_and_election_witness :
  (votes_unique stray_start
   /\ ballots_of voted_store "G" "v1" <> []
   /\ votes_unique voted_store
   /\ Vote.available_for_voting (select_election voted_store (Some "v1") "G") = true)
  /\ length (ballots_of
               (history stray_start
                  [act_submit "G" (Some "v1") "1700000000000" "k3x9q2a7b"
                     (ready_to_submit "G" (Some "v1") "g" stray_start);
                   act_submit "G" (Some "v1") "1700000000001" "zz81mmq0p"
                     (ready_to_submit "G" (Some "v1") "g" stray_start)])
               "G" "v1") <= 1
  /\ commit voted_store
       (insert_vote voted_store (Some "v1")
          {| election_id := "G"; candidate_id := Some "g"; voter_id := "v1";
             vote_receipt := "VR-2-x"; face_verified := true |}) = voted_store
  /\ Vote.hasVoted (fst (Vote.loadElection "G" (Some "v1") voted_store Vote.initial)) = true.
Proof.
  assert (H0 : votes_unique stray_start) by constructor.
  assert (H1 : ballots_of voted_store "G" "v1" <> []) by (vm_compute; discriminate).
  assert (H2 : votes_unique voted_store).
  { unfold votes_unique. vm_compute. repeat constructor. simpl. tauto. }
  assert (H3 : Vote.available_for_voting (select_election voted_store (Some "v1") "G") = true)
    by reflexivity.
  split; [repeat split; assumption|].
  split; [|split].
  - exact (proj1 one_ballot_per_voter_and_election stray_start _ "G" "v1" H0).
  - exact (proj2 (proj1 (proj2 one_ballot_per_voter_and_election) voted_store (Some "v1")
                    {| election_id := "G"; candidate_id := Some "g"; voter_id := "v1";
                       vote_receipt := "VR-2-x"; face_verified := true |} H1)).
  - exact (proj2 (proj2 one_ballot_per_voter_and_election) voted_store "G" "v1"
             Vote.initial H2 H3 H1).
Defined.

(** ** Defects of the voting page *)

(** C2, at a failing input.  Voter "v1" opens the voting page while election
    "G" is active and gets as far as the verification dialog; the
    administrator pauses "G"; opening the page now is refused, but the press
    of "Verify & Submit Vote" on the page already open inserts the ballot
    and reports success: neither [verifyAndSubmit] nor the insert policy
    looks at the status. *)
Theorem paused_election_accepts_ballot :
  Vote.available_for_voting (select_election stray_start (Some "v1") "G") = true
  /\ map e_status (List.filter (fun e => String.eqb (e_id e) "G") (elections paused_store))
     = [paused]
  /\ Vote.loadElection "G" (Some "v1") paused_store Vote.initial
     = (Vote.initial,
        [toast_error "This election is not available for voting"; navigate "/dashboard"])
  /\ Vote.enabled (ready_to_submit "G" (Some "v1") "g" stray_start)
       (Vote.click_verify_and_submit "1700000000000" "k3x9q2a7b") = true
  /\ votes (snd (fst (Vote.handle "G" (Some "v1")
                        (Vote.click_verify_and_submit "1700000000000" "k3x9q2a7b")
                        paused_store (ready_to_submit "G" (Some "v1") "g" stray_start))))
     = [ballot "G" "g" "v1" "VR-1700000000000-k3x9q2a7b"]
  /\ snd (Vote.handle "G" (Some "v1")
            (Vote.click_verify_and_submit "1700000000000" "k3x9q2a7b")
            paused_store (ready_to_submit "G" (Some "v1") "g" stray_start))
     = [stop_tracks;
        toast_success "Vote cast successfully! Receipt: VR-1700000000000-k3x9q2a7b";
        navigate_after 2000 "/dashboard"].
Proof. repeat split; vm_compute; reflexivity. Qed.

(** Whatever the page state, a submission by a voter who already has a
    ballot in the election changes nothing in the store and produces no
    effect at all: the value thrown is the response's error object, which
    the [catch] block does not report. *)
Lemma verifyAndSubmit_duplicate (electionId uid : uuid) (now suffix : string) (d : db)
    (st : Vote.state) :
  ballots_of d electionId uid <> [] ->
  Vote.verifyAndSubmit electionId (Some uid) now suffix d st
  = (Vote.setVerifying false (Vote.setVerifying true st), d, []).
Proof.
  intros Hex. unfold Vote.verifyAndSubmit, Vote.try_submit.
  match goal with |- context [insert_vote d (Some uid) ?p] =>
    destruct (insert_vote_rejects_duplicate d (Some uid) p Hex) as [error ->]
  end.
  reflexivity.
Qed.

(** C3, at a failing input.  Voter "v1" has two voting pages open on election
    "G", both at the verification dialog; the first submission inserted the
    ballot ([voted_store]).  The second submission is rejected by
    UNIQUE(election_id, voter_id) and leaves the store as it was, but the
    page shows nothing: no toast, the dialog still open, [hasVoted] still
    false. *)
Theorem duplicate_cast_shows_no_error :
  ballots_of voted_store "G" "v1" = [ballot "G" "g" "v1" "VR-1700000000000-k3x9q2a7b"]
  /\ insert_vote voted_store (Some "v1")
       {| election_id := "G"; candidate_id := Some "g"; voter_id := "v1";
          vote_receipt := Vote.voteReceipt "1700000000001" "zz81mmq0p";
          face_verified := true |} = pg_fail unique_violation
  /\ Vote.handle "G" (Some "v1") (Vote.click_verify_and_submit "1700000000001" "zz81mmq0p")
       voted_store (ready_to_submit "G" (Some "v1") "g" stray_start)
     = (ready_to_submit "G" (Some "v1") "g" stray_start, voted_store, [])
  /\ Vote.showVerification (ready_to_submit "G" (Some "v1") "g" stray_start) = true
  /\ Vote.hasVoted (ready_to_submit "G" (Some "v1") "g" stray_start) = false.
Proof. repeat split; vm_compute; reflexivity. Qed.

(** C8, at a failing input.  "bob" has not registered a face.  The dashboard
    sends him to face registration, but the voting page, opened by its
    address, loads for him, and the usual four presses insert his ballot. *)
Theorem unregistered_voter_casts_ballot :
  select_profile stray_start (Some "bob") "bob" = Some (voter "bob" false)
  /\ snd (Dashboard.initDashboard (Some "bob") stray_start Dashboard.initial)
     = [toast_info "Please register your face for voting"; navigate "/face-registration"]
  /\ snd (Vote.loadElection "G" (Some "bob") stray_start Vote.initial) = []
  /\ Vote.loading (fst (Vote.loadElection "G" (Some "bob") stray_start Vote.initial)) = false
  /\ votes (snd (fst (Vote.interact "G" (Some "bob")
                        [Vote.click_candidate "g"; Vote.click_cast_vote;
                         Vote.click_start_verification true;
                         Vote.click_verify_and_submit "1700000000002" "q1w2e3r4t"]
                        stray_start
                        (fst (Vote.loadElection "G" (Some "bob") stray_start Vote.initial)))))
     = [ballot "G" "g" "bob" "VR-1700000000002-q1w2e3r4t"].
Proof. repeat split; vm_compute; reflexivity. Qed.

(** ** Who reads which ballots *)

Lemma readable_votes_non_admin (d : db) (u E : uuid) :
  has_role d (Some u) role_admin = false ->
  readable_votes d (Some u) E = ballots_of d E u.
Proof.
  intros Hna. unfold readable_votes, ballots_of. apply filter_ext. intros v.
  unfold votes_select_policy. rewrite Hna, orb_false_r. simpl.
  rewrite (String.eqb_sym u). apply andb_comm.
Qed.

Lemma readable_votes_anonymous (d : db) (E : uuid) : readable_votes d None E = [].
Proof.
  unfold readable_votes. induction (votes d) as [|v vs IH]; [reflexivity|]. exact IH.
Qed.

Lemma readable_votes_admin (d : db) (uid : option uuid) (E : uuid) :
  has_role d uid role_admin = true ->
  readable_votes d uid E = List.filter (fun v => String.eqb (v_election_id v) E) (votes d).
Proof.
  intros Ha. unfold readable_votes. apply filter_ext. intros v.
  unfold votes_select_policy. rewrite Ha, orb_true_r. reflexivity.
Qed.

Lemma readable_votes_at_most_one (d : db) (uid : option uuid) (E : uuid) :
  votes_unique d ->
  has_role d uid role_admin = false ->
  length (readable_votes d uid E) <= 1.
Proof.
  intros Hu Hna. destruct uid as [u|].
  - rewrite readable_votes_non_admin by exact Hna. apply votes_unique_at_most_one, Hu.
  - rewrite readable_votes_anonymous. simpl. lia.
Qed.

(** C9. A caller without the admin role reads only ballots whose voter is
    the caller; so, in a store that satisfies UNIQUE(election_id, voter_id),
    the tally [loadResults] stores for such a viewer has a total of at most
    1 and at most 1 vote in every row.  In [demo_store], whose election "E"
    has ten ballots, the voters "v1" and "v2" each see a total of 1 and
    different rows.  A caller with the admin role reads every ballot of the
    election. *)
Theorem non_admin_tally_from_own_ballot :
  (forall (d : db) (uid : option uuid) (E : uuid),
      has_role d uid role_admin = false ->
      Forall (fun v => uid = Some (v_voter_id v)) (readable_votes d uid E))
  /\ (forall (num : Type) (N : Number num) (d : db) (uid : option uuid) (E : uuid),
         votes_unique d ->
         has_role d uid role_admin = false ->
         Results.totalVotes (fst (Results.loadResults E uid d Results.initial)) <= 1
         /\ Forall (fun r => Results.votes r <= 1)
                   (Results.results (fst (Results.loadResults E uid d Results.initial))))
  /\ (has_role demo_store (Some "v1") role_admin = false
      /\ has_role demo_store (Some "v2") role_admin = false
      /\ length (List.filter (fun v => String.eqb (v_election_id v) "E") (votes demo_store)) = 10
      /\ map (fun r => (c_id (Results.candidate r), Results.votes r))
           (Results.results
              (fst (Results.loadResults (num:=binary64) "E" (Some "v1") demo_store
                      Results.initial)))
         = [("b", 1); ("c", 0); ("a", 0)]
      /\ map (fun r => (c_id (Results.candidate r), Results.votes r))
           (Results.results
              (fst (Results.loadResults (num:=binary64) "E" (Some "v2") demo_store
                      Results.initial)))
         = [("a", 1); ("b", 0); ("c", 0)])
  /\ (forall (d : db) (uid : option uuid) (E : uuid),
         has_role d uid role_admin = true ->
         readable_votes d uid E
         = List.filter (fun v => String.eqb (v_election_id v) E) (votes d)).
Proof.
  split; [|split; [|split]].
  - intros d uid E Hna. apply List.Forall_forall. intros v Hv.
    unfold readable_votes in Hv. apply filter_In in Hv as [_ Hb].
    apply andb_prop in Hb as [Hb _]. unfold votes_select_policy in Hb.
    rewrite Hna, orb_false_r in Hb. apply uid_is_Some. exact Hb.
  - intros num N d uid E Hu Hna.
    pose proof (readable_votes_at_most_one d uid E Hu Hna) as Hle.
    unfold Results.loadResults.
    destruct (Results.unpublished (select_election d uid E)); cbn [fst Results.totalVotes
      Results.results Results.initial]; [split; [lia | constructor]|].
    unfold select_votes. rewrite length_map. split; [exact Hle|].
    eapply List.Forall_impl; [|apply resultsWithVotes_each].
    intros r ->. cbn [Results.votes row_of]. unfold ballot_count.
    etransitivity; [apply count_occ_bound|]. rewrite length_map. exact Hle.
  - repeat split; vm_compute; reflexivity.
  - intros d uid E Ha. apply readable_votes_admin, Ha.
Qed.

Lemma non_admin_tally_from_own_ballot_witness :
  (votes_unique demo_store /\ has_role demo_store (Some "v3") role_admin = false
   /\ has_role demo_store (Some "adm") role_admin = true)
  /\ Forall (fun v => Some "v3" = Some (v_voter_id v)) (readable_votes demo_store (Some "v3") "E")
  /\ Results.totalVotes
       (fst (Results.loadResults (num:=binary64) "E" (Some "v3") demo_store Results.initial))
     <= 1
  /\ readable_votes demo_store (Some "adm") "E"
     = List.filter (fun v => String.eqb (v_election_id v) "E") (votes demo_store).
Proof.
  assert (Hu : votes_unique demo_store).
  { unfold votes_unique. simpl.
    repeat (constructor; [simpl; intuition discriminate|]). constructor. }
  assert (Hna : has_role demo_store (Some "v3") role_admin = false) by reflexivity.
  assert (Ha : has_role demo_store (Some "adm") role_admin = true) by reflexivity.
  split; [repeat split; assumption|].
  split; [|split].
  - exact (proj1 non_admin_tally_from_own_ballot demo_store (Some "v3") "E" Hna).
  - exact (proj1 (proj1 (proj2 non_admin_tally_from_own_ballot) binary64 _ demo_store
                    (Some "v3") "E" Hu Hna)).
  - exact (proj2 (proj2 (proj2 non_admin_tally_from_own_ballot)) demo_store (Some "adm") "E" Ha).
Defined.

(** ** The verified flag *)

(** The ballots a store holds after [verifyAndSubmit]: those it held, then
    at most one new ballot, verified. *)
Lemma verifyAndSubmit_votes (electionId : uuid) (session : option uuid) (now suffix : string)
    (d : db) (st : Vote.state) :
  exists new,
    votes (snd (fst (Vote.verifyAndSubmit electionId session now suffix d st)))
    = votes d ++ new
    /\ length new <= 1
    /\ Forall verified new.
Proof.
  destruct (verifyAndSubmit_store electionId session now suffix d st)
    as [->|(uid & _ & Hins)].
  - exists []. rewrite app_nil_r. repeat split; [simpl; lia | constructor].
  - apply insert_vote_accepts in Hins as (cid & _ & _ & _ & ->).
    eexists [_]. split; [reflexivity|]. split; [simpl; lia|].
    repeat constructor.
Qed.

(** Requests other than a ballot insert add no ballot. *)
Lemma exec_votes_incl (d : db) (r : request) :
  through_the_page (act_request r) = true ->
  incl (votes (commit d (exec d r))) (votes d).
Proof.
  intros Hr. destruct r; simpl in *; try discriminate; try apply incl_refl.
  - unfold handle_new_user. destruct (existsb _ _); apply incl_refl.
  - unfold insert_face_data.
    destruct (negb _); [apply incl_refl|]. destruct (existsb _ _); [apply incl_refl|].
    destruct (negb _); apply incl_refl.
  - unfold insert_election.
    destruct (negb _); [apply incl_refl|]. destruct (existsb _ _); [apply incl_refl|].
    destruct (negb _); apply incl_refl.
  - unfold delete_election. destruct (_ && _); [|apply incl_refl]. simpl.
    eapply incl_tran; apply incl_filter.
  - unfold insert_candidate.
    destruct (negb _); [apply incl_refl|]. destruct (existsb _ _); [apply incl_refl|].
    destruct (negb _); apply incl_refl.
  - apply incl_filter.
Qed.

(** C10. Whatever the session, the page state (camera started or not,
    candidate selected or not) and the store, [verifyAndSubmit] adds at most
    one ballot and that ballot has [face_verified] true; hence, as long as
    ballots are inserted through the voting page only, a store whose ballots
    are all verified keeps that property through every history.  With the
    page state [Vote.initial], in which no camera was ever started, plus a
    selected candidate, the ballot is inserted all the same, verified. *)
Theorem cast_ballots_always_verified :
  (forall (electionId : uuid) (session : option uuid) (now suffix : string) (d : db)
          (st : Vote.state),
      exists new,
        votes (snd (fst (Vote.verifyAndSubmit electionId session now suffix d st)))
        = votes d ++ new
        /\ length new <= 1
        /\ Forall (fun v => v_face_verified v = Some true) new)
  /\ (forall (d : db) (acts : list action),
         forallb through_the_page acts = true ->
         Forall (fun v => v_face_verified v = Some true) (votes d) ->
         Forall (fun v => v_face_verified v = Some true) (votes (history d acts)))
  /\ (Vote.stream (Vote.setSelectedCandidate (Some "g") Vote.initial) = None
      /\ votes (snd (fst (Vote.verifyAndSubmit "G" (Some "v1") "1700000000003" "n0c4m3r4x"
                            stray_start
                            (Vote.setSelectedCandidate (Some "g") Vote.initial))))
         = [ballot "G" "g" "v1" "VR-1700000000003-n0c4m3r4x"]).
Proof.
  split; [|split].
  - exact verifyAndSubmit_votes.
  - intros d acts. revert d. induction acts as [|a acts IH]; intros d Hacts Hall; [exact Hall|].
    simpl in Hacts. apply andb_prop in Hacts as [Ha Hacts].
    apply IH; [exact Hacts|].
    destruct a as [r|electionId session now suffix st]; simpl.
    + eapply incl_Forall; [apply exec_votes_incl; exact Ha | exact Hall].
    + destruct (verifyAndSubmit_votes electionId session now suffix d st)
        as (new & -> & _ & Hnew).
      apply Forall_app. split; assumption.
  - split; vm_compute; reflexivity.
Qed.

Lemma cast_ballots_always_verified_witness :
  (forallb through_the_page
     [act_submit "G" (Some "v1") "1700000000000" "k3x9q2a7b"
        (ready_to_submit "G" (Some "v1") "g" stray_start);
      act_request (rq_update_election_status (Some "adm") "G" ended);
      act_submit "G" (Some "bob") "1700000000002" "q1w2e3r4t"
        (ready_to_submit "G" (Some "bob") "g" stray_start)] = true
   /\ Forall (fun v => v_face_verified v = Some true) (votes stray_start))
  /\ Forall (fun v => v_face_verified v = Some true)
       (votes (history stray_start
                 [act_submit "G" (Some "v1") "1700000000000" "k3x9q2a7b"
                    (ready_to_submit "G" (Some "v1") "g" stray_start);
                  act_request (rq_update_election_status (Some "adm") "G" ended);
                  act_submit "G" (Some "bob") "1700000000002" "q1w2e3r4t"
                    (ready_to_submit "G" (Some "bob") "g" stray_start)])).
Proof.
  assert (H1 : forallb through_the_page
     [act_submit "G" (Some "v1") "1700000000000" "k3x9q2a7b"
        (ready_to_submit "G" (Some "v1") "g" stray_start);
      act_request (rq_update_election_status (Some "adm") "G" ended);
      act_submit "G" (Some "bob") "1700000000002" "q1w2e3r4t"
        (ready_to_submit "G" (Some "bob") "g" stray_start)] = true) by reflexivity.
  assert (H2 : Forall (fun v => v_face_verified v = Some true) (votes stray_start))
    by constructor.
  split; [split; assumption|].
  exact (proj1 (proj2 cast_ballots_always_verified) stray_start _ H1 H2).
Defined.

(** * Further properties of the code *)

(** ** The vote counter *)

Lemma fold_voteCounts_lookup (votesData : list uuid) (acc : gmap uuid nat) (k : uuid) :
  fold_left (fun acc vote => <[vote := default 0 (acc !! vote) + 1]> acc) votesData acc !! k
  = if ballot_count votesData k =? 0 then acc !! k
    else Some (default 0 (acc !! k) + ballot_count votesData k).
Proof.
  unfold ballot_count.
  revert acc; induction votesData as [|v vs IH]; intros acc; [reflexivity|].
  cbn [fold_left count_occ]. rewrite IH.
  destruct (string_dec v k) as [->|Hne].
  - rewrite lookup_insert_eq. cbn [default].
    destruct (Nat.eqb_spec (count_occ string_dec vs k) 0) as [->|_]; simpl; f_equal; lia.
  - rewrite lookup_insert_ne by assumption. reflexivity.
Qed.

(** X1. The object built by the [reduce] of [loadResults] has a key exactly for
    the candidate ids that occur among the ballots read, and the value under
    a key is the number of ballots that name it (never 0). *)
Theorem voteCounts_counts_ballots :
  forall (votesData : list uuid) (k : uuid),
    (Results.voteCounts votesData !! k = None <-> ~ In k votesData)
    /\ (forall n, Results.voteCounts votesData !! k = Some n ->
                  n = ballot_count votesData k /\ 0 < n).
Proof.
  intros votesData k. unfold Results.voteCounts.
  rewrite fold_voteCounts_lookup, lookup_empty. cbn [default].
  unfold ballot_count.
  destruct (Nat.eqb_spec (count_occ string_dec votesData k) 0) as [H0|Hpos].
  - split; [|discriminate]. split; [|reflexivity].
    intros _. apply (count_occ_not_In string_dec). exact H0.
  - split.
    + split; [discriminate|]. intros Hnin.
      apply (count_occ_not_In string_dec) in Hnin. contradiction.
    + intros n [= <-]. lia.
Qed.

(** ** The winner *)

Section Winner.
Context {num : Type} `{Number num}.

(** X2. The first row of a tally has the most votes, and among the candidates
    with that many votes it is the one the candidates read lists first; there
    is no first row exactly when the election has no candidate. *)
Theorem winner_has_most_votes :
  forall (electionId : uuid) (uid : option uuid) (d : db) (st : Results.state num)
         (e : election_row),
    select_election d uid electionId = Some e ->
    e_results_published e = Some true ->
    let shown := fst (Results.loadResults electionId uid d st) in
    (Results.winner shown = None <-> select_candidates d electionId = [])
    /\ (forall w, Results.winner shown = Some w ->
          Forall (fun r => Results.votes r <= Results.votes w) (Results.results shown)
          /\ head (List.filter
                     (fun c => ballot_count (select_votes d uid electionId) (c_id c)
                               =? Results.votes w)
                     (select_candidates d electionId))
             = Some (Results.candidate w)).
Proof.
  intros electionId uid d st e He Hp shown. subst shown.
  rewrite (loadResults_published _ _ _ _ _ He Hp).
  unfold Results.winner. cbn [fst Results.results].
  set (cs := select_candidates d electionId). set (vs := select_votes d uid electionId).
  pose proof (resultsWithVotes_candidates cs vs) as Hperm.
  pose proof (resultsWithVotes_sorted cs vs) as Hsorted.
  pose proof (resultsWithVotes_stable cs vs) as Hstable.
  destruct (Results.resultsWithVotes cs vs) as [|w rows] eqn:Hrows; cbn [head].
  - split.
    + split; [intros _|reflexivity].
      apply Permutation_nil. exact Hperm.
    + intros w [=].
  - split.
    + split; [discriminate|]. intros Hnil. rewrite Hnil in Hperm.
      apply Permutation_sym, Permutation_nil in Hperm. discriminate.
    + intros w' [= <-]. split.
      * constructor; [lia|]. inversion Hsorted; subst. assumption.
      * rewrite <- (Hstable (Results.votes w)). cbn [List.filter].
        rewrite Nat.eqb_refl. reflexivity.
Qed.
End Winner.

Lemma winner_has_most_votes_witness :
  (select_election demo_store (Some "adm") "E" = Some election_E
   /\ e_results_published election_E = Some true)
  /\ (Results.winner
        (fst (Results.loadResults (num:=binary64) "E" (Some "adm") demo_store Results.initial))
      = None <-> select_candidates demo_store "E" = []).
Proof.
  assert (He : select_election demo_store (Some "adm") "E" = Some election_E) by reflexivity.
  assert (Hp : e_results_published election_E = Some true) by reflexivity.
  split; [split; assumption|].
  exact (proj1 (winner_has_most_votes (num:=binary64) "E" (Some "adm") demo_store
                  Results.initial election_E He Hp)).
Defined.

(** X3. Candidates with the same number of votes appear in the tally in the
    order in which the candidates were read: for every count [k], the rows
    with [k] votes are, in order, the candidates read that have [k]
    ballots. *)
Theorem results_ties_keep_order :
  forall (num : Type) (N : Number num) (candidatesData : list candidate_row)
         (votesData : list uuid) (k : nat),
    map Results.candidate
      (List.filter (fun r => Results.votes r =? k)
         (Results.resultsWithVotes candidatesData votesData))
    = List.filter (fun c => ballot_count votesData (c_id c) =? k) candidatesData.
Proof. intros num N. apply resultsWithVotes_stable. Qed.

(** ** Roles and authorisation *)

Lemma has_role_app_user (d : db) (uid : option uuid) (roles : list (uuid * app_role))
    (u : uuid) :
  user_roles d = roles ->
  forall d', user_roles d' = roles ++ [(u, role_user)] ->
  has_role d' uid role_admin = has_role d uid role_admin.
Proof.
  intros Hd d' Hd'. unfold has_role. destruct uid as [v|]; [|reflexivity].
  rewrite Hd, Hd', existsb_app. simpl. rewrite andb_false_r, !orb_false_r. reflexivity.
Qed.

(** The roles table after a request: as before, or with the role 'user' of
    a new account appended. *)
Lemma exec_user_roles (d : db) (r : request) :
  user_roles (commit d (exec d r)) = user_roles d
  \/ exists u, user_roles (commit d (exec d r)) = user_roles d ++ [(u, role_user)].
Proof.
  destruct r; simpl; try (left; reflexivity).
  - unfold handle_new_user. destruct (existsb _ _); simpl; [left; reflexivity|].
    right. eexists. reflexivity.
  - unfold insert_face_data.
    destruct (negb _); [left; reflexivity|]. destruct (existsb _ _); [left; reflexivity|].
    destruct (negb _); left; reflexivity.
  - unfold insert_election.
    destruct (negb _); [left; reflexivity|]. destruct (existsb _ _); [left; reflexivity|].
    destruct (negb _); left; reflexivity.
  - unfold delete_election. destruct (_ && _); left; reflexivity.
  - unfold insert_candidate.
    destruct (negb _); [left; reflexivity|]. destruct (existsb _ _); [left; reflexivity|].
    destruct (negb _); left; reflexivity.
  - unfold insert_vote.
    destruct (negb _); [left; reflexivity|]. destruct (candidate_id p); [|left; reflexivity].
    repeat (destruct (existsb _ _); simpl; try (left; reflexivity)).
Qed.

Lemma perform_has_role (d : db) (a : action) (uid : option uuid) :
  has_role (perform d a) uid role_admin = has_role d uid role_admin.
Proof.
  assert (Hreq : forall r, has_role (commit d (exec d r)) uid role_admin
                           = has_role d uid role_admin).
  { intros r. destruct (exec_user_roles d r) as [Hsame|[u Hu]].
    - unfold has_role. rewrite Hsame. reflexivity.
    - eapply has_role_app_user; [reflexivity | exact Hu]. }
  destruct a as [r|electionId session now suffix st]; simpl; [apply Hreq|].
  destruct (verifyAndSubmit_store electionId session now suffix d st)
    as [->|(u & _ & Hins)]; [reflexivity|].
  match type of Hins with insert_vote _ _ ?p = _ =>
    specialize (Hreq (rq_insert_vote (Some u) p)) end.
  simpl in Hreq. rewrite Hins in Hreq. exact Hreq.
Qed.

(** X4. Nothing the application does grants or withdraws the admin role:
    after any history, the callers for whom [has_role(_, 'admin')] holds are
    those for whom it held before (sign-up gives the role 'user' only). *)
Theorem admin_role_never_granted :
  forall (d : db) (acts : list action) (uid : option uuid),
    has_role (history d acts) uid role_admin = has_role d uid role_admin.
Proof.
  intros d acts uid. revert d. induction acts as [|a acts IH]; intros d; [reflexivity|].
  change (history d (a :: acts)) with (history (perform d a) acts).
  rewrite IH. apply perform_has_role.
Qed.

Lemma filter_all {A : Type} (f : A -> bool) (l : list A) :
  (forall x, f x = true) -> List.filter f l = l.
Proof.
  intros Hf. induction l as [|x l IH]; [reflexivity|]. simpl. rewrite Hf, IH. reflexivity.
Qed.

Lemma filter_none {A : Type} (f : A -> bool) (l : list A) :
  (forall x, f x = false) -> List.filter f l = [].
Proof.
  intros Hf. induction l as [|x l IH]; [reflexivity|]. simpl. rewrite Hf. exact IH.
Qed.

(** X5. A request issued by a caller without the admin role leaves the
    elections and the candidates exactly as they were, removes no ballot,
    and adds at most the caller's own ballot. *)
Theorem non_admin_cannot_manage :
  forall (d : db) (r : request),
    has_role d (issuer r) role_admin = false ->
    elections (commit d (exec d r)) = elections d
    /\ candidates (commit d (exec d r)) = candidates d
    /\ exists new,
         votes (commit d (exec d r)) = votes d ++ new
         /\ length new <= 1
         /\ Forall (fun v => issuer r = Some (v_voter_id v)) new.
Proof.
  intros d r Hna.
  assert (Hsame : forall d', elections d' = elections d -> candidates d' = candidates d ->
                             votes d' = votes d ->
            elections d' = elections d /\ candidates d' = candidates d
            /\ exists new, votes d' = votes d ++ new /\ length new <= 1
                           /\ Forall (fun v => issuer r = Some (v_voter_id v)) new).
  { intros d' He Hc Hv. repeat split; try assumption.
    exists []. rewrite app_nil_r. repeat split; [assumption | simpl; lia | constructor]. }
  destruct r; cbn [exec issuer] in *.
  - unfold handle_new_user. destruct (existsb _ _); apply Hsame; reflexivity.
  - unfold insert_face_data.
    destruct (negb _); [apply Hsame; reflexivity|].
    destruct (existsb _ _); [apply Hsame; reflexivity|].
    destruct (negb _); apply Hsame; reflexivity.
  - apply Hsame; reflexivity.
  - unfold insert_election, admin_policy. rewrite Hna. apply Hsame; reflexivity.
  - apply Hsame; try reflexivity.
    simpl. unfold admin_policy. rewrite Hna. simpl. apply map_id.
  - apply Hsame; try reflexivity.
    simpl. unfold admin_policy. rewrite Hna. simpl. apply map_id.
  - unfold delete_election, admin_policy. rewrite Hna. apply Hsame; reflexivity.
  - unfold insert_candidate, admin_policy. rewrite Hna. apply Hsame; reflexivity.
  - unfold delete_candidate, delete_candidates_where, admin_policy. rewrite Hna.
    apply Hsame; simpl; [reflexivity | apply filter_all; reflexivity |].
    rewrite (filter_none (fun _ => false)) by reflexivity. apply filter_all. reflexivity.
  - destruct (insert_vote d uid p) as [d'|error] eqn:Hins; [|apply Hsame; reflexivity].
    apply insert_vote_accepts in Hins as (cid & _ & Huid & _ & ->). simpl.
    repeat split. eexists [_]. split; [reflexivity|]. split; [simpl; lia|].
    repeat constructor. exact Huid.
Qed.

Lemma non_admin_cannot_manage_witness :
  has_role stray_start (issuer (rq_delete_election (Some "v1") "G")) role_admin = false
  /\ elections (commit stray_start (exec stray_start (rq_delete_election (Some "v1") "G")))
     = elections stray_start.
Proof.
  assert (Hna : has_role stray_start (issuer (rq_delete_election (Some "v1") "G")) role_admin
                = false) by reflexivity.
  split; [exact Hna|].
  exact (proj1 (non_admin_cannot_manage stray_start (rq_delete_election (Some "v1") "G") Hna)).
Defined.

Lemma filter_unique {A : Type} (f : A -> bool) (a : A) (l : list A) :
  (forall x, f x = true <-> x = a) ->
  List.NoDup l ->
  (List.filter f l = [a] /\ In a l) \/ (List.filter f l = [] /\ ~ In a l).
Proof.
  intros Hf Hnd. induction Hnd as [|x l Hx Hnd IH]; [right; split; [reflexivity | intros []]|].
  simpl. destruct (f x) eqn:Hfx.
  - apply Hf in Hfx. subst x. left. split; [|left; reflexivity].
    destruct IH as [[_ Hin]|[-> _]]; [contradiction | reflexivity].
  - assert (Hne : x <> a) by (intros ->; rewrite (proj2 (Hf a) eq_refl) in Hfx; discriminate).
    destruct IH as [[-> Hin]|[-> Hnin]].
    + left. split; [reflexivity | right; exact Hin].
    + right. split; [reflexivity|]. intros [Heq|Hin]; [exact (Hne Heq) | exact (Hnin Hin)].
Qed.

Lemma role_eqb_eq (a b : app_role) : role_eqb a b = true <-> a = b.
Proof. destruct a, b; simpl; split; congruence. Qed.

Lemma has_role_In (d : db) (u : uuid) (r : app_role) :
  has_role d (Some u) r = true <-> In (u, r) (user_roles d).
Proof.
  unfold has_role. rewrite existsb_exists. split.
  - intros [[u' r'] [Hin Hb]]. simpl in Hb. apply andb_prop in Hb as [Hu Hr].
    apply String.eqb_eq in Hu. apply role_eqb_eq in Hr. subst. exact Hin.
  - intros Hin. exists (u, r). split; [exact Hin|]. simpl.
    rewrite String.eqb_refl. destruct r; reflexivity.
Qed.

(** X6. When the roles table satisfies UNIQUE(user_id, role), the check run
    by the administration pages lets a session in exactly when the
    datastore's [has_role(auth.uid(), 'admin')] holds for it, that is, when
    the datastore would let it manage elections and candidates; an anonymous
    visitor is sent to sign in. *)
Theorem admin_gate_matches_policy :
  forall (d : db) (session : option uuid),
    roles_unique d ->
    fst (checkAdmin session d) = admin_policy d session
    /\ (session = None -> snd (checkAdmin session d) = [navigate "/auth"]).
Proof.
  intros d session Hu. split; [|intros ->; reflexivity].
  unfold admin_policy. destruct session as [uid|]; [|reflexivity].
  unfold checkAdmin, select_admin_role.
  destruct (filter_unique
              (fun ur => user_roles_select_policy d (Some uid) ur
                         && String.eqb (fst ur) uid && role_eqb (snd ur) role_admin)
              (uid, role_admin) (user_roles d)) as [[-> Hin]|[-> Hnin]].
  - intros [u r]. unfold user_roles_select_policy. simpl.
    rewrite !andb_true_iff, String.eqb_eq, role_eqb_eq. split.
    + intros [[_ ->] ->]. reflexivity.
    + intros [= -> ->]. rewrite String.eqb_refl. auto.
  - exact Hu.
  - cbn [single fst]. symmetry. apply has_role_In. exact Hin.
  - cbn [single fst]. symmetry. apply not_true_is_false.
    intros Ha. apply has_role_In in Ha. exact (Hnin Ha).
Qed.

Lemma admin_gate_matches_policy_witness :
  roles_unique stray_start
  /\ fst (checkAdmin (Some "adm") stray_start) = admin_policy stray_start (Some "adm")
  /\ fst (checkAdmin (Some "v1") stray_start) = admin_policy stray_start (Some "v1").
Proof.
  assert (Hu : roles_unique stray_start).
  { unfold roles_unique. simpl.
    repeat (constructor; [simpl; intuition discriminate|]). constructor. }
  split; [exact Hu|]. split.
  - exact (proj1 (admin_gate_matches_policy stray_start (Some "adm") Hu)).
  - exact (proj1 (admin_gate_matches_policy stray_start (Some "v1") Hu)).
Defined.

(** ** A visit of the voting page *)

(** The two outcomes of [verifyAndSubmit]: nothing but the [verifying] flag
    and the effects changes, or the ballot of the payload is inserted and
    the page records that the voter has voted. *)
Lemma verifyAndSubmit_cases (electionId : uuid) (session : option uuid) (now suffix : string)
    (d : db) (st : Vote.state) :
  (exists effects,
      Vote.verifyAndSubmit electionId session now suffix d st
      = (Vote.setVerifying false (Vote.setVerifying true st), d, effects))
  \/ (exists uid cid effects,
         session = Some uid
         /\ Vote.selectedCandidate st = Some cid
         /\ Vote.verifyAndSubmit electionId session now suffix d st
            = (Vote.setVerifying false
                 (Vote.setHasVoted true
                    (Vote.setShowVerification false (Vote.setVerifying true st))),
               with_votes d (votes d ++
                 [{| v_election_id := electionId; v_candidate_id := cid;
                     v_voter_id := uid;
                     v_vote_receipt := Vote.voteReceipt now suffix;
                     v_face_verified := Some true |}]),
               effects)).
Proof.
  unfold Vote.verifyAndSubmit, Vote.try_submit.
  destruct session as [uid|]; [|left; eexists; reflexivity].
  cbn [Vote.setVerifying Vote.selectedCandidate].
  match goal with |- context [insert_vote d (Some uid) ?p] =>
    destruct (insert_vote d (Some uid) p) as [d'|error] eqn:Hins
  end.
  - apply insert_vote_accepts in Hins as (cid & Hc & _ & _ & ->). simpl in Hc.
    right. exists uid, cid. eexists.
    split; [reflexivity|]. split; [exact Hc|]. reflexivity.
  - left. eexists. reflexivity.
Qed.

Lemma interact_disabled (electionId : uuid) (session : option uuid) (evs : list Vote.event)
    (d : db) (st : Vote.state) :
  Vote.loading st || Vote.hasVoted st = true ->
  Vote.interact electionId session evs d st = (st, d, []).
Proof.
  intros Hoff. induction evs as [|ev evs IH]; [reflexivity|].
  cbn [Vote.interact]. unfold Vote.handle at 1.
  assert (Hen : Vote.enabled st ev = false).
  { unfold Vote.enabled. apply orb_prop in Hoff as [->| ->]; [reflexivity|].
    rewrite andb_false_r. reflexivity. }
  rewrite Hen. cbn [negb]. rewrite IH. reflexivity.
Qed.

Section Visit.
Variables (electionId : uuid) (session : option uuid) (listed : list candidate_row).

Local Abbreviation cast_here := (cast_here electionId session listed).
Local Abbreviation selection_listed := (selection_listed listed).

Lemma interact_from_listed (evs : list Vote.event) :
  forall (d : db) (st : Vote.state),
    selection_listed st ->
    exists new,
      votes (snd (fst (Vote.interact electionId session evs d st))) = votes d ++ new
      /\ length new <= 1
      /\ Forall cast_here new.
Proof.
  induction evs as [|ev evs IH]; intros d st Hst.
  - exists []. rewrite app_nil_r. repeat split; [simpl; lia | constructor].
  - cbn [Vote.interact].
    assert (Hkeep : forall st1 eff1,
              Vote.handle electionId session ev d st = (st1, d, eff1) ->
              selection_listed st1 ->
              exists new,
                votes (snd (fst (let '(st1, d1, eff1) := Vote.handle electionId session ev d st in
                                 let '(st2, d2, eff2) :=
                                   Vote.interact electionId session evs d1 st1 in
                                 (st2, d2, eff1 ++ eff2))))
                = votes d ++ new /\ length new <= 1 /\ Forall cast_here new).
    { intros st1 eff1 -> Hst1. destruct (IH d st1 Hst1) as (new & Hv & Hl & Hf).
      destruct (Vote.interact electionId session evs d st1) as [[st2 d2] eff2].
      exists new. auto. }
    destruct Hst as [Hc Hsel].
    unfold Vote.handle in *.
    destruct (Vote.enabled st ev) eqn:Hen; cbn [negb] in *;
      [|eapply Hkeep; [reflexivity | split; assumption]].
    destruct ev as [id| |granted|now suffix|].
    + eapply Hkeep; [reflexivity|]. split; [exact Hc|].
      intros c [= <-]. unfold Vote.enabled in Hen.
      apply andb_prop in Hen as [_ Hex]. apply existsb_exists in Hex as (c & Hin & Hid).
      apply String.eqb_eq in Hid. subst id. rewrite Hc in Hin. apply in_map. exact Hin.
    + unfold Vote.handleCastVote in *.
      destruct (Vote.selectedCandidate st) eqn:Hs;
        (eapply Hkeep; [reflexivity|]); split; try assumption;
        cbn [Vote.setShowVerification Vote.selectedCandidate]; rewrite Hs; exact Hsel.
    + unfold Vote.startCamera in *.
      destruct granted; (eapply Hkeep; [reflexivity|]); split; assumption.
    + destruct (verifyAndSubmit_cases electionId session now suffix d st)
        as [[eff Hvs]|(uid & cid & eff & Hs & Hcid & Hvs)].
      * rewrite Hvs in *. eapply Hkeep; [reflexivity|]. split; assumption.
      * rewrite Hvs. rewrite interact_disabled by (apply orb_true_r).
        cbn [fst snd votes with_votes]. eexists [_].
        split; [reflexivity|]. split; [simpl; lia|].
        repeat constructor; cbn; auto.
    + eapply Hkeep; [reflexivity|]. split; assumption.
Qed.
End Visit.

(** X7. A visit of the voting page (the page mounted by [loadElection] for a
    session and an election, then any presses of its controls) adds at most
    one ballot to the store and changes no other ballot; a ballot it adds is
    for the page's election, by the session's voter, verified, and names a
    candidate that was listed for that election when the page loaded; and
    when [loadElection] refused to load the page, the visit adds nothing. *)
Theorem visit_casts_one_listed_ballot :
  forall (electionId : uuid) (session : option uuid) (evs : list Vote.event) (d : db),
    let st0 := fst (Vote.loadElection electionId session d Vote.initial) in
    exists new,
      votes (snd (fst (Vote.interact electionId session evs d st0))) = votes d ++ new
      /\ length new <= 1
      /\ Forall (cast_here electionId session (select_candidates d electionId)) new
      /\ (snd (Vote.loadElection electionId session d Vote.initial) <> [] -> new = []).
Proof.
  intros electionId session evs d st0.
  assert (Hcases : (st0 = Vote.initial
                    /\ snd (Vote.loadElection electionId session d Vote.initial) <> [])
                   \/ (selection_listed (select_candidates d electionId) st0
                       /\ snd (Vote.loadElection electionId session d Vote.initial) = [])).
  { subst st0. unfold Vote.loadElection. destruct session as [uid|];
      [|left; split; [reflexivity | discriminate]].
    destruct (negb _); [left; split; [reflexivity | discriminate]|].
    right. split; [|reflexivity]. split; [reflexivity|]. intros c [=]. }
  destruct Hcases as [[-> Hne]|[Hsel Hnil]].
  - rewrite interact_disabled by reflexivity. exists []. rewrite app_nil_r.
    repeat split; [simpl; lia | constructor].
  - destruct (interact_from_listed electionId session _ evs d st0 Hsel)
      as (new & Hv & Hl & Hf).
    exists new. repeat split; try assumption. intros Hne. contradiction.
Qed.

(** ** Keys and references *)

Lemma existsb_key_In {A : Type} (key : A -> string) (x : string) (l : list A) :
  existsb (fun a => String.eqb (key a) x) l = true <-> In x (map key l).
Proof.
  rewrite existsb_exists, in_map_iff. split; intros (a & H1 & H2).
  - apply String.eqb_eq in H2. eauto.
  - exists a. split; [assumption|]. apply String.eqb_eq. assumption.
Qed.

Lemma existsb_key_not_In {A : Type} (key : A -> string) (x : string) (l : list A) :
  existsb (fun a => String.eqb (key a) x) l = false <-> ~ In x (map key l).
Proof. rewrite <- existsb_key_In. destruct (existsb _ l); split; congruence. Qed.

Lemma mem_In (x : string) (l : list string) : mem x l = true <-> In x l.
Proof.
  unfold mem. rewrite existsb_exists. split.
  - intros (y & Hin & Hy). apply String.eqb_eq in Hy. subst. exact Hin.
  - intros Hin. exists x. split; [exact Hin | apply String.eqb_refl].
Qed.

Lemma distinct_NoDup (l : list string) : distinct l = true <-> List.NoDup l.
Proof.
  unfold distinct. induction l as [|x l IH]; simpl.
  - split; [constructor | reflexivity].
  - rewrite andb_true_iff, negb_true_iff, IH. split.
    + intros [Hx Hl]. constructor; [|exact Hl].
      intros Hin. apply mem_In in Hin. unfold mem in Hin. congruence.
    + intros Hnd. inversion Hnd as [|? ? Hx Hl]; subst. split; [|exact Hl].
      apply not_true_is_false. intros Hm. apply Hx. apply mem_In. exact Hm.
Qed.

Lemma distinct_by_votes_unique (d : db) :
  distinct_by (fun a b => String.eqb (v_election_id a) (v_election_id b)
                          && String.eqb (v_voter_id a) (v_voter_id b)) (votes d) = true
  <-> votes_unique d.
Proof.
  unfold votes_unique. induction (votes d) as [|v vs IH]; simpl.
  - split; [constructor | reflexivity].
  - rewrite andb_true_iff, negb_true_iff, IH.
    assert (Hex : existsb (fun b => String.eqb (v_election_id v) (v_election_id b)
                                    && String.eqb (v_voter_id v) (v_voter_id b)) vs = true
                  <-> In (v_election_id v, v_voter_id v)
                         (map (fun v => (v_election_id v, v_voter_id v)) vs)).
    { rewrite existsb_exists, in_map_iff. split; intros (w & H1 & H2).
      - apply andb_prop in H2 as [HE HV]. apply String.eqb_eq in HE, HV.
        exists w. split; [congruence | assumption].
      - injection H1 as HE HV. exists w. split; [assumption|].
        rewrite HE, HV, !String.eqb_refl. reflexivity. }
    split.
    + intros [Hx Hl]. constructor; [|exact Hl]. rewrite <- Hex. congruence.
    + intros Hnd. inversion Hnd as [|? ? Hx Hl]; subst. split; [|exact Hl].
      apply not_true_is_false. rewrite Hex. exact Hx.
Qed.

Lemma distinct_by_NoDup {A : Type} (eqb : A -> A -> bool) (l : list A) :
  (forall a b, eqb a b = true <-> a = b) ->
  distinct_by eqb l = true <-> List.NoDup l.
Proof.
  intros Heqb. induction l as [|x l IH]; simpl.
  - split; [constructor | reflexivity].
  - rewrite andb_true_iff, negb_true_iff, IH.
    assert (Hex : existsb (eqb x) l = true <-> In x l).
    { rewrite existsb_exists. split.
      - intros (y & Hy & Hxy). apply Heqb in Hxy. subst. exact Hy.
      - intros Hin. exists x. split; [exact Hin | apply Heqb; reflexivity]. }
    split.
    + intros [Hx Hl]. constructor; [|exact Hl]. rewrite <- Hex. congruence.
    + intros Hnd. inversion Hnd as [|? ? Hx Hl]; subst. split; [|exact Hl].
      apply not_true_is_false. rewrite Hex. exact Hx.
Qed.

Lemma distinct_by_roles_unique (d : db) :
  distinct_by (fun a b => String.eqb (fst a) (fst b) && role_eqb (snd a) (snd b))
    (user_roles d) = true
  <-> roles_unique d.
Proof.
  apply distinct_by_NoDup. intros [u r] [u' r']. cbn [fst snd].
  rewrite andb_true_iff, String.eqb_eq. split.
  - intros [-> Hr]. destruct r, r'; simpl in Hr; congruence.
  - intros [= -> ->]. split; [reflexivity | destruct r'; reflexivity].
Qed.

(** [schema_ok] decides [schema_valid]. *)
Lemma schema_ok_valid (d : db) : schema_ok d = true <-> schema_valid d.
Proof.
  unfold schema_ok, schema_valid.
  rewrite !andb_true_iff, !distinct_NoDup, distinct_by_votes_unique,
    distinct_by_roles_unique, !forallb_forall, !List.Forall_forall.
  assert (Hv : (forall v, In v (votes d) ->
                  mem (v_election_id v) (map e_id (elections d))
                  && mem (v_candidate_id v) (map c_id (candidates d))
                  && mem (v_voter_id v) (map p_id (profiles d)) = true)
               <-> (forall v, In v (votes d) ->
                      In (v_election_id v) (map e_id (elections d))
                      /\ In (v_candidate_id v) (map c_id (candidates d))
                      /\ In (v_voter_id v) (map p_id (profiles d)))).
  { split; intros H v Hin; specialize (H v Hin).
    - rewrite !andb_true_iff, !mem_In in H. tauto.
    - rewrite !andb_true_iff, !mem_In. tauto. }
  rewrite Hv.
  assert (Hm : forall (A : Type) (l : list A) (k : A -> string) (ids : list string),
             (forall x, In x l -> mem (k x) ids = true) <-> (forall x, In x l -> In (k x) ids)).
  { intros A l k ids. split; intros H x Hin; apply mem_In, H, Hin. }
  rewrite !Hm. tauto.
Qed.

Lemma NoDup_map_snoc {A : Type} (key : A -> string) (l : list A) (a : A) :
  List.NoDup (map key l) ->
  existsb (fun b => String.eqb (key b) (key a)) l = false ->
  List.NoDup (map key (l ++ [a])).
Proof.
  intros Hnd Hfresh. rewrite map_app. apply List.NoDup_app.
  - exact Hnd.
  - repeat constructor. intros [].
  - intros x Hin [<-|[]]. apply existsb_key_not_In in Hfresh. contradiction.
Qed.

Lemma In_map_snoc {A : Type} (key : A -> string) (l : list A) (a : A) (x : string) :
  In x (map key l) -> In x (map key (l ++ [a])).
Proof. intros Hin. rewrite map_app. apply in_or_app. left. exact Hin. Qed.

Lemma In_map_last {A : Type} (key : A -> string) (l : list A) (a : A) :
  In (key a) (map key (l ++ [a])).
Proof. rewrite map_app. apply in_or_app. right. left. reflexivity. Qed.

Lemma In_map_filter {A : Type} (key : A -> string) (keep : A -> bool) (l : list A)
    (x : string) :
  In x (map key l) ->
  (forall a, In a l -> key a = x -> keep a = true) ->
  In x (map key (List.filter keep l)).
Proof.
  intros Hin Hkeep. apply in_map_iff in Hin as (a & Hk & Ha).
  apply in_map_iff. exists a. split; [exact Hk|]. apply filter_In. auto.
Qed.

Lemma Forall_filter_weaken {A : Type} (P : A -> Prop) (keep : A -> bool) (l : list A) :
  Forall P l -> Forall P (List.filter keep l).
Proof. intros H. eapply incl_Forall; [apply incl_filter | exact H]. Qed.

(** Ballots that survive the deletion of candidates still name a candidate. *)
Lemma surviving_candidate (cands : list candidate_row) (doomed : candidate_row -> bool)
    (x : uuid) :
  In x (map c_id cands) ->
  existsb (String.eqb x) (map c_id (List.filter doomed cands)) = false ->
  In x (map c_id (List.filter (fun c => negb (doomed c)) cands)).
Proof.
  intros Hin Hgone. apply In_map_filter; [exact Hin|].
  intros c Hc Hid. destruct (doomed c) eqn:Hd; [|reflexivity].
  exfalso. assert (Hm : mem x (map c_id (List.filter doomed cands)) = true).
  { apply mem_In, in_map_iff. exists c. split; [exact Hid|]. apply filter_In. auto. }
  unfold mem in Hm. congruence.
Qed.

Lemma delete_candidates_schema_valid (d : db) (doomed : candidate_row -> bool) :
  schema_valid d -> schema_valid (delete_candidates_where d doomed).
Proof.
  intros (H1 & H2 & H3 & H4 & H5 & H6 & H7 & H8 & H9 & H10 & H11 & H12).
  unfold schema_valid, votes_unique, roles_unique, delete_candidates_where in *.
  cbn [profiles user_roles face_data elections candidates votes].
  repeat split; try assumption; try (apply NoDup_map_filter; assumption).
  - apply Forall_filter_weaken. exact H10.
  - apply List.Forall_forall. intros v Hv. apply filter_In in Hv as [Hv Hkeep].
    rewrite List.Forall_forall in H11. destruct (H11 v Hv) as (He & Hc & Hp).
    repeat split; try assumption.
    apply surviving_candidate; [exact Hc|]. apply negb_true_iff. exact Hkeep.
Qed.

Lemma map_key_update {A : Type} (key : A -> string) (upd : A -> A) (l : list A) :
  (forall a, key (upd a) = key a) -> map key (map upd l) = map key l.
Proof. intros H. rewrite map_map. apply map_ext. exact H. Qed.

Lemma Forall_update {A : Type} (P : A -> Prop) (upd : A -> A) (l : list A) :
  (forall a, P a -> P (upd a)) -> Forall P l -> Forall P (map upd l).
Proof.
  intros Hupd Hall. apply List.Forall_forall. intros x Hx.
  apply in_map_iff in Hx as (a & <- & Ha). apply Hupd.
  rewrite List.Forall_forall in Hall. auto.
Qed.

Lemma update_elections_schema_valid (d : db) (upd : election_row -> election_row) :
  (forall e, e_id (upd e) = e_id e) ->
  (forall e, e_created_by (upd e) = e_created_by e) ->
  schema_valid d -> schema_valid (with_elections d (map upd (elections d))).
Proof.
  intros Hid Hby (H1 & H2 & H3 & H4 & H5 & H6 & H7 & H8 & H9 & H10 & H11 & H12).
  unfold schema_valid, votes_unique, roles_unique, with_elections in *.
  cbn [profiles user_roles face_data elections candidates votes].
  rewrite (map_key_update e_id upd _ Hid).
  repeat split; try assumption.
  apply Forall_update; [|exact H9]. intros e He. rewrite Hby. exact He.
Qed.

(** Every request keeps every key and foreign-key constraint. *)
Lemma exec_schema_valid (d : db) (r : request) :
  schema_valid d -> schema_valid (commit d (exec d r)).
Proof.
  intros Hd. pose proof (exec_votes_unique d r (proj1 (proj2 (proj2 (proj2 (proj2 (proj2 Hd))))))) as Hvu.
  pose proof Hd as (H1 & H2 & H3 & H4 & H5 & H6 & H7 & H8 & H9 & H10 & H11 & H12).
  destruct r; cbn [exec] in *.
  - (* sign-up *)
    unfold handle_new_user in *. destruct (existsb _ (profiles d)) eqn:Hfresh; [exact Hd|].
    unfold schema_valid, votes_unique, roles_unique in *. cbn [commit profiles user_roles face_data elections
      candidates votes].
    repeat split; try assumption.
    + apply NoDup_map_snoc; assumption.
    + eapply List.Forall_impl; [|exact H7]. intros f. apply In_map_snoc.
    + apply Forall_app. split.
      * eapply List.Forall_impl; [|exact H8]. intros ur. apply In_map_snoc.
      * repeat constructor. cbn [fst]. rewrite map_app. apply in_or_app. right. left.
        reflexivity.
    + eapply List.Forall_impl; [|exact H9]. intros e. apply In_map_snoc.
    + eapply List.Forall_impl; [|exact H11]. intros v (He & Hc & Hp).
      repeat split; try assumption. apply In_map_snoc. exact Hp.
    + apply List.NoDup_app; [exact H12 | repeat constructor; intros [] |].
      intros ur Hin [<-|[]]. apply existsb_key_not_In in Hfresh. apply Hfresh.
      rewrite List.Forall_forall in H8. exact (H8 _ Hin).
  - (* face data *)
    unfold insert_face_data in *.
    destruct (negb _); [exact Hd|].
    destruct (existsb _ (face_data d)) eqn:Hfresh; [exact Hd|].
    destruct (existsb _ (profiles d)) eqn:Hfk; cbn [negb]; [|exact Hd].
    unfold schema_valid, votes_unique, roles_unique in *. cbn [commit profiles user_roles face_data elections
      candidates votes].
    repeat split; try assumption.
    + apply NoDup_map_snoc; assumption.
    + apply Forall_app. split; [exact H7|]. repeat constructor.
      apply existsb_key_In in Hfk. exact Hfk.
  - (* profile update *)
    unfold update_profile_face. cbn [commit].
    unfold schema_valid, votes_unique, roles_unique, with_profiles in *.
    cbn [profiles user_roles face_data elections candidates votes].
    rewrite (map_key_update p_id).
    + repeat split; assumption.
    + intros q. destruct (_ && _); reflexivity.
  - (* new election *)
    unfold insert_election in *.
    destruct (negb _); [exact Hd|].
    destruct (existsb _ (elections d)) eqn:Hfresh; [exact Hd|].
    destruct (existsb _ (profiles d)) eqn:Hfk; cbn [negb]; [|exact Hd].
    unfold schema_valid, votes_unique, roles_unique in *. cbn [commit with_elections profiles user_roles
      face_data elections candidates votes].
    repeat split; try assumption.
    + apply NoDup_map_snoc; assumption.
    + apply Forall_app. split; [exact H9|]. repeat constructor.
      apply existsb_key_In in Hfk. exact Hfk.
    + eapply List.Forall_impl; [|exact H10]. intros c. apply In_map_snoc.
    + eapply List.Forall_impl; [|exact H11]. intros v (He & Hc & Hp).
      repeat split; try assumption. apply In_map_snoc. exact He.
  - (* status *)
    unfold update_election_status. cbn [commit].
    apply update_elections_schema_valid; [| |exact Hd];
      intros e; destruct (_ && _); reflexivity.
  - (* publication *)
    unfold publish_results. cbn [commit].
    apply update_elections_schema_valid; [| |exact Hd];
      intros e; destruct (_ && _); reflexivity.
  - (* election deleted *)
    unfold delete_election in *. destruct (_ && _); [|exact Hd]. cbn [commit] in *.
    pose proof (delete_candidates_schema_valid d
                  (fun c => String.eqb (c_election_id c) id) Hd)
      as (G1 & G2 & G3 & G4 & G5 & G6 & G7 & G8 & G9 & G10 & G11 & G12).
    unfold schema_valid, roles_unique in *. cbn [profiles user_roles face_data elections candidates votes].
    repeat split; try assumption; try (apply NoDup_map_filter; assumption).
    + apply Forall_filter_weaken. exact G9.
    + apply List.Forall_forall. intros c Hc.
      rewrite List.Forall_forall in G10. specialize (G10 c Hc).
      cbn [delete_candidates_where elections candidates] in *.
      apply filter_In in Hc as [_ Hne].
      apply In_map_filter; [exact G10|]. intros e _ He. rewrite He. exact Hne.
    + apply List.Forall_forall. intros v Hv. apply filter_In in Hv as [Hv Hne].
      rewrite List.Forall_forall in G11. destruct (G11 v Hv) as (He & Hc & Hp).
      repeat split; try assumption.
      apply In_map_filter; [exact He|]. intros e _ Hid. rewrite Hid. exact Hne.
  - (* new candidate *)
    unfold insert_candidate in *.
    destruct (negb _); [exact Hd|].
    destruct (existsb _ (candidates d)) eqn:Hfresh; [exact Hd|].
    destruct (existsb _ (elections d)) eqn:Hfk; cbn [negb]; [|exact Hd].
    unfold schema_valid, votes_unique, roles_unique in *. cbn [commit with_candidates profiles user_roles
      face_data elections candidates votes].
    repeat split; try assumption.
    + apply NoDup_map_snoc; assumption.
    + apply Forall_app. split; [exact H10|]. repeat constructor.
      apply existsb_key_In in Hfk. exact Hfk.
    + eapply List.Forall_impl; [|exact H11]. intros v (He & Hc & Hp).
      repeat split; try assumption. apply In_map_snoc. exact Hc.
  - (* candidate deleted *)
    apply delete_candidates_schema_valid. exact Hd.
  - (* ballot *)
    unfold insert_vote in *.
    destruct (negb _); [exact Hd|].
    destruct (candidate_id p) as [cid|]; [|exact Hd].
    destruct (existsb (fun v => String.eqb (v_vote_receipt v) (vote_receipt p)) (votes d))
      eqn:Hreceipt; [exact Hd|].
    destruct (existsb (fun v => String.eqb (v_election_id v) (election_id p)
                                && String.eqb (v_voter_id v) (voter_id p)) (votes d))
      eqn:Hdup; [exact Hd|].
    destruct (existsb _ (elections d)) eqn:Hfe; cbn [negb] in *; [|exact Hd].
    destruct (existsb _ (candidates d)) eqn:Hfc; cbn [negb] in *; [|exact Hd].
    destruct (existsb _ (profiles d)) eqn:Hfp; cbn [negb] in *; [|exact Hd].
    unfold schema_valid, roles_unique in *. cbn [commit with_votes profiles user_roles
      face_data elections candidates votes] in *.
    repeat split; try assumption.
    + apply NoDup_map_snoc; assumption.
    + apply Forall_app. split; [exact H11|]. repeat constructor;
        cbn [v_election_id v_candidate_id v_voter_id].
      * apply existsb_key_In in Hfe. exact Hfe.
      * apply existsb_key_In in Hfc. exact Hfc.
      * apply existsb_key_In in Hfp. exact Hfp.
Qed.

Lemma perform_schema_valid (d : db) (a : action) :
  schema_valid d -> schema_valid (perform d a).
Proof.
  intros Hd. destruct a as [r|electionId session now suffix st]; simpl.
  - apply exec_schema_valid, Hd.
  - destruct (verifyAndSubmit_store electionId session now suffix d st)
      as [->|(uid & _ & Hins)]; [exact Hd|].
    match type of Hins with insert_vote _ _ ?p = _ =>
      pose proof (exec_schema_valid d (rq_insert_vote (Some uid) p) Hd) as Hd'
    end.
    simpl in Hd'. rewrite Hins in Hd'. exact Hd'.
Qed.

(** X8. Referential integrity is an invariant of the application: from a
    store that satisfies the primary keys of profiles, elections and
    candidates, the UNIQUE constraints (face_data.user_id; vote_receipt;
    election_id with voter_id; user_id with role) and the foreign keys of
    face_data, user_roles, elections, candidates and votes, every history of
    requests and voting-page submissions, accepted or rejected, leads to a
    store that satisfies them; in particular the cascades of the two
    deletions leave no candidate without its election and no ballot without
    its election, candidate and voter, and signing up adds no second
    (user, role) pair. *)
Theorem schema_kept_by_every_history :
  forall (d : db) (acts : list action),
    schema_ok d = true -> schema_ok (history d acts) = true.
Proof.
  intros d acts Hd. apply schema_ok_valid. apply schema_ok_valid in Hd.
  revert d Hd. induction acts as [|a acts IH]; intros d Hd; [exact Hd|].
  change (history d (a :: acts)) with (history (perform d a) acts).
  apply IH, perform_schema_valid, Hd.
Qed.

Lemma schema_kept_by_every_history_witness :
  schema_ok demo_store = true
  /\ schema_ok (history demo_store
                  [act_request (rq_delete_candidate (Some "adm") "a");
                   act_request (rq_delete_election (Some "adm") "E");
                   act_request (rq_sign_up "zoe")]) = true.
Proof.
  assert (Hd : schema_ok demo_store = true) by reflexivity.
  split; [exact Hd|].
  exact (schema_kept_by_every_history demo_store _ Hd).
Defined.

(** ** Ballots are only ever appended *)

Lemma perform_appends (d : db) (a : action) :
  deletes a = false ->
  exists new, votes (perform d a) = votes d ++ new.
Proof.
  intros Hnd.
  assert (Hsame : forall d', votes d' = votes d -> exists new, votes d' = votes d ++ new).
  { intros d' ->. exists []. rewrite app_nil_r. reflexivity. }
  destruct a as [r|electionId session now suffix st]; cbn [perform].
  - destruct r; cbn [exec] in *; try discriminate; try (apply Hsame; reflexivity).
    + unfold handle_new_user. destruct (existsb _ _); apply Hsame; reflexivity.
    + unfold insert_face_data.
      destruct (negb _); [apply Hsame; reflexivity|].
      destruct (existsb _ _); [apply Hsame; reflexivity|].
      destruct (negb _); apply Hsame; reflexivity.
    + unfold insert_election.
      destruct (negb _); [apply Hsame; reflexivity|].
      destruct (existsb _ _); [apply Hsame; reflexivity|].
      destruct (negb _); apply Hsame; reflexivity.
    + unfold insert_candidate.
      destruct (negb _); [apply Hsame; reflexivity|].
      destruct (existsb _ _); [apply Hsame; reflexivity|].
      destruct (negb _); apply Hsame; reflexivity.
    + destruct (insert_vote d uid p) as [d'|error] eqn:Hins; [|apply Hsame; reflexivity].
      apply insert_vote_accepts in Hins as (cid & _ & _ & _ & ->). eexists. reflexivity.
  - destruct (verifyAndSubmit_votes electionId session now suffix d st) as (new & Hv & _).
    exists new. exact Hv.
Qed.

(** X9. Ballots are immutable and append-only: through any history without
    the two deleting requests, the ballots the store held stay where they
    were, unchanged and in the same order, and new ballots come after them.
    (No request updates a ballot; only the cascades of deleting a candidate
    or an election remove ballots.) *)
Theorem ballots_append_only :
  forall (d : db) (acts : list action),
    existsb deletes acts = false ->
    exists new, votes (history d acts) = votes d ++ new.
Proof.
  intros d acts. revert d. induction acts as [|a acts IH]; intros d Hnd.
  - exists []. rewrite app_nil_r. reflexivity.
  - cbn [existsb] in Hnd. apply orb_false_elim in Hnd as [Ha Hacts].
    change (history d (a :: acts)) with (history (perform d a) acts).
    destruct (IH (perform d a) Hacts) as (new2 & ->).
    destruct (perform_appends d a Ha) as (new1 & ->).
    exists (new1 ++ new2). rewrite app_assoc. reflexivity.
Qed.

Lemma ballots_append_only_witness :
  existsb deletes
    [act_request (rq_update_election_status (Some "adm") "G" paused);
     act_submit "G" (Some "v1") "1700000000000" "k3x9q2a7b"
       (ready_to_submit "G" (Some "v1") "g" stray_start);
     act_request (rq_publish_results (Some "adm") "E")] = false
  /\ exists new,
       votes (history demo_store
                [act_request (rq_update_election_status (Some "adm") "G" paused);
                 act_submit "G" (Some "v1") "1700000000000" "k3x9q2a7b"
                   (ready_to_submit "G" (Some "v1") "g" stray_start);
                 act_request (rq_publish_results (Some "adm") "E")])
       = votes demo_store ++ new.
Proof.
  assert (Hnd : existsb deletes
    [act_request (rq_update_election_status (Some "adm") "G" paused);
     act_submit "G" (Some "v1") "1700000000000" "k3x9q2a7b"
       (ready_to_submit "G" (Some "v1") "g" stray_start);
     act_request (rq_publish_results (Some "adm") "E")] = false) by reflexivity.
  split; [exact Hnd|].
  exact (ballots_append_only demo_store _ Hnd).
Defined.

(** ** Reading a row by its key *)

Lemma filter_none_in {A : Type} (f : A -> bool) (l : list A) :
  (forall x, In x l -> f x = false) -> List.filter f l = [].
Proof.
  induction l as [|x l IH]; intros Hf; [reflexivity|]. cbn [List.filter].
  rewrite (Hf x (or_introl eq_refl)). apply IH. intros y Hy. apply Hf. right. exact Hy.
Qed.

Lemma filter_by_key {A : Type} (key : A -> string) (f : A -> bool) (l : list A) (a : A) :
  List.NoDup (map key l) ->
  In a l ->
  f a = true ->
  List.filter (fun x => f x && String.eqb (key x) (key a)) l = [a].
Proof.
  induction l as [|x l IH]; intros Hnd Hin Hf; [destruct Hin|].
  cbn [map] in Hnd. inversion Hnd as [|? ? Hx Hl]; subst.
  cbn [List.filter]. destruct Hin as [->|Hin].
  - rewrite Hf, String.eqb_refl. cbn [andb]. f_equal.
    apply filter_none_in. intros y Hy.
    destruct (String.eqb_spec (key y) (key a)) as [Heq|_]; [|apply andb_false_r].
    exfalso. apply Hx. rewrite <- Heq. apply in_map. exact Hy.
  - destruct (String.eqb_spec (key x) (key a)) as [Heq|_].
    + exfalso. apply Hx. rewrite Heq. apply in_map. exact Hin.
    + rewrite andb_false_r. apply IH; assumption.
Qed.

(** With unique election ids, a caller reads by id exactly the election rows
    its policy shows. *)
Lemma select_election_visible (d : db) (uid : option uuid) (e : election_row) :
  election_ids_unique d ->
  In e (elections d) ->
  elections_select_policy d uid e = true ->
  select_election d uid (e_id e) = Some e.
Proof.
  intros Hu Hin Hvis. unfold select_election.
  rewrite (filter_by_key e_id (elections_select_policy d uid) _ e Hu Hin Hvis). reflexivity.
Qed.

(** ** From the dashboard to the pages it links to *)

(** X10. On one store with unique election ids, the dashboard of a voter is
    shown only after the face-registration check, lists only active and
    ended elections, and both of its buttons lead to pages that load: for a
    listed election with status active ("Cast Vote") [loadElection] loads
    the voting page with that election and its candidates, and for a listed
    election with results published ("View Results") [loadResults] stores
    its tally. *)
Theorem dashboard_links_load :
  forall (num : Type) (N : Number num) (d : db) (uid : uuid) (e : election_row),
    election_ids_unique d ->
    In e (Dashboard.elections (fst (Dashboard.initDashboard (Some uid) d Dashboard.initial))) ->
    (exists q, select_profile d (Some uid) uid = Some q /\ p_face_registered q = Some true)
    /\ (e_status e = active \/ e_status e = ended)
    /\ (e_status e = active ->
        snd (Vote.loadElection (e_id e) (Some uid) d Vote.initial) = []
        /\ Vote.election (fst (Vote.loadElection (e_id e) (Some uid) d Vote.initial)) = Some e
        /\ Vote.candidates (fst (Vote.loadElection (e_id e) (Some uid) d Vote.initial))
           = select_candidates d (e_id e)
        /\ Vote.loading (fst (Vote.loadElection (e_id e) (Some uid) d Vote.initial)) = false)
    /\ (e_results_published e = Some true ->
        Results.loadResults (num:=num) (e_id e) (Some uid) d Results.initial
        = ({| Results.election := Some e;
              Results.results :=
                Results.resultsWithVotes (select_candidates d (e_id e))
                                         (select_votes d (Some uid) (e_id e));
              Results.totalVotes := length (select_votes d (Some uid) (e_id e));
              Results.loading := false |}, [])).
Proof.
  intros num N d uid e Hu Hin.
  unfold Dashboard.initDashboard in Hin.
  destruct (Dashboard.face_registered_missing (select_profile d (Some uid) uid)) eqn:Hreg;
    cbn [fst Dashboard.elections Dashboard.initial] in Hin; [destruct Hin|].
  unfold select_open_elections in Hin. apply filter_In in Hin as [Hin Hb].
  apply andb_prop in Hb as [Hvis Hst].
  pose proof (select_election_visible d (Some uid) e Hu Hin Hvis) as Hsel.
  split; [|split; [|split]].
  - unfold Dashboard.face_registered_missing in Hreg.
    destruct (select_profile d (Some uid) uid) as [q|]; [|discriminate].
    exists q. split; [reflexivity|].
    destruct (p_face_registered q) as [[|]|]; simpl in Hreg; congruence.
  - destruct (e_status e); simpl in Hst; try discriminate; auto.
  - intros Hact. unfold Vote.loadElection. rewrite Hsel.
    unfold Vote.available_for_voting. rewrite Hact. cbn. auto.
  - intros Hp. apply loadResults_published; assumption.
Qed.

Lemma dashboard_links_load_witness :
  (election_ids_unique demo_store
   /\ In election_E
        (Dashboard.elections
           (fst (Dashboard.initDashboard (Some "v1") demo_store Dashboard.initial))))
  /\ (e_status election_E = active \/ e_status election_E = ended).
Proof.
  assert (Hu : election_ids_unique demo_store).
  { unfold election_ids_unique. simpl.
    repeat (constructor; [simpl; intuition discriminate|]). constructor. }
  assert (Hin : In election_E
            (Dashboard.elections
               (fst (Dashboard.initDashboard (Some "v1") demo_store Dashboard.initial))))
    by (left; reflexivity).
  split; [split; assumption|].
  exact (proj1 (proj2 (dashboard_links_load binary64 _ demo_store "v1" election_E Hu Hin))).
Defined.

(** ** Deleting an election *)

Lemma has_role_same_roles (d d' : db) (uid : option uuid) (r : app_role) :
  user_roles d' = user_roles d -> has_role d' uid r = has_role d uid r.
Proof. intros Hr. unfold has_role. rewrite Hr. reflexivity. Qed.

(** X11. When an administrator confirms the deletion of an election the
    store holds, [deleteElection] removes that election together with all of
    its candidates and every ballot cast in it or for one of its candidates,
    keeps every other election and the candidates of other elections as they
    were, and reloads the list; when the prompt is declined nothing
    changes. *)
Theorem delete_election_cascades :
  forall (d : db) (uid : option uuid) (id : uuid) (st : ElectionsManagement.state),
    has_role d uid role_admin = true ->
    In id (map e_id (elections d)) ->
    let d' := snd (fst (ElectionsManagement.deleteElection true uid id d st)) in
    elections d' = List.filter (fun e => negb (String.eqb (e_id e) id)) (elections d)
    /\ candidates d'
       = List.filter (fun c => negb (String.eqb (c_election_id c) id)) (candidates d)
    /\ select_candidates d' id = []
    /\ Forall (fun v => v_election_id v <> id
                        /\ ~ In (v_candidate_id v) (map c_id (select_candidates d id)))
              (votes d')
    /\ incl (votes d') (votes d)
    /\ ElectionsManagement.elections
         (fst (fst (ElectionsManagement.deleteElection true uid id d st)))
       = elections d'
    /\ ElectionsManagement.deleteElection false uid id d st = (st, d, []).
Proof.
  intros d uid id st Ha Hin d'. subst d'.
  unfold ElectionsManagement.deleteElection, delete_election, admin_policy.
  rewrite Ha. apply existsb_key_In in Hin. rewrite Hin.
  cbn [negb andb fst snd elections candidates votes delete_candidates_where
       ElectionsManagement.loadElections ElectionsManagement.elections
       profiles user_roles face_data].
  split; [reflexivity|]. split; [reflexivity|]. split; [|split; [|split; [|split]]].
  - unfold select_candidates. cbn [candidates]. apply filter_none_in.
    intros c Hc. apply filter_In in Hc as [_ Hne]. apply negb_true_iff. exact Hne.
  - apply List.Forall_forall. intros v Hv.
    apply filter_In in Hv as [Hv Hne]. apply filter_In in Hv as [_ Hgone]. split.
    + apply negb_true_iff, String.eqb_neq in Hne. exact Hne.
    + intros Hc. apply negb_true_iff in Hgone.
      assert (Hm : mem (v_candidate_id v) (map c_id (select_candidates d id)) = true)
        by (apply mem_In; exact Hc).
      unfold mem, select_candidates in Hm. congruence.
  - eapply incl_tran; apply incl_filter.
  - unfold select_all_elections. cbn [elections]. apply filter_all.
    intros e. unfold elections_select_policy.
    rewrite (has_role_same_roles d) by reflexivity. rewrite Ha. apply orb_true_r.
  - reflexivity.
Qed.

Lemma delete_election_cascades_witness :
  (has_role demo_store (Some "adm") role_admin = true
   /\ In "E" (map e_id (elections demo_store)))
  /\ select_candidates
       (snd (fst (ElectionsManagement.deleteElection true (Some "adm") "E" demo_store
                    ElectionsManagement.initial))) "E" = [].
Proof.
  assert (Ha : has_role demo_store (Some "adm") role_admin = true) by reflexivity.
  assert (Hin : In "E" (map e_id (elections demo_store))) by (left; reflexivity).
  split; [split; assumption|].
  exact (proj1 (proj2 (proj2 (delete_election_cascades demo_store (Some "adm") "E"
                                ElectionsManagement.initial Ha Hin)))).
Defined.

(** ** Face registration *)

(** X12. For a signed-in user whose profile exists and who has no face data
    yet, [registerFace] stores the face data, sets the profile flag and
    reports success; on the resulting store the dashboard loads for that
    user instead of sending them to registration, and the registration page
    sends them to the dashboard; elections, candidates and ballots are
    untouched.  A second [registerFace] then changes nothing and reports
    nothing (the UNIQUE violation is an error object the [catch] block does
    not show). *)
Theorem register_face_round_trip :
  forall (d : db) (uid : uuid) (st : FaceRegistration.state),
    profile_ids_unique d ->
    In uid (map p_id (profiles d)) ->
    ~ In uid (map fd_user_id (face_data d)) ->
    let r := FaceRegistration.registerFace (Some uid) d st in
    let d' := snd (fst r) in
    In (toast_success "Face registered successfully!") (snd r)
    /\ In uid (map fd_user_id (face_data d'))
    /\ select_profile d' (Some uid) uid
       = Some {| p_id := uid; p_face_registered := Some true;
                 p_avatar_url :=
                   Some (String.substring 0 500 (FaceRegistration.imageData st)) |}
    /\ snd (Dashboard.initDashboard (Some uid) d' Dashboard.initial) = []
    /\ FaceRegistration.checkAuth (Some uid) d' = [navigate "/dashboard"]
    /\ (elections d' = elections d /\ candidates d' = candidates d /\ votes d' = votes d)
    /\ FaceRegistration.registerFace (Some uid) d' st
       = (FaceRegistration.setLoading false (FaceRegistration.setLoading true st), d', []).
Proof.
  intros d uid st Hu Hprof Hface r d'.
  set (enc := String.substring 0 500 (FaceRegistration.imageData st)).
  set (row := {| p_id := uid; p_face_registered := Some true; p_avatar_url := Some enc |}).
  set (upd := fun q : profile_row =>
                if uid_is (Some uid) (p_id q) && String.eqb (p_id q) uid
                then {| p_id := p_id q; p_face_registered := Some true;
                        p_avatar_url := Some enc |}
                else q).
  set (d1 := {| profiles := map upd (profiles d); user_roles := user_roles d;
                face_data := face_data d ++ [{| fd_user_id := uid; fd_face_encoding := enc |}];
                elections := elections d; candidates := candidates d; votes := votes d |}).
  assert (Hr : r = (FaceRegistration.setLoading false (FaceRegistration.setLoading true st),
                    d1,
                    [toast_success "Face registered successfully!"]
                    ++ (match FaceRegistration.stream st with
                        | Some _ => [stop_tracks] | None => [] end)
                    ++ [navigate_after 1500 "/dashboard"])).
  { subst r. unfold FaceRegistration.registerFace, FaceRegistration.try_register,
      insert_face_data.
    cbn [FaceRegistration.setLoading FaceRegistration.imageData FaceRegistration.stream
         uid_is].
    rewrite String.eqb_refl. cbn [negb].
    rewrite (proj2 (existsb_key_not_In fd_user_id uid (face_data d)) Hface).
    rewrite (proj2 (existsb_key_In p_id uid (profiles d)) Hprof). cbn [negb].
    reflexivity. }
  assert (Hd' : d' = d1) by (subst d'; rewrite Hr; reflexivity).
  assert (Hsel : select_profile d1 (Some uid) uid = Some row).
  { unfold select_profile.
    change uid with (p_id row) at 2.
    rewrite (filter_by_key p_id (profiles_select_policy d1 (Some uid)) (profiles d1) row);
      [reflexivity | | |].
    - cbn [profiles d1]. rewrite map_key_update; [exact Hu|].
      intros q. unfold upd. destruct (_ && _); reflexivity.
    - cbn [profiles d1]. apply in_map_iff in Hprof as (q & Hq & Hin).
      apply in_map_iff. exists q. split; [|exact Hin].
      unfold upd. cbn [uid_is]. rewrite Hq, !String.eqb_refl. reflexivity.
    - unfold profiles_select_policy. cbn [uid_is p_id row].
      rewrite String.eqb_refl. reflexivity. }
  rewrite Hd'. split; [rewrite Hr; left; reflexivity|].
  split; [cbn [face_data d1]; rewrite map_app; apply in_or_app; right; left; reflexivity|].
  split; [exact Hsel|].
  split; [unfold Dashboard.initDashboard; rewrite Hsel; reflexivity|].
  split; [unfold FaceRegistration.checkAuth; rewrite Hsel; reflexivity|].
  split; [repeat split|].
  unfold FaceRegistration.registerFace, FaceRegistration.try_register, insert_face_data.
  cbn [FaceRegistration.setLoading FaceRegistration.imageData uid_is].
  rewrite String.eqb_refl. cbn [negb].
  assert (Hnow : existsb (fun f => String.eqb (fd_user_id f) uid) (face_data d1) = true).
  { apply existsb_key_In. cbn [face_data d1]. rewrite map_app. apply in_or_app.
    right. left. reflexivity. }
  rewrite Hnow. reflexivity.
Qed.

Lemma register_face_round_trip_witness :
  (profile_ids_unique stray_start
   /\ In "bob" (map p_id (profiles stray_start))
   /\ ~ In "bob" (map fd_user_id (face_data stray_start)))
  /\ snd (Dashboard.initDashboard (Some "bob")
            (snd (fst (FaceRegistration.registerFace (Some "bob") stray_start
                         {| FaceRegistration.stream := Some Vote.user_camera;
                            FaceRegistration.captured := true;
                            FaceRegistration.loading := false;
                            FaceRegistration.imageData := "data:image/jpeg;base64,AAAA" |})))
            Dashboard.initial) = [].
Proof.
  assert (Hu : profile_ids_unique stray_start).
  { unfold profile_ids_unique. simpl.
    repeat (constructor; [simpl; intuition discriminate|]). constructor. }
  assert (Hp : In "bob" (map p_id (profiles stray_start))) by (simpl; tauto).
  assert (Hf : ~ In "bob" (map fd_user_id (face_data stray_start))) by (intros []).
  split; [repeat split; assumption|].
  exact (proj1 (proj2 (proj2 (proj2 (register_face_round_trip stray_start "bob" _ Hu Hp Hf))))).
Defined.

(** ** The lifecycle of an election on the elections page *)

Lemma key_injective {A : Type} (key : A -> string) (l : list A) (a b : A) :
  List.NoDup (map key l) -> In a l -> In b l -> key a = key b -> a = b.
Proof.
  induction l as [|x l IH]; intros Hnd Ha Hb Hk; [destruct Ha|].
  cbn [map] in Hnd. inversion Hnd as [|? ? Hx Hl]; subst.
  destruct Ha as [->|Ha], Hb as [->|Hb].
  - reflexivity.
  - exfalso. apply Hx. rewrite Hk. apply in_map. exact Hb.
  - exfalso. apply Hx. rewrite <- Hk. apply in_map. exact Ha.
  - apply IH; assumption.
Qed.

Lemma find_by_id_Some (l : list election_row) (id : uuid) (e : election_row) :
  find (fun x => String.eqb (e_id x) id) l = Some e -> In e l /\ e_id e = id.
Proof.
  intros Hf. apply find_some in Hf as [Hin Hid]. apply String.eqb_eq in Hid. auto.
Qed.

Lemma find_by_id_unique (l : list election_row) (e : election_row) :
  List.NoDup (map e_id l) -> In e l ->
  find (fun x => String.eqb (e_id x) (e_id e)) l = Some e.
Proof.
  intros Hnd Hin.
  destruct (find (fun x => String.eqb (e_id x) (e_id e)) l) as [e'|] eqn:Hf.
  - apply find_by_id_Some in Hf as [Hin' Hid]. f_equal.
    eapply key_injective; eassumption.
  - exfalso. pose proof (find_none _ _ Hf e Hin) as Hne. cbn in Hne.
    rewrite String.eqb_refl in Hne. discriminate.
Qed.

Lemma find_by_id_update (upd : election_row -> election_row) (l : list election_row)
    (id : uuid) :
  (forall e, e_id (upd e) = e_id e) ->
  find (fun x => String.eqb (e_id x) id) (map upd l)
  = option_map upd (find (fun x => String.eqb (e_id x) id) l).
Proof.
  intros Hid. induction l as [|x l IH]; [reflexivity|].
  cbn [map find]. rewrite Hid. destruct (String.eqb (e_id x) id); [reflexivity | exact IH].
Qed.

Lemma find_by_id_snoc (l : list election_row) (id : uuid) (e new : election_row) :
  find (fun x => String.eqb (e_id x) id) l = Some e ->
  find (fun x => String.eqb (e_id x) id) (l ++ [new]) = Some e.
Proof.
  induction l as [|x l IH]; [discriminate|]. cbn [app find].
  destruct (String.eqb (e_id x) id); [auto | exact IH].
Qed.

Lemma lifecycle_step_same (d d' : db) :
  election_ids_unique d -> elections d' = elections d -> lifecycle_step d d'.
Proof.
  intros Hu He. unfold lifecycle_step, election_ids_unique, status_of,
    published_only_when_ended. rewrite He.
  split; [exact Hu|]. split; [|split].
  - intros id s s' Hs Hs'. left. congruence.
  - auto.
  - intros e Hin Hnew. exfalso. apply Hnew. apply in_map. exact Hin.
Qed.

Lemma lifecycle_step_insert (d d' : db) (new : election_row) :
  election_ids_unique d ->
  existsb (fun e => String.eqb (e_id e) (e_id new)) (elections d) = false ->
  e_status new = scheduled ->
  e_results_published new = Some false ->
  elections d' = elections d ++ [new] ->
  lifecycle_step d d'.
Proof.
  intros Hu Hfresh Hst Hpub He.
  unfold lifecycle_step, election_ids_unique, status_of, published_only_when_ended.
  rewrite He. split; [apply NoDup_map_snoc; assumption|]. split; [|split].
  - intros id s s' Hs Hs'. left.
    destruct (find _ (elections d)) as [e|] eqn:Hf; [|discriminate].
    rewrite (find_by_id_snoc _ _ _ new Hf) in Hs'. congruence.
  - intros Hinv. apply Forall_app. split; [exact Hinv|].
    repeat constructor. rewrite Hpub. discriminate.
  - intros e Hin Hnew. apply in_app_or in Hin as [Hin|[<-|[]]]; [|auto].
    exfalso. apply Hnew. apply in_map. exact Hin.
Qed.

Lemma lifecycle_step_update (d : db) (upd : election_row -> election_row) :
  election_ids_unique d ->
  (forall e, e_id (upd e) = e_id e) ->
  (forall e, In e (elections d) ->
             e_status (upd e) = e_status e
             \/ lifecycle_edge (e_status e) (e_status (upd e)) = true) ->
  (forall e, In e (elections d) ->
             (truthy (e_results_published e) = true -> e_status e = ended) ->
             truthy (e_results_published (upd e)) = true -> e_status (upd e) = ended) ->
  lifecycle_step d (with_elections d (map upd (elections d))).
Proof.
  intros Hu Hid Hedge Hpub.
  unfold lifecycle_step, election_ids_unique, status_of, published_only_when_ended.
  cbn [with_elections elections]. rewrite (map_key_update e_id upd _ Hid).
  split; [exact Hu|]. split; [|split].
  - intros id s s' Hs Hs'. rewrite (find_by_id_update upd _ _ Hid) in Hs'.
    destruct (find _ (elections d)) as [e|] eqn:Hf; [|discriminate].
    cbn in Hs, Hs'. injection Hs as <-. injection Hs' as <-.
    apply find_by_id_Some in Hf as [Hin _].
    destruct (Hedge e Hin) as [->|He]; auto.
  - intros Hinv. apply List.Forall_forall. intros x Hx.
    apply in_map_iff in Hx as (e & <- & Hin).
    rewrite List.Forall_forall in Hinv. exact (Hpub e Hin (Hinv e Hin)).
  - intros x Hx Hnew. exfalso. apply Hnew.
    apply in_map_iff in Hx as (e & <- & Hin). rewrite Hid. apply in_map. exact Hin.
Qed.

Lemma lifecycle_step_filter (d d' : db) (keep : election_row -> bool) :
  election_ids_unique d ->
  elections d' = List.filter keep (elections d) ->
  lifecycle_step d d'.
Proof.
  intros Hu He.
  unfold lifecycle_step, election_ids_unique, status_of, published_only_when_ended.
  rewrite He. split; [apply NoDup_map_filter; exact Hu|]. split; [|split].
  - intros id s s' Hs Hs'. left.
    destruct (find _ (List.filter keep (elections d))) as [e'|] eqn:Hf'; [|discriminate].
    apply find_by_id_Some in Hf' as [Hin' Hid']. apply filter_In in Hin' as [Hin' _].
    subst id. rewrite (find_by_id_unique _ e' Hu Hin') in Hs. cbn in Hs, Hs'. congruence.
  - apply Forall_filter_weaken.
  - intros e Hin Hnew. exfalso. apply Hnew. apply in_map.
    apply filter_In in Hin as [Hin _]. exact Hin.
Qed.

Lemma lists_row (d : db) (st : ElectionsManagement.state) (id : uuid)
    (shows : election_row -> bool) :
  shows_store d st ->
  ElectionsManagement.lists st id shows = true ->
  exists e, In e (elections d) /\ e_id e = id /\ shows e = true.
Proof.
  intros [Hel _] Hl. unfold ElectionsManagement.lists in Hl. rewrite Hel in Hl.
  apply existsb_exists in Hl as (e & Hin & Hb). apply andb_prop in Hb as [Hid Hs].
  apply String.eqb_eq in Hid. eauto.
Qed.

Lemma admin_sees_all_elections (d : db) (uid : option uuid) :
  has_role d uid role_admin = true -> select_all_elections d uid = elections d.
Proof.
  intros Ha. unfold select_all_elections. apply filter_all. intros e.
  unfold elections_select_policy. rewrite Ha. apply orb_true_r.
Qed.

Lemma loadElections_shows (d d' : db) (uid : option uuid) (st : ElectionsManagement.state) :
  has_role d uid role_admin = true ->
  user_roles d' = user_roles d ->
  shows_store d' (ElectionsManagement.loadElections uid d' st).
Proof.
  intros Ha Hr. split; [|reflexivity]. cbn [ElectionsManagement.loadElections
    ElectionsManagement.elections]. apply admin_sees_all_elections.
  rewrite (has_role_same_roles d d') by exact Hr. exact Ha.
Qed.

Lemma insert_election_accepts (d d' : db) (uid : option uuid) (new_id created_by : uuid) :
  insert_election d uid new_id created_by = pg_ok d' ->
  existsb (fun e => String.eqb (e_id e) new_id) (elections d) = false
  /\ d' = with_elections d (elections d ++
            [{| e_id := new_id; e_status := scheduled;
                e_results_published := Some false; e_created_by := created_by |}]).
Proof.
  unfold insert_election. destruct (negb _); [discriminate|].
  destruct (existsb _ (elections d)); [discriminate|].
  destruct (negb _); [discriminate|]. intros [= <-]. auto.
Qed.

(** A press of a status button, seen from the store: the listed election
    goes from [from] to [to] along a lifecycle edge. *)
Lemma status_button_step (d : db) (uid : uuid) (st : ElectionsManagement.state)
    (id : uuid) (from to : election_status) :
  has_role d (Some uid) role_admin = true ->
  election_ids_unique d ->
  shows_store d st ->
  ElectionsManagement.lists st id (fun e => status_eqb (e_status e) from) = true ->
  lifecycle_edge from to = true ->
  let r := ElectionsManagement.updateElectionStatus (Some uid) id to d st in
  shows_store (snd (fst r)) (fst (fst r))
  /\ lifecycle_step d (snd (fst r))
  /\ user_roles (snd (fst r)) = user_roles d.
Proof.
  intros Ha Hu Hshow Hl Hedge r. subst r.
  destruct (lists_row d st id _ Hshow Hl) as (e0 & Hin0 & Hid0 & Hs0).
  assert (Hfrom : e_status e0 = from) by (destruct (e_status e0), from; simpl in Hs0; congruence).
  unfold ElectionsManagement.updateElectionStatus, update_election_status, admin_policy.
  rewrite Ha. cbn [andb fst snd].
  split; [apply (loadElections_shows d); [exact Ha | reflexivity]|].
  split; [|reflexivity].
  apply lifecycle_step_update; [exact Hu | | |].
  - intros e. destruct (String.eqb (e_id e) id); reflexivity.
  - intros e Hin. destruct (String.eqb_spec (e_id e) id) as [Heq|_]; [|left; reflexivity].
    right. cbn [e_status].
    assert (e = e0) by (eapply key_injective; [exact Hu | | | congruence]; assumption).
    subst e. rewrite Hfrom. exact Hedge.
  - intros e Hin Hold. destruct (String.eqb_spec (e_id e) id) as [Heq|_]; [|exact Hold].
    cbn [e_results_published e_status]. intros Ht.
    assert (e = e0) by (eapply key_injective; [exact Hu | | | congruence]; assumption).
    subst e. specialize (Hold Ht). rewrite Hold in Hfrom. subst from. discriminate.
Qed.

(** Every press of a button of the elections page by an administrator
    whose page lists the store's elections. *)
Lemma handle_lifecycle (d : db) (uid : uuid) (ev : ElectionsManagement.event)
    (st : ElectionsManagement.state) :
  has_role d (Some uid) role_admin = true ->
  election_ids_unique d ->
  shows_store d st ->
  let r := ElectionsManagement.handle (Some uid) ev d st in
  shows_store (snd (fst r)) (fst (fst r))
  /\ lifecycle_step d (snd (fst r))
  /\ user_roles (snd (fst r)) = user_roles d.
Proof.
  intros Ha Hu Hshow r. subst r. unfold ElectionsManagement.handle.
  assert (Hnothing : shows_store d st /\ lifecycle_step d d /\ user_roles d = user_roles d).
  { split; [exact Hshow|]. split; [apply lifecycle_step_same; auto | reflexivity]. }
  destruct (ElectionsManagement.enabled st ev) eqn:Hen; cbn [negb]; [|exact Hnothing].
  unfold ElectionsManagement.enabled in Hen. apply andb_prop in Hen as [_ Hen].
  destruct ev as [|new_id|id|id|id|id|id|id confirmed].
  - destruct Hshow as [Hel Hload]. cbn [fst snd]. split; [split; assumption|].
    split; [apply lifecycle_step_same; auto | reflexivity].
  - unfold ElectionsManagement.onSubmit.
    destruct (insert_election d (Some uid) new_id uid) as [d'|error] eqn:Hins;
      [|exact Hnothing].
    apply insert_election_accepts in Hins as [Hfresh ->]. cbn [fst snd].
    split; [apply (loadElections_shows d); [exact Ha | reflexivity]|].
    split; [|reflexivity].
    eapply lifecycle_step_insert; [exact Hu | | | | reflexivity]; [exact Hfresh | |];
      reflexivity.
  - apply (status_button_step d uid st id scheduled active); auto.
  - apply (status_button_step d uid st id active paused); auto.
  - apply (status_button_step d uid st id active ended); auto.
  - apply (status_button_step d uid st id paused active); auto.
  - destruct (lists_row d st id _ Hshow Hen) as (e0 & Hin0 & Hid0 & Hs0).
    apply andb_prop in Hs0 as [Hended _].
    assert (Hst0 : e_status e0 = ended) by (destruct (e_status e0); simpl in Hended; congruence).
    unfold ElectionsManagement.publishResults, publish_results, admin_policy.
    rewrite Ha. cbn [andb fst snd].
    split; [apply (loadElections_shows d); [exact Ha | reflexivity]|].
    split; [|reflexivity].
    apply lifecycle_step_update; [exact Hu | | |].
    + intros e. destruct (String.eqb (e_id e) id); reflexivity.
    + intros e Hin. left. destruct (String.eqb (e_id e) id); reflexivity.
    + intros e Hin Hold. destruct (String.eqb_spec (e_id e) id) as [Heq|_]; [|exact Hold].
      cbn [e_status]. intros _.
      assert (e = e0) by (eapply key_injective; [exact Hu | | | congruence]; assumption).
      subst e. exact Hst0.
  - unfold ElectionsManagement.deleteElection. destruct confirmed; cbn [negb];
      [|exact Hnothing].
    unfold delete_election, admin_policy. rewrite Ha. cbn [andb].
    destruct (existsb _ (elections d)); cbn [fst snd].
    + split; [apply (loadElections_shows d); [exact Ha | reflexivity]|].
      split; [|reflexivity].
      eapply lifecycle_step_filter; [exact Hu | reflexivity].
    + split; [apply (loadElections_shows d); [exact Ha | reflexivity]|].
      split; [apply lifecycle_step_same; auto | reflexivity].
Qed.

(** X13. The buttons of the elections page implement the lifecycle
    scheduled -> active -> {paused, ended}, paused -> active.  When an
    administrator presses any button on a page that lists the store's
    elections (ids unique), then afterwards the page again lists the store's
    elections, ids are still unique, every election present before and after
    has kept its status or moved along one of these four edges (so an ended
    election stays ended), results are published only for ended elections if
    that held before, and an election with a new id is scheduled and
    unpublished. *)
Theorem elections_page_follows_lifecycle :
  forall (d : db) (uid : uuid) (ev : ElectionsManagement.event)
         (st : ElectionsManagement.state),
    has_role d (Some uid) role_admin = true ->
    election_ids_unique d ->
    shows_store d st ->
    shows_store (snd (fst (ElectionsManagement.handle (Some uid) ev d st)))
                (fst (fst (ElectionsManagement.handle (Some uid) ev d st)))
    /\ lifecycle_step d (snd (fst (ElectionsManagement.handle (Some uid) ev d st))).
Proof.
  intros d uid ev st Ha Hu Hshow.
  destruct (handle_lifecycle d uid ev st Ha Hu Hshow) as (H1 & H2 & _). auto.
Qed.

Lemma checkAdmin_admin (d : db) (uid : uuid) :
  roles_unique d ->
  has_role d (Some uid) role_admin = true ->
  checkAdmin (Some uid) d = (true, []).
Proof.
  intros Hu Ha. unfold checkAdmin, select_admin_role.
  destruct (filter_unique
              (fun ur => user_roles_select_policy d (Some uid) ur
                         && String.eqb (fst ur) uid && role_eqb (snd ur) role_admin)
              (uid, role_admin) (user_roles d)) as [[-> _]|[_ Hnin]].
  - intros [u r]. unfold user_roles_select_policy. simpl.
    rewrite !andb_true_iff, String.eqb_eq, role_eqb_eq. split.
    + intros [[_ ->] ->]. reflexivity.
    + intros [= -> ->]. rewrite String.eqb_refl. auto.
  - exact Hu.
  - reflexivity.
  - exfalso. apply Hnin. apply has_role_In. exact Ha.
Qed.

Lemma interact_lifecycle (uid : uuid) (evs : list ElectionsManagement.event) :
  forall (d : db) (st : ElectionsManagement.state),
    has_role d (Some uid) role_admin = true ->
    election_ids_unique d ->
    published_only_when_ended d ->
    shows_store d st ->
    let r := ElectionsManagement.interact (Some uid) evs d st in
    published_only_when_ended (snd (fst r))
    /\ election_ids_unique (snd (fst r))
    /\ shows_store (snd (fst r)) (fst (fst r)).
Proof.
  induction evs as [|ev evs IH]; intros d st Ha Hu Hinv Hshow; [cbn; auto|].
  cbn [ElectionsManagement.interact].
  destruct (handle_lifecycle d uid ev st Ha Hu Hshow) as (Hshow1 & Hstep & Hroles).
  destruct (ElectionsManagement.handle (Some uid) ev d st) as [[st1 d1] eff1].
  cbn [fst snd] in *. destruct Hstep as (Hu1 & _ & Hinv1 & _).
  assert (Ha1 : has_role d1 (Some uid) role_admin = true)
    by (rewrite (has_role_same_roles d d1) by exact Hroles; exact Ha).
  specialize (IH d1 st1 Ha1 Hu1 (Hinv1 Hinv) Hshow1).
  destruct (ElectionsManagement.interact (Some uid) evs d1 st1) as [[st2 d2] eff2].
  exact IH.
Qed.

(** X14. Through a whole visit of the elections page by an administrator
    (the page mounted by [checkAdminAndLoadElections], then any presses of
    its buttons), on a store with unique election ids and unique roles in
    which results were published for ended elections only, results stay
    published for ended elections only: no sequence of presses yields an
    election that is open for voting with its results published. *)
Theorem published_elections_are_ended :
  forall (d : db) (uid : uuid) (evs : list ElectionsManagement.event),
    roles_unique d ->
    has_role d (Some uid) role_admin = true ->
    election_ids_unique d ->
    published_only_when_ended d ->
    let st0 := fst (ElectionsManagement.checkAdminAndLoadElections (Some uid) d
                      ElectionsManagement.initial) in
    let r := ElectionsManagement.interact (Some uid) evs d st0 in
    published_only_when_ended (snd (fst r))
    /\ election_ids_unique (snd (fst r))
    /\ shows_store (snd (fst r)) (fst (fst r)).
Proof.
  intros d uid evs Hr Ha Hu Hinv st0.
  apply interact_lifecycle; try assumption.
  subst st0. unfold ElectionsManagement.checkAdminAndLoadElections.
  rewrite (checkAdmin_admin d uid Hr Ha). cbn [fst].
  apply (loadElections_shows d); [exact Ha | reflexivity].
Qed.

Lemma elections_page_follows_lifecycle_witness :
  (has_role stray_start (Some "adm") role_admin = true
   /\ election_ids_unique stray_start
   /\ shows_store stray_start
        (ElectionsManagement.loadElections (Some "adm") stray_start
           ElectionsManagement.initial))
  /\ lifecycle_step stray_start
       (snd (fst (ElectionsManagement.handle (Some "adm") (ElectionsManagement.click_pause "G")
                    stray_start
                    (ElectionsManagement.loadElections (Some "adm") stray_start
                       ElectionsManagement.initial)))).
Proof.
  assert (Ha : has_role stray_start (Some "adm") role_admin = true) by reflexivity.
  assert (Hu : election_ids_unique stray_start).
  { unfold election_ids_unique. simpl.
    repeat (constructor; [simpl; intuition discriminate|]). constructor. }
  assert (Hs : shows_store stray_start
                 (ElectionsManagement.loadElections (Some "adm") stray_start
                    ElectionsManagement.initial)) by (split; reflexivity).
  split; [repeat split; assumption|].
  exact (proj2 (elections_page_follows_lifecycle stray_start "adm"
                  (ElectionsManagement.click_pause "G") _ Ha Hu Hs)).
Defined.

Lemma published_elections_are_ended_witness :
  (roles_unique stray_start
   /\ has_role stray_start (Some "adm") role_admin = true
   /\ election_ids_unique stray_start
   /\ published_only_when_ended stray_start)
  /\ published_only_when_ended
       (snd (fst (ElectionsManagement.interact (Some "adm")
                    [ElectionsManagement.click_pause "G"; ElectionsManagement.click_resume "G";
                     ElectionsManagement.click_end "G"; ElectionsManagement.click_publish "G";
                     ElectionsManagement.click_start "G"]
                    stray_start
                    (fst (ElectionsManagement.checkAdminAndLoadElections (Some "adm")
                            stray_start ElectionsManagement.initial))))).
Proof.
  assert (Hr : roles_unique stray_start).
  { unfold roles_unique. simpl.
    repeat (constructor; [simpl; intuition discriminate|]). constructor. }
  assert (Ha : has_role stray_start (Some "adm") role_admin = true) by reflexivity.
  assert (Hu : election_ids_unique stray_start).
  { unfold election_ids_unique. simpl.
    repeat (constructor; [simpl; intuition discriminate|]). constructor. }
  assert (Hp : published_only_when_ended stray_start).
  { unfold published_only_when_ended. simpl. repeat constructor; simpl; intros; congruence. }
  split; [repeat split; assumption|].
  exact (proj1 (published_elections_are_ended stray_start "adm" _ Hr Ha Hu Hp)).
Defined.

(** ** Who gets past the pages' checks *)

Lemma select_election_Some (d : db) (uid : option uuid) (id : uuid) (e : election_row) :
  select_election d uid id = Some e ->
  In e (elections d) /\ e_id e = id /\ elections_select_policy d uid e = true.
Proof.
  unfold select_election. intros Hs.
  assert (Hin : In e (List.filter
            (fun e => elections_select_policy d uid e && String.eqb (e_id e) id)
            (elections d))).
  { destruct (List.filter _ (elections d)) as [|r [|r' l]]; simpl in Hs; try discriminate.
    injection Hs as ->. left; reflexivity. }
  apply filter_In in Hin as [Hin Hb]. apply andb_prop in Hb as [Hp Hid].
  apply String.eqb_eq in Hid. auto.
Qed.

(** X15. The elections page is inert for whoever lacks the admin role: the
    mount-time check sends them away (to sign in when anonymous, to the
    dashboard otherwise) and leaves the page loading, so that no sequence of
    presses changes the store or produces any effect. *)
Theorem elections_page_inert_without_role :
  forall (d : db) (session : option uuid) (evs : list ElectionsManagement.event),
    has_role d session role_admin = false ->
    (snd (ElectionsManagement.checkAdminAndLoadElections session d
            ElectionsManagement.initial)
     = match session with
       | None => [navigate "/auth"]
       | Some _ => [toast_error "Access denied. Admin privileges required.";
                    navigate "/dashboard"]
       end)
    /\ ElectionsManagement.interact session evs d
         (fst (ElectionsManagement.checkAdminAndLoadElections session d
                 ElectionsManagement.initial))
       = (ElectionsManagement.initial, d, []).
Proof.
  intros d session evs Hna.
  assert (Hgate : checkAdmin session d
                  = (false, match session with
                            | None => [navigate "/auth"]
                            | Some _ => [toast_error "Access denied. Admin privileges required.";
                                         navigate "/dashboard"]
                            end)).
  { unfold checkAdmin. destruct session as [uid|]; [|reflexivity].
    unfold select_admin_role. rewrite filter_none_in; [reflexivity|].
    intros [u r] Hin. apply not_true_is_false. intros Hb.
    rewrite !andb_true_iff, String.eqb_eq, role_eqb_eq in Hb. cbn [fst snd] in Hb.
    destruct Hb as [[_ ->] ->].
    apply has_role_In in Hin. congruence. }
  unfold ElectionsManagement.checkAdminAndLoadElections. rewrite Hgate. cbn [fst snd].
  split; [reflexivity|].
  induction evs as [|ev evs IH]; [reflexivity|].
  cbn [ElectionsManagement.interact]. unfold ElectionsManagement.handle at 1.
  cbn [ElectionsManagement.enabled ElectionsManagement.loading ElectionsManagement.initial
       negb andb].
  rewrite IH. reflexivity.
Qed.

Lemma elections_page_inert_without_role_witness :
  has_role stray_start (Some "v1") role_admin = false
  /\ ElectionsManagement.interact (Some "v1")
       [ElectionsManagement.click_end "G"; ElectionsManagement.click_delete "E" true]
       stray_start
       (fst (ElectionsManagement.checkAdminAndLoadElections (Some "v1") stray_start
               ElectionsManagement.initial))
     = (ElectionsManagement.initial, stray_start, []).
Proof.
  assert (Hna : has_role stray_start (Some "v1") role_admin = false) by reflexivity.
  split; [exact Hna|].
  exact (proj2 (elections_page_inert_without_role stray_start (Some "v1") _ Hna)).
Defined.

(** X16. On a store with unique election ids, the voting page loads (stops
    loading, without toast or redirect) exactly when there is a session and
    the store holds an election with the requested id whose status is
    active; in every other case the page stays loading and leaves for the
    sign-in page or the dashboard. *)
Theorem voting_page_loads_iff_active :
  forall (d : db) (session : option uuid) (electionId : uuid),
    election_ids_unique d ->
    (Vote.loading (fst (Vote.loadElection electionId session d Vote.initial)) = false
     <-> exists uid e, session = Some uid /\ In e (elections d)
                       /\ e_id e = electionId /\ e_status e = active)
    /\ (Vote.loading (fst (Vote.loadElection electionId session d Vote.initial)) = true
        -> Vote.loadElection electionId session d Vote.initial
           = (Vote.initial,
              match session with
              | None => [navigate "/auth"]
              | Some _ => [toast_error "This election is not available for voting";
                           navigate "/dashboard"]
              end)).
Proof.
  intros d session electionId Hu. unfold Vote.loadElection.
  destruct session as [uid|]; cbn [fst Vote.loading Vote.initial].
  - destruct (Vote.available_for_voting (select_election d (Some uid) electionId)) eqn:Hav;
      cbn [negb fst Vote.loading Vote.initial].
    + split; [|discriminate]. split; [intros _|reflexivity].
      unfold Vote.available_for_voting in Hav.
      destruct (select_election d (Some uid) electionId) as [e|] eqn:Hs; [|discriminate].
      apply select_election_Some in Hs as (Hin & Hid & _).
      exists uid, e. repeat split; try assumption.
      destruct (e_status e); simpl in Hav; congruence.
    + split; [|reflexivity]. split; [discriminate|].
      intros (uid' & e & [= <-] & Hin & Hid & Hact). exfalso.
      assert (Hvis : elections_select_policy d (Some uid) e = true)
        by (unfold elections_select_policy; rewrite Hact; reflexivity).
      rewrite <- Hid, (select_election_visible d (Some uid) e Hu Hin Hvis) in Hav.
      unfold Vote.available_for_voting in Hav. rewrite Hact in Hav. discriminate.
  - split; [|reflexivity]. split; [discriminate|].
    intros (uid' & e & [=] & _).
Qed.

Lemma voting_page_loads_iff_active_witness :
  election_ids_unique stray_start
  /\ (Vote.loading (fst (Vote.loadElection "G" (Some "v1") stray_start Vote.initial)) = false
      <-> exists uid e, Some "v1" = Some uid /\ In e (elections stray_start)
                        /\ e_id e = "G" /\ e_status e = active).
Proof.
  assert (Hu : election_ids_unique stray_start).
  { unfold election_ids_unique. simpl.
    repeat (constructor; [simpl; intuition discriminate|]). constructor. }
  split; [exact Hu|].
  exact (proj1 (voting_page_loads_iff_active stray_start (Some "v1") "G" Hu)).
Defined.

(** X17. A viewer without the admin role gets no results for an election
    whose status is scheduled or paused, even when its results are
    published: the election row is not readable for them, so [loadResults]
    leaves for the dashboard with nothing stored. *)
Theorem results_hidden_unless_open_or_ended :
  forall (num : Type) (N : Number num) (d : db) (uid : option uuid) (electionId : uuid)
         (st : Results.state num),
    has_role d uid role_admin = false ->
    Forall (fun e => e_id e = electionId -> e_status e = scheduled \/ e_status e = paused)
           (elections d) ->
    Results.loadResults electionId uid d st = (st, [navigate "/dashboard"]).
Proof.
  intros num N d uid electionId st Hna Hall.
  apply loadResults_unpublished.
  destruct (select_election d uid electionId) as [e|] eqn:Hs; [|reflexivity].
  apply select_election_Some in Hs as (Hin & Hid & Hvis). exfalso.
  rewrite List.Forall_forall in Hall. specialize (Hall e Hin Hid).
  unfold elections_select_policy in Hvis. rewrite Hna in Hvis.
  destruct Hall as [Hst|Hst]; rewrite Hst in Hvis; discriminate.
Qed.

Lemma results_hidden_unless_open_or_ended_witness :
  (has_role paused_store (Some "v1") role_admin = false
   /\ Forall (fun e => e_id e = "G" -> e_status e = scheduled \/ e_status e = paused)
             (elections paused_store))
  /\ Results.loadResults (num:=binary64) "G" (Some "v1") paused_store Results.initial
     = (Results.initial, [navigate "/dashboard"]).
Proof.
  assert (Hna : has_role paused_store (Some "v1") role_admin = false) by reflexivity.
  assert (Hall : Forall (fun e => e_id e = "G" -> e_status e = scheduled \/ e_status e = paused)
                   (elections paused_store)).
  { constructor; [simpl; intros; discriminate|].
    constructor; [simpl; intros; right; reflexivity|]. constructor. }
  split; [split; assumption|].
  exact (results_hidden_unless_open_or_ended binary64 _ paused_store (Some "v1") "G"
           Results.initial Hna Hall).
Defined.

Lemma voteCounts_counts_ballots_witness :
  Results.voteCounts ["a"; "b"; "a"] !! "a" = Some 2
  /\ 2 = ballot_count ["a"; "b"; "a"] "a" /\ 0 < 2.
Proof.
  assert (Hl : Results.voteCounts ["a"; "b"; "a"] !! "a" = Some 2) by (vm_compute; reflexivity).
  split; [exact Hl|].
  exact (proj2 (voteCounts_counts_ballots ["a"; "b"; "a"] "a") 2 Hl).
Defined.

Lemma visit_casts_one_listed_ballot_witness :
  snd (Vote.loadElection "G" (Some "v1") paused_store Vote.initial) <> []
  /\ exists new,
       votes (snd (fst (Vote.interact "G" (Some "v1")
                          [Vote.click_candidate "g"; Vote.click_cast_vote;
                           Vote.click_start_verification true;
                           Vote.click_verify_and_submit "1700000000000" "k3x9q2a7b"]
                          paused_store
                          (fst (Vote.loadElection "G" (Some "v1") paused_store Vote.initial)))))
       = votes paused_store ++ new
       /\ new = [].
Proof.
  assert (Hne : snd (Vote.loadElection "G" (Some "v1") paused_store Vote.initial) <> [])
    by (vm_compute; discriminate).
  split; [exact Hne|].
  destruct (visit_casts_one_listed_ballot "G" (Some "v1")
              [Vote.click_candidate "g"; Vote.click_cast_vote;
               Vote.click_start_verification true;
               Vote.click_verify_and_submit "1700000000000" "k3x9q2a7b"]
              paused_store) as (new & Hv & _ & _ & Hnil).
  exists new. split; [exact Hv | exact (Hnil Hne)].
Defined.
